(** * Name allocation and versioned checkpoint store

    A shallow embedding of [persistent_storage_system/helpers_storage.py],
    of the document writers in [yaml_handler.py] / [json_handler.py] and of
    the [MLStorage] class of
    [zzzz_LLM_made_demos/complicated_attempts/shared_storage3.py].

    Paths are Python [str] values and are compared as strings, exactly as
    [os.path.exists] receives them (two spellings of one path, such as
    [a//b] and [a/b], are different keys); the file system is a finite map
    from path strings to nodes.  Python [int] is [Z]; [f"{n}"] is stdpp's
    [pretty].  Exceptions keep the state reached when they are raised.
    Every [while] loop takes a fuel argument and raises [OutOfFuel] when
    it is used up; the theorems about a loop give the fuel that suffices.
    [random.randrange] and [datetime.now] are an explicit argument and a
    clock in the world. *)

From Stdlib Require Import ZArith Lia Ascii String.
From stdpp Require Import base gmap strings list fin_maps pretty.

Local Open Scope Z_scope.
Local Open Scope string_scope.

(** ** Strings *)

Module Str.

(** [c in s], character membership. *)
Fixpoint has (c : ascii) (s : string) : bool :=
  match s with
  | "" => false
  | String a s' => if decide (a = c) then true else has c s'
  end.

(** [s.rfind(c)] as a split: [Some (h, t)] when [s = h + c + t] and [c]
    does not occur in [t]. *)
Fixpoint rsplit (c : ascii) (s : string) : option (string * string) :=
  match s with
  | "" => None
  | String a s' =>
      match rsplit c s' with
      | Some (h, t) => Some (String a h, t)
      | None => if decide (a = c) then Some ("", s') else None
      end
  end.

(** [s.rstrip('/')], with [""] when [s] consists of slashes only. *)
Fixpoint rstrip_slash (s : string) : string :=
  match s with
  | "" => ""
  | String a s' =>
      let r := rstrip_slash s' in
      if decide (a = "/"%char ∧ r = "") then "" else String a r
  end.

End Str.

(** ** Paths ([os.path] on POSIX) *)

Definition starts_with_slash (s : string) : bool :=
  match s with
  | String a _ => bool_decide (a = "/"%char)
  | "" => false
  end.

Fixpoint ends_with_slash (s : string) : bool :=
  match s with
  | "" => false
  | String a "" => bool_decide (a = "/"%char)
  | String _ s' => ends_with_slash s'
  end.

(** [os.path.basename(p)]: [i = p.rfind('/') + 1; return p[i:]]. *)
Definition osp_basename (p : string) : string :=
  match Str.rsplit "/" p with
  | Some (_, t) => t
  | None => p
  end.

(** [os.path.dirname(p)]: the head [p[:i]], stripped of trailing slashes
    unless it consists of slashes only. *)
Definition osp_dirname (p : string) : string :=
  match Str.rsplit "/" p with
  | Some (h, _) =>
      let head := h +:+ "/" in
      if decide (Str.rstrip_slash head = "") then head
      else Str.rstrip_slash head
  | None => ""
  end.

(** The part of [os.path.join(a, b)] that comes before [b] when [b] is
    relative. *)
Definition dirprefix (a : string) : string :=
  if decide (a = "") then a
  else if ends_with_slash a then a
  else a +:+ "/".

(** [os.path.join(a, b)]; [Path(a) / b] agrees with it on paths that are
    already in normal form. *)
Definition osp_join (a b : string) : string :=
  if starts_with_slash b then b else dirprefix a +:+ b.

(** The proper ancestors of a path in the order in which [os.makedirs]
    creates them: every non-empty prefix that stops right before a run of
    slashes. *)
Fixpoint ancestors_from (acc p : string) : list string :=
  match p with
  | "" => []
  | String a p' =>
      (if decide (a = "/"%char ∧ acc ≠ "" ∧ ends_with_slash acc = false)
       then [acc] else [])
        ++ ancestors_from (acc +:+ String a "") p'
  end.

Definition ancestors (p : string) : list string := ancestors_from "" p.

(** ** File contents, file system, world *)

(** An object handed to [save_checkpoint]: an opaque picklable payload
    that may expose a [prepare_for_save] hook (as [TrainingLogs] does,
    whose hook sets [is_ready_for_save]). *)
Record pyobj := PyObj {
  po_data : string;
  po_has_prepare_for_save : bool;
  po_is_ready_for_save : bool;
}.

(** YAML / JSON values. A Python [dict] keeps insertion order and is an
    association list with unique keys. *)
#[local] Unset Elimination Schemes.
Inductive yval :=
  | YNone
  | YInt (z : Z)
  | YStr (s : string)
  | YList (l : list yval)
  | YDict (d : list (string * yval)).
#[local] Set Elimination Schemes.

(** One record of the checkpoint index ([checkpoint_info]). *)
Record checkpoint_info := CheckpointInfo {
  ci_name : string;
  ci_phase : string;
  ci_saved_at : string;
  ci_files : list (string * string);
}.

Inductive content :=
  | CBytes (b : string)
  | CPickle (o : pyobj)
  | CYaml (d : list (string * yval))
  | CJson (db : gmap string checkpoint_info).

Inductive node :=
  | File (c : content)
  | Dir.

Inductive event :=
  | EvMkdir (p : string)
  | EvWrite (p : string) (c : content)
  | EvRemove (p : string)
  | EvPrepare (role : string).

Record world := World {
  w_fs : gmap string node;
  w_log : list event;
  w_clock : nat;
}.

Definition set_fs (f : gmap string node → gmap string node) (w : world) : world :=
  World (f (w_fs w)) (w_log w) (w_clock w).

Definition add_log (e : event) (w : world) : world :=
  World (w_fs w) (w_log w ++ [e]) (w_clock w).

Definition fs_exists (m : gmap string node) (p : string) : bool :=
  match m !! p with Some _ => true | None => false end.

Definition is_file (m : gmap string node) (p : string) : Prop :=
  ∃ c, m !! p = Some (File c).

(** ** Exceptions and the state-and-exception monad

    A raised exception keeps the state reached so far, as in Python. *)

Inductive exn :=
  | ValueError
  | KeyError
  | IndexError
  | TypeError
  | AttributeError
  | FileNotFoundError
  | FileExistsError
  | NotADirectoryError
  | IsADirectoryError
  | UnpicklingError
  | OutOfFuel.

Inductive res (A : Type) :=
  | Ok (a : A)
  | Raise (e : exn).
Arguments Ok {A} a.
Arguments Raise {A} e.

Definition M (St A : Type) : Type := St → res A * St.

Definition ret {St A} (a : A) : M St A := λ s, (Ok a, s).
Definition raise {St A} (e : exn) : M St A := λ s, (Raise e, s).
Definition bind {St A B} (m : M St A) (k : A → M St B) : M St B :=
  λ s, match m s with
       | (Ok a, s') => k a s'
       | (Raise e, s') => (Raise e, s')
       end.
Definition gets {St A} (f : St → A) : M St A := λ s, (Ok (f s), s).
Definition modify {St} (f : St → St) : M St unit := λ s, (Ok tt, f s).

Notation "x <- m ;; k" := (bind m (λ x, k))
  (at level 100, m at next level, right associativity).
Notation "m ;;; k" := (bind m (λ _, k))
  (at level 100, right associativity).

(** ** File-system primitives *)

(** [os.path.exists(p)] *)
Definition osp_exists (p : string) : M world bool :=
  gets (λ w, fs_exists (w_fs w) p).

(** [os.mkdir] down a chain of directories, skipping those that exist. *)
Fixpoint mkdir_chain (qs : list string) : M world unit :=
  match qs with
  | [] => ret tt
  | q :: rest =>
      n <- gets (λ w, w_fs w !! q) ;;
      match n with
      | Some (File _) =>
          raise (match rest with [] => FileExistsError | _ => NotADirectoryError end)
      | Some Dir => mkdir_chain rest
      | None =>
          modify (set_fs <[q := Dir]>) ;;;
          modify (add_log (EvMkdir q)) ;;;
          mkdir_chain rest
      end
  end.

(** [os.makedirs(p, exist_ok=True)] *)
Definition os_makedirs (p : string) : M world unit :=
  if decide (p = "") then raise FileNotFoundError
  else mkdir_chain (ancestors p ++ [p]).

(** [with open(p, 'w') as f: dump(c, f)] *)
Definition open_write (p : string) (c : content) : M world unit :=
  m <- gets w_fs ;;
  match m !! p with
  | Some Dir => raise IsADirectoryError
  | _ =>
      let d := osp_dirname p in
      match (if decide (d = "") then Some Dir else m !! d) with
      | None => raise FileNotFoundError
      | Some (File _) => raise NotADirectoryError
      | Some Dir =>
          modify (set_fs <[p := File c]>) ;;;
          modify (add_log (EvWrite p c))
      end
  end.

(** [with open(p, 'r') as f: f.read()] *)
Definition open_read (p : string) : M world content :=
  m <- gets w_fs ;;
  match m !! p with
  | None => raise FileNotFoundError
  | Some Dir => raise IsADirectoryError
  | Some (File c) => ret c
  end.

(** [shutil.copy2(src, dst)]: into [dst] itself, or into the directory
    [dst] under the base name of [src]. *)
Definition sh_copy2 (src dst : string) : M world unit :=
  c <- open_read src ;;
  m <- gets w_fs ;;
  let dst :=
    match m !! dst with
    | Some Dir => osp_join dst (osp_basename src)
    | _ => dst
    end in
  open_write dst c.

(** [os.remove(p)] *)
Definition os_remove (p : string) : M world unit :=
  m <- gets w_fs ;;
  match m !! p with
  | None => raise FileNotFoundError
  | Some Dir => raise IsADirectoryError
  | Some (File _) =>
      modify (set_fs (delete p)) ;;;
      modify (add_log (EvRemove p))
  end.

(** ** [helpers_storage.py] *)

(** [novel_start_of_folder]: the [while osp.exists(folder_path)] loop.
    Its state is [prefix], [counter] and [folder_path]; note that
    [folder_path] is recomputed before [prefix] is extended. *)
Fixpoint novel_start_of_folder_loop (fuel : nat)
    (path_to_parent_folder semantic_id prefix : string) (counter : Z)
    (folder_path : string) : M world string :=
  b <- osp_exists folder_path ;;
  if b : bool then
    match fuel with
    | O => raise OutOfFuel
    | S fuel' =>
        let counter := counter - 1 in
        let folder_path :=
          osp_join path_to_parent_folder
            (prefix +:+ pretty counter +:+ "_" +:+ semantic_id) in
        if decide (counter ≤ 100)%Z then
          novel_start_of_folder_loop fuel' path_to_parent_folder semantic_id
            (prefix +:+ "#") 999 folder_path
        else
          novel_start_of_folder_loop fuel' path_to_parent_folder semantic_id
            prefix counter folder_path
    end
  else ret folder_path.

Definition novel_start_of_folder (fuel : nat)
    (path_to_parent_folder semantic_id : string) : M world string :=
  let prefix := "" in
  let counter := 999 in
  let folder_path :=
    osp_join path_to_parent_folder
      (prefix +:+ pretty counter +:+ "_" +:+ semantic_id) in
  folder_path <- novel_start_of_folder_loop fuel path_to_parent_folder
                   semantic_id prefix counter folder_path ;;
  os_makedirs folder_path ;;;
  ret folder_path.

(** [n] successive calls with the same arguments; the returned paths in
    call order. *)
Fixpoint novel_start_of_folder_calls (fuel : nat) (n : nat)
    (path_to_parent_folder semantic_id : string) : M world (list string) :=
  match n with
  | O => ret []
  | S n' =>
      p <- novel_start_of_folder fuel path_to_parent_folder semantic_id ;;
      ps <- novel_start_of_folder_calls fuel n' path_to_parent_folder
              semantic_id ;;
      ret (p :: ps)
  end.

(** The three outcomes of a backup: [True], [False], [None]. *)
Inductive backup_outcome :=
  | COPIED
  | ALREADY_PRESENT
  | MISSING.

(** [make_non_duplicate_backups]: the body of the [for] loop appends one
    outcome per path. *)
Fixpoint make_non_duplicate_backups (paths_of_files_to_back_up : list string)
    (path_to_backup_folder : string) : M world (list backup_outcome) :=
  match paths_of_files_to_back_up with
  | [] => ret []
  | path :: rest =>
      ex <- osp_exists path ;;
      if negb ex then
        did_backup <- make_non_duplicate_backups rest path_to_backup_folder ;;
        ret (MISSING :: did_backup)
      else
        let file_name := osp_basename path in
        let backup_path := osp_join path_to_backup_folder file_name in
        ex' <- osp_exists backup_path ;;
        if ex' : bool then
          did_backup <- make_non_duplicate_backups rest path_to_backup_folder ;;
          ret (ALREADY_PRESENT :: did_backup)
        else
          os_makedirs (osp_dirname backup_path) ;;;
          sh_copy2 path backup_path ;;;
          did_backup <- make_non_duplicate_backups rest path_to_backup_folder ;;
          ret (COPIED :: did_backup)
  end.

(** [get_no_overwrite_path]: the inner [while osp.exists(file_path)] loop. *)
Fixpoint get_no_overwrite_path_loop (fuel : nat)
    (file_path_no_suffix suffix : string) (add_id : Z) (file_path : string)
    : M world string :=
  b <- osp_exists file_path ;;
  if b : bool then
    match fuel with
    | O => raise OutOfFuel
    | S fuel' =>
        let add_id := add_id + 1 in
        let file_path :=
          file_path_no_suffix +:+ "_" +:+ pretty add_id +:+ suffix in
        get_no_overwrite_path_loop fuel' file_path_no_suffix suffix add_id
          file_path
    end
  else ret file_path.

(** Returns [(file_path, old_file_path)]. The keyword arguments
    [make_folders_on_path] and [warn_if_already_exists] are accepted and
    never read. *)
Definition get_no_overwrite_path (fuel : nat)
    (file_path_no_suffix : string) (suffix : string)
    (make_folders_on_path : bool) (warn_if_already_exists : bool)
    : M world (string * string) :=
  let file_path := file_path_no_suffix +:+ suffix in
  let old_file_path := file_path in
  b <- osp_exists file_path ;;
  if b : bool then
    let add_id := 1 in
    let file_path :=
      file_path_no_suffix +:+ "_" +:+ pretty add_id +:+ suffix in
    file_path <- get_no_overwrite_path_loop fuel file_path_no_suffix suffix
                   add_id file_path ;;
    ret (file_path, old_file_path)
  else ret (file_path, old_file_path).

(** Base-62 alphabet: digits, uppercase, lowercase. *)
Definition _ALPHANUM_CHARS : string :=
  "0123456789ABCDEFGHIJKLMNOPQRSTUVWXYZabcdefghijklmnopqrstuvwxyz".

(** [_ALPHANUM_CHARS[rem]] *)
Definition alphanum_char (rem : Z) : ascii :=
  match String.get (Z.to_nat rem) _ALPHANUM_CHARS with
  | Some c => c
  | None => "000"%char
  end.

(** The list [chars] after the [for _ in range(length)] loop of
    [_to_base62]: least significant digit first. *)
Fixpoint _to_base62_chars (num : Z) (length : nat) : list ascii :=
  match length with
  | O => []
  | S length' =>
      let base := Z.of_nat (String.length _ALPHANUM_CHARS) in
      let (num, rem) := (num `div` base, num `mod` base) in
      alphanum_char rem :: _to_base62_chars num length'
  end.

(** [''.join(reversed(chars))] *)
Definition _to_base62 (num : Z) (length : nat) : string :=
  string_of_list_ascii (rev (_to_base62_chars num length)).

(** [novel_folder_anum]: the [while True] loop, from the current [n]. *)
Fixpoint novel_folder_anum_loop (fuel : nat) (ptpf : string)
    (digit_num : nat) (max_num : Z) (n : Z) : M world string :=
  let name := _to_base62 n digit_num in
  let new_folder_path := osp_join ptpf name in
  b <- osp_exists new_folder_path ;;
  if negb b then
    os_makedirs new_folder_path ;;;
    ret new_folder_path
  else
    match fuel with
    | O => raise OutOfFuel
    | S fuel' =>
        novel_folder_anum_loop fuel' ptpf digit_num max_num
          ((n + 1) `mod` max_num)
    end.

(** [random_n] is the value drawn by [random.randrange(max_num)]. *)
Definition novel_folder_anum (fuel : nat) (random_n : Z)
    (path_to_parent_folder : string) (digit_num : nat) : M world string :=
  let max_num := Z.of_nat (String.length _ALPHANUM_CHARS) ^ Z.of_nat digit_num in
  let n := random_n in
  let ptpf := path_to_parent_folder in
  novel_folder_anum_loop fuel ptpf digit_num max_num n.

(** ** Python dictionaries *)

Section pydict.
Context {V : Type}.

(** [d[k]] / [d.get(k)] *)
Fixpoint dict_get (k : string) (d : list (string * V)) : option V :=
  match d with
  | [] => None
  | (k', v) :: d' => if decide (k' = k) then Some v else dict_get k d'
  end.

(** [d[k] = v]: replaces the value in place, or appends a new key. *)
Fixpoint dict_set (k : string) (v : V) (d : list (string * V))
    : list (string * V) :=
  match d with
  | [] => [(k, v)]
  | (k', v') :: d' =>
      if decide (k' = k) then (k, v) :: d' else (k', v') :: dict_set k v d'
  end.

(** [k in d] *)
Definition dict_has (k : string) (d : list (string * V)) : bool :=
  match dict_get k d with Some _ => true | None => false end.
End pydict.

(** ** [pathlib] *)

(** [Path(p).name] for a path that does not end in a slash. *)
Definition path_name (p : string) : string := osp_basename p.

(** [Path(p).parent], as a string. *)
Definition path_parent (p : string) : string :=
  let d := osp_dirname p in
  if decide (d = "") then "." else d.

(** [str(Path(p).with_suffix(''))]: drops the last suffix of the final
    component; a component without a stem or without an extension has no
    suffix. *)
Definition path_with_suffix_empty (p : string) : string :=
  let (dir, name) :=
    match Str.rsplit "/" p with
    | Some (h, t) => (h +:+ "/", t)
    | None => ("", p)
    end in
  match Str.rsplit "." name with
  | Some (stem, ext) =>
      if decide (stem ≠ "" ∧ ext ≠ "") then dir +:+ stem else p
  | None => p
  end.

(** [s[len(pre):]] when [s] starts with [pre]. *)
Fixpoint strip_prefix (pre s : string) : option string :=
  match pre, s with
  | "", _ => Some s
  | String a pre', String b s' =>
      if decide (a = b) then strip_prefix pre' s' else None
  | String _ _, "" => None
  end.

(** [str(Path(p).relative_to(base))] *)
Definition path_relative_to (p base : string) : res string :=
  match strip_prefix (dirprefix base) p with
  | Some r => Ok r
  | None => Raise ValueError
  end.

(** [Path(p).parts] of a relative path: the components between slashes,
    empty ones dropped. *)
Fixpoint path_parts_from (cur p : string) : list string :=
  match p with
  | "" => if decide (cur = "") then [] else [cur]
  | String a p' =>
      if decide (a = "/"%char) then
        (if decide (cur = "") then [] else [cur]) ++ path_parts_from "" p'
      else path_parts_from (cur +:+ String a "") p'
  end.

Definition path_parts (p : string) : list string := path_parts_from "" p.

(** ** The document writers ([yaml_handler.py], [json_handler.py]) *)

(** The [while osp.exists(file_path)] loop of the no-overwrite mode. *)
Fixpoint writer_no_overwrite_loop (fuel : nat)
    (file_path_no_suffix suffix : string) (add_id : Z) (file_path : string)
    : M world string :=
  b <- osp_exists file_path ;;
  if b : bool then
    match fuel with
    | O => raise OutOfFuel
    | S fuel' =>
        let add_id := add_id + 1 in
        writer_no_overwrite_loop fuel' file_path_no_suffix suffix add_id
          (file_path_no_suffix +:+ "_" +:+ pretty add_id +:+ suffix)
    end
  else ret file_path.

(** Common body of [write_yaml] and [write_json]; [c] is the dumped
    document. *)
Definition write_document (fuel : nat) (c : content)
    (file_path_no_suffix suffix : string) (no_overwrite : bool)
    : M world unit :=
  let file_path := file_path_no_suffix +:+ suffix in
  ex <- osp_exists file_path ;;
  file_path <-
    (if no_overwrite && ex then
       let add_id := 1 in
       writer_no_overwrite_loop fuel file_path_no_suffix suffix add_id
         (file_path_no_suffix +:+ "_" +:+ pretty add_id +:+ suffix)
     else ret file_path) ;;
  os_makedirs (path_parent file_path) ;;;
  open_write file_path c.

Definition write_yaml (fuel : nat) (yaml_dict : list (string * yval))
    (file_path_no_suffix suffix : string) (no_overwrite : bool)
    : M world unit :=
  write_document fuel (CYaml yaml_dict) file_path_no_suffix suffix no_overwrite.

Definition write_json (fuel : nat) (json_dict : gmap string checkpoint_info)
    (file_path_no_suffix suffix : string) (no_overwrite : bool)
    : M world unit :=
  write_document fuel (CJson json_dict) file_path_no_suffix suffix no_overwrite.

(** ** [MLStorage] ([shared_storage3.py]) *)

Inductive ProjectPhase :=
  | SETUP
  | TRAINING
  | EVALUATION
  | READY.

(** [phase.value] *)
Definition phase_value (p : ProjectPhase) : string :=
  match p with
  | SETUP => "setup"
  | TRAINING => "training"
  | EVALUATION => "evaluation"
  | READY => "ready"
  end.

(** The fields of the singleton; a path field is [None] until
    [initial_setup] has run. *)
Record MLStorage := mkMLStorage {
  project_path : option string;
  main_yaml_path : option string;
  shared_storage_path : option string;
  file_tree_path : option string;
  tiny_db_path : option string;
  old_yamls_dir : option string;
  files_dir : option string;
  main_config : list (string * yval);
  shared_storage : list (string * yval);
  file_tree : list (string * yval);
  checkpoint_db : gmap string checkpoint_info;
  current_phase : ProjectPhase;
}.

(** The object and the world it runs in. *)
Record session := Session {
  self : MLStorage;
  env : world;
}.

Definition liftW {A} (m : M world A) : M session A :=
  λ s, let (r, w') := m (env s) in (r, Session (self s) w').

Definition set_self (f : MLStorage → MLStorage) : M session unit :=
  modify (λ s, Session (f (self s)) (env s)).

Definition set_shared_storage (d : list (string * yval)) (o : MLStorage) :=
  mkMLStorage (project_path o) (main_yaml_path o) (shared_storage_path o)
    (file_tree_path o) (tiny_db_path o) (old_yamls_dir o) (files_dir o)
    (main_config o) d (file_tree o) (checkpoint_db o) (current_phase o).

Definition set_file_tree (d : list (string * yval)) (o : MLStorage) :=
  mkMLStorage (project_path o) (main_yaml_path o) (shared_storage_path o)
    (file_tree_path o) (tiny_db_path o) (old_yamls_dir o) (files_dir o)
    (main_config o) (shared_storage o) d (checkpoint_db o) (current_phase o).

Definition set_checkpoint_db (db : gmap string checkpoint_info) (o : MLStorage) :=
  mkMLStorage (project_path o) (main_yaml_path o) (shared_storage_path o)
    (file_tree_path o) (tiny_db_path o) (old_yamls_dir o) (files_dir o)
    (main_config o) (shared_storage o) (file_tree o) db (current_phase o).

(** A path field used as a [Path]: [None / "x"] is a [TypeError]. *)
Definition the_path {St} (p : option string) : M St string :=
  match p with
  | Some x => ret x
  | None => raise TypeError
  end.

(** [datetime.now().isoformat()]: the clock advances with every reading. *)
Definition datetime_now_isoformat : M world string :=
  λ w, (Ok ("t" +:+ pretty (Z.of_nat (w_clock w))),
        World (w_fs w) (w_log w) (S (w_clock w))).

(** The byte size of a file; the size of a pickle is abstracted to the
    length of the payload. *)
Definition content_size (c : content) : Z :=
  match c with
  | CBytes b => Z.of_nat (String.length b)
  | CPickle o => Z.of_nat (String.length (po_data o))
  | CYaml d => Z.of_nat (length d)
  | CJson db => Z.of_nat (size db)
  end.

(** [os.path.getsize(p)] *)
Definition osp_getsize (p : string) : M world Z :=
  m <- gets w_fs ;;
  match m !! p with
  | Some (File c) => ret (content_size c)
  | Some Dir => ret 4096
  | None => raise FileNotFoundError
  end.

(** [obj.prepare_for_save()] *)
Definition prepare_for_save (o : pyobj) : pyobj :=
  PyObj (po_data o) (po_has_prepare_for_save o) true.

(** [_save_all_state] *)
Definition _save_all_state (fuel : nat) : M session unit :=
  o <- gets self ;;
  match project_path o with
  | None => ret tt
  | Some _ =>
      p <- the_path (main_yaml_path o) ;;
      liftW (write_yaml fuel (main_config o) p "" false) ;;;
      p <- the_path (shared_storage_path o) ;;
      liftW (write_yaml fuel (shared_storage o) p "" false) ;;;
      p <- the_path (file_tree_path o) ;;
      liftW (write_yaml fuel (file_tree o) p "" false) ;;;
      p <- the_path (tiny_db_path o) ;;
      liftW (write_json fuel (checkpoint_db o) p "" false)
  end.

(** The walk of [_update_file_tree] below [current]: [setdefault] on the
    folder keys, then the assignment of the leaf. No dictionary is changed
    before a failing step, because a freshly inserted [{}] cannot fail. *)
Fixpoint tree_insert (parts : list string) (leaf : yval) (current : yval)
    : res yval :=
  match parts with
  | [] => Raise IndexError
  | part :: rest =>
      match rest with
      | [] =>
          match current with
          | YDict d => Ok (YDict (dict_set part leaf d))
          | _ => Raise TypeError
          end
      | _ :: _ =>
          match current with
          | YDict d =>
              let folder_key := part +:+ "/" in
              let child :=
                match dict_get folder_key d with
                | Some c => c
                | None => YDict []
                end in
              match tree_insert rest leaf child with
              | Ok c' => Ok (YDict (dict_set folder_key c' d))
              | Raise e => Raise e
              end
          | _ => Raise AttributeError
          end
      end
  end.

(** [_update_file_tree(relative_path)]: a failing [setdefault] during the
    walk comes before the clock is read, a failing assignment after. *)
Definition _update_file_tree (relative_path : string) : M session unit :=
  let parts := path_parts relative_path in
  o <- gets self ;;
  let root :=
    match dict_get "root" (file_tree o) with
    | Some c => c
    | None => YDict []
    end in
  match tree_insert parts YNone root with
  | Raise AttributeError => raise AttributeError
  | _ =>
      added_at <- liftW datetime_now_isoformat ;;
      pp <- the_path (project_path o) ;;
      size_bytes <- liftW (osp_getsize (osp_join pp relative_path)) ;;
      let leaf :=
        YDict [("added_at", YStr added_at); ("size_bytes", YInt size_bytes)] in
      match tree_insert parts leaf root with
      | Ok root' =>
          set_self (set_file_tree (dict_set "root" root' (file_tree o)))
      | Raise e => raise e
      end
  end.

(** One pass through the body of
    [for obj_name, obj in objects_to_save.items()] for an object that is
    not [None]; returns [Path(final_path).name]. *)
Definition save_checkpoint_object (fuel : nat) (name obj_name : string)
    (obj : pyobj) : M session string :=
  obj <- (if po_has_prepare_for_save obj then
            liftW (modify (add_log (EvPrepare obj_name))) ;;;
            ret (prepare_for_save obj)
          else ret obj) ;;
  let filename := name +:+ "_" +:+ obj_name +:+ ".pkl" in
  dir <- gets (λ s, files_dir (self s)) ;;
  dir <- the_path dir ;;
  let filepath := osp_join dir filename in
  r <- liftW (get_no_overwrite_path fuel
                (path_with_suffix_empty filepath) ".pkl" true false) ;;
  let final_path := r.1 in
  liftW (open_write final_path (CPickle obj)) ;;;
  pp <- gets (λ s, project_path (self s)) ;;
  pp <- the_path pp ;;
  match path_relative_to final_path pp with
  | Raise e => raise e
  | Ok relative_path =>
      _update_file_tree relative_path ;;;
      ret (path_name final_path)
  end.

(** The loop [for obj_name, obj in objects_to_save.items()]; [files] is
    [checkpoint_info['files']]. *)
Fixpoint save_checkpoint_objects (fuel : nat) (name : string)
    (objects_to_save : list (string * option pyobj))
    (files : list (string * string)) : M session (list (string * string)) :=
  match objects_to_save with
  | [] => ret files
  | (obj_name, None) :: rest =>
      save_checkpoint_objects fuel name rest files
  | (obj_name, Some obj) :: rest =>
      f <- save_checkpoint_object fuel name obj_name obj ;;
      save_checkpoint_objects fuel name rest (dict_set obj_name f files)
  end.

(** [save_checkpoint(name, **objects_to_save)] *)
Definition save_checkpoint (fuel : nat) (name : string)
    (objects_to_save : list (string * option pyobj)) : M session unit :=
  phase <- gets (λ s, phase_value (current_phase (self s))) ;;
  saved_at <- liftW datetime_now_isoformat ;;
  files <- save_checkpoint_objects fuel name objects_to_save [] ;;
  let checkpoint_info := CheckpointInfo name phase saved_at files in
  set_self (λ o, set_checkpoint_db (<[name := checkpoint_info]> (checkpoint_db o)) o) ;;;
  set_self (λ o, set_shared_storage
                   (dict_set "latest_checkpoint" (YStr name) (shared_storage o)) o) ;;;
  total <- gets (λ s, dict_get "total_checkpoints" (shared_storage (self s))) ;;
  match total with
  | None => raise KeyError
  | Some (YInt z) =>
      set_self (λ o, set_shared_storage
                       (dict_set "total_checkpoints" (YInt (z + 1))
                          (shared_storage o)) o) ;;;
      (if dict_has "model" objects_to_save then
         match dict_get "model" files with
         | None => raise KeyError
         | Some f =>
             set_self (λ o, set_shared_storage
                              (dict_set "latest_model_file" (YStr f)
                                 (shared_storage o)) o)
         end
       else ret tt) ;;;
      _save_all_state fuel
  | Some _ => raise TypeError
  end.

(** What [load_checkpoint] returns under a key. *)
Inductive loaded_value :=
  | LInfo (info : checkpoint_info)
  | LObj (o : pyobj).

(** [pickle.load(f)]: a file written by [pickle.dump] gives the pickled
    object back.  What [pickle.load] makes of any other file (an object,
    or an exception of whatever class, [ValueError] included) is left
    open: [pickle_load_other] is a parameter of the development. *)
Definition pickle_load (pickle_load_other : content → res pyobj)
    (c : content) : res pyobj :=
  match c with
  | CPickle o => Ok o
  | _ => pickle_load_other c
  end.

Section unpickling.
Context (pickle_load_other : content → res pyobj).

(** The body of [for obj_name, filename in checkpoint_info['files'].items()]. *)
Fixpoint load_checkpoint_objects (files : list (string * string))
    (loaded : list (string * loaded_value))
    : M session (list (string * loaded_value)) :=
  match files with
  | [] => ret loaded
  | (obj_name, filename) :: rest =>
      dir <- gets (λ s, files_dir (self s)) ;;
      dir <- the_path dir ;;
      let filepath := osp_join dir filename in
      ex <- liftW (osp_exists filepath) ;;
      if negb ex then load_checkpoint_objects rest loaded
      else
        c <- liftW (open_read filepath) ;;
        match pickle_load pickle_load_other c with
        | Ok o =>
            load_checkpoint_objects rest (dict_set obj_name (LObj o) loaded)
        | Raise e => raise e
        end
  end.

(** [load_checkpoint(name)]; [ValueError] is the class of the "not found"
    error. *)
Definition load_checkpoint (name : string)
    : M session (list (string * loaded_value)) :=
  db <- gets (λ s, checkpoint_db (self s)) ;;
  match db !! name with
  | None => raise ValueError
  | Some checkpoint_info =>
      let loaded := [("checkpoint_info", LInfo checkpoint_info)] in
      load_checkpoint_objects (ci_files checkpoint_info) loaded
  end.

End unpickling.

(** ** Vocabulary of the specifications *)

(** [m'] is [m] with some directories added. *)
Definition grows (m m' : gmap string node) : Prop :=
  (∀ k v, m !! k = Some v → m' !! k = Some v) ∧
  (∀ k c, m' !! k = Some (File c) → m !! k = Some (File c)).

(** A string that is not empty and does not start with a slash. *)
Definition head_ok (s : string) : Prop :=
  match s with
  | "" => False
  | String a _ => a ≠ "/"%char
  end.

(** The [add_id]-th path probed by [get_no_overwrite_path]. *)
Definition probe (file_path_no_suffix suffix : string) (add_id : Z) : string :=
  file_path_no_suffix +:+ "_" +:+ pretty add_id +:+ suffix.

(** [k * "#"], the prefix after [k] overflows. *)
Fixpoint hashes (k : nat) : string :=
  match k with
  | O => ""
  | S k' => String "#" (hashes k')
  end.

(** The folder name tried by [novel_start_of_folder] in overflow band [k]. *)
Definition seq_name (semantic_id : string) (k : nat) (counter : Z) : string :=
  hashes k +:+ pretty counter +:+ "_" +:+ semantic_id.

(** The state in which an allocator is used on a parent folder: no regular
    file on the way to the parent folder nor below it. *)
Definition seq_ready (path_to_parent_folder : string)
    (m : gmap string node) : Prop :=
  (∀ q, q ∈ ancestors (dirprefix path_to_parent_folder) → ¬ is_file m q) ∧
  (∀ r, ¬ is_file m (dirprefix path_to_parent_folder +:+ r)).

(** The folder tried by [novel_folder_anum] for the integer [n]. *)
Definition slot (path_to_parent_folder : string) (digit_num : nat) (n : Z)
    : string :=
  osp_join path_to_parent_folder (_to_base62 n digit_num).

(** Where [make_non_duplicate_backups] puts the copy of [path]. *)
Definition backup_target (path_to_backup_folder path : string) : string :=
  osp_join path_to_backup_folder (osp_basename path).

(** The directory that [make_non_duplicate_backups] creates. *)
Definition backup_dir (path_to_backup_folder : string) : string :=
  osp_dirname (dirprefix path_to_backup_folder).



Definition outcome2 (m : gmap string node) (p : string) : backup_outcome :=
  if fs_exists m p then ALREADY_PRESENT else MISSING.

(** Two calls of [get_no_overwrite_path] in succession; the two returned
    paths. *)
Definition get_no_overwrite_path_twice (fuel : nat)
    (file_path_no_suffix suffix : string) : M world (string * string) :=
  r1 <- get_no_overwrite_path fuel file_path_no_suffix suffix true false ;;
  r2 <- get_no_overwrite_path fuel file_path_no_suffix suffix true false ;;
  ret (r1.1, r2.1).

(** The object as it is pickled: after its hook, if it has one. *)
Definition pickled (o : pyobj) : pyobj :=
  if po_has_prepare_for_save o then prepare_for_save o else o.

(** The path without suffix that [save_checkpoint] hands to
    [get_no_overwrite_path] for a role. *)
Definition object_base (dir name obj_name : string) : string :=
  path_with_suffix_empty (osp_join dir (name +:+ "_" +:+ obj_name +:+ ".pkl")).

(** All fields but [file_tree] agree. *)
Definition same_but_tree (o o' : MLStorage) : Prop :=
  o' = set_file_tree (file_tree o') o.

(** What one pass of the loop of [save_checkpoint] did: the role, the
    object handed in and the path written. *)
Definition saved_object : Type := string * pyobj * string.

(** The events one pass leaves in the log. *)
Definition saved_events (x : saved_object) : list event :=
  (if po_has_prepare_for_save x.1.2 then [EvPrepare x.1.1] else [])
    ++ [EvWrite x.2 (CPickle (pickled x.1.2))].

(** The path chosen for a role is the plain one, or a suffixed one when
    the plain one is taken. *)
Definition chosen_path (m : gmap string node) (base final_path : string)
    : Prop :=
  final_path = base +:+ ".pkl" ∨
  (is_Some (m !! (base +:+ ".pkl")) ∧
   ∃ k : Z, (1 ≤ k)%Z ∧ final_path = probe base ".pkl" k).


(** Every pass wrote to a path that was free when it ran. *)
Fixpoint saved_fresh (dir name : string) (m : gmap string node)
    (saved : list saved_object) : Prop :=
  match saved with
  | [] => True
  | x :: rest =>
      m !! x.2 = None ∧
      chosen_path m (object_base dir name x.1.1) x.2 ∧
      saved_fresh dir name (<[x.2 := File (CPickle (pickled x.1.2))]> m) rest
  end.

(** The file system after the passes. *)
Definition saved_fs (m : gmap string node) (saved : list saved_object)
    : gmap string node :=
  foldl (λ m x, <[x.2 := File (CPickle (pickled x.1.2))]> m) m saved.

(** [checkpoint_info['files']] after the passes. *)
Definition saved_files (files : list (string * string))
    (saved : list saved_object) : list (string * string) :=
  foldl (λ acc x, dict_set x.1.1 (path_name x.2) acc) files saved.

(** The keyword arguments that are not [None]. *)
Definition given_objects (objects_to_save : list (string * option pyobj))
    : list (string * pyobj) :=
  omap (λ kv, match kv.2 with Some o => Some (kv.1, o) | None => None end)
    objects_to_save.

(** The last pass made for a role. *)
Fixpoint last_for (obj_name : string) (saved : list saved_object)
    : option saved_object :=
  match saved with
  | [] => None
  | x :: rest =>
      match last_for obj_name rest with
      | Some y => Some y
      | None => if decide (x.1.1 = obj_name) then Some x else None
      end
  end.

(** What the loop of [load_checkpoint] computes from the files that are
    present. *)
Fixpoint load_result (m : gmap string node) (dir : string)
    (files : list (string * string)) (loaded : list (string * loaded_value))
    : list (string * loaded_value) :=
  match files with
  | [] => loaded
  | (obj_name, filename) :: rest =>
      match m !! osp_join dir filename with
      | Some (File (CPickle o)) =>
          load_result m dir rest (dict_set obj_name (LObj o) loaded)
      | _ => load_result m dir rest loaded
      end
  end.

(** The fields that [initial_setup] sets for the project folder [pp]. *)
Definition store_at (pp : string) (o : MLStorage) : Prop :=
  pp ≠ "" ∧
  project_path o = Some pp ∧
  main_yaml_path o = Some (osp_join pp "main.yaml") ∧
  shared_storage_path o = Some (osp_join pp "shared_storage.yaml") ∧
  file_tree_path o = Some (osp_join pp "file_tree.yaml") ∧
  tiny_db_path o = Some (osp_join pp "tiny_db.json") ∧
  old_yamls_dir o = Some (osp_join pp "old_yamls") ∧
  files_dir o = Some (osp_join pp "files").

(** The four documents of a project folder, in the order in which
    [_save_all_state] writes them. *)
Definition document_paths (pp : string) : list string :=
  [osp_join pp "main.yaml"; osp_join pp "shared_storage.yaml";
   osp_join pp "file_tree.yaml"; osp_join pp "tiny_db.json"].

(** An event of the document writers: a directory made or a document
    written. *)
Definition document_event (e : event) : Prop :=
  match e with
  | EvMkdir _ => True
  | EvWrite _ (CYaml _) => True
  | EvWrite _ (CJson _) => True
  | _ => False
  end.

(** An event of the loop of [save_checkpoint] over [objects_to_save]:
    the hook of a role that was given an object, or the pickle of such an
    object. *)
Definition object_event (objects_to_save : list (string * option pyobj))
    (e : event) : Prop :=
  match e with
  | EvPrepare r => ∃ o, (r, Some o) ∈ objects_to_save
  | EvWrite _ (CPickle o) =>
      ∃ r o', (r, Some o') ∈ objects_to_save ∧ o = pickled o'
  | _ => False
  end.

(** An event of [save_checkpoint]. *)
Definition save_event (objects_to_save : list (string * option pyobj))
    (e : event) : Prop :=
  object_event objects_to_save e ∨ document_event e.

(** What a run from [w] to [w'] did, whether it returned or raised: the
    events it appended are all in [Q], and every regular file on disk
    afterwards was there before with the same content, or was written by
    one of these events. *)
Definition wrote (Q : event → Prop) (w w' : world) : Prop :=
  ∃ evs, w_log w' = (w_log w ++ evs)%list ∧ Forall Q evs ∧
         ∀ k c, w_fs w' !! k = Some (File c) →
                w_fs w !! k = Some (File c) ∨ EvWrite k c ∈ evs.

(** The same for a session in which only [file_tree] may have changed. *)
Definition kept (Q : event → Prop) (s s' : session) : Prop :=
  same_but_tree (self s) (self s') ∧ wrote Q (env s) (env s').

(** The paths of the [EvWrite] events of a log, in order. *)
Definition write_paths (l : list event) : list string :=
  omap (λ e, match e with EvWrite p _ => Some p | _ => None end) l.

(** ** Example states *)

(** A folder [p] holding one file [p/ab.txt]. *)
Definition w_one_file : world :=
  World (<["p" := Dir]> (<["p/ab.txt" := File (CBytes "x")]> ∅)) [] 0.

(** An empty folder [p]. *)
Definition w_empty_dir : world :=
  World (<["p" := Dir]> ∅) [] 0.

(** Two sources with the same base name. *)
Definition w_same_name : world :=
  World (<["a/x" := File (CBytes "1")]> (<["b/x" := File (CBytes "2")]> ∅))
        [] 0.

(** Two files to back up, [a/x] and [b/y]. *)
Definition w_two_sources : world :=
  World (<["a/x" := File (CBytes "1")]> (<["b/y" := File (CBytes "2")]> ∅))
        [] 0.

(** A folder [p] in which [999_x] down to [101_x] are taken. *)
Definition w_band_taken : world :=
  World (foldr (λ c m, <["p/" +:+ pretty c +:+ "_x" := Dir]> m)
           (<["p" := Dir]> ∅) (seqZ 101 899)) [] 0.

(** A fresh project in folder [proj], as [initial_setup] leaves it. *)
Definition fresh_storage : MLStorage :=
  mkMLStorage (Some "proj") (Some "proj/main.yaml")
    (Some "proj/shared_storage.yaml") (Some "proj/file_tree.yaml")
    (Some "proj/tiny_db.json") (Some "proj/old_yamls") (Some "proj/files")
    [("project_settings", YDict [])]
    [("project_name", YStr "ML_Project"); ("created_at", YStr "t0");
     ("current_phase", YStr "setup"); ("latest_model_file", YNone);
     ("latest_checkpoint", YNone); ("total_checkpoints", YInt 0)]
    [("root", YDict [])]
    ∅ SETUP.

Definition fresh_session : session :=
  Session fresh_storage
    (World (<["proj" := Dir]> (<["proj/old_yamls" := Dir]>
              (<["proj/files" := Dir]> ∅))) [] 1).

Definition a_model : pyobj := PyObj "weights" false false.
Definition some_logs : pyobj := PyObj "epochs" true false.

(** The state after a first checkpoint [c1] with a model and logs. *)
Definition session_after_c1 : session :=
  (save_checkpoint 5 "c1"
     [("model", Some a_model); ("logs", Some some_logs)] fresh_session).2.

(** The state after saving [c1] a second time. *)
Definition session_after_c1_twice : session :=
  (save_checkpoint 5 "c1"
     [("model", Some a_model); ("logs", Some some_logs)] session_after_c1).2.

(** [c1] saved, then the file of the role [logs] deleted from disk. *)
Definition session_logs_deleted : session :=
  (liftW (os_remove "proj/files/c1_logs.pkl") session_after_c1).2.

(** The eight bytes [garbage\n]: the pickle opcode [g] (GET) with the
    argument line [arbage], which is no integer. *)
Definition garbage : string := "garbage" +:+ String "010"%char "".

(** [c1] saved, then the file of the role [logs] overwritten with these
    bytes. *)
Definition session_logs_garbage : session :=
  (liftW (open_write "proj/files/c1_logs.pkl" (CBytes garbage))
     session_after_c1).2.

(** Two instances of [pickle.load] on foreign files.  The first raises
    [ValueError] on the bytes [garbage\n], as the real one does (the
    argument of GET is handed to [int]), and [UnpicklingError] on every
    other foreign file; the second raises [UnpicklingError] throughout. *)
Definition pickle_load_value_error (c : content) : res pyobj :=
  match c with
  | CBytes b =>
      if decide (b = garbage) then Raise ValueError else Raise UnpicklingError
  | _ => Raise UnpicklingError
  end.

Definition pickle_load_unpickling_error (c : content) : res pyobj :=
  Raise UnpicklingError.

(** * Further code of the repository *)

(** ** [helpers_storage.py], the other allocators *)

(** [novel_folder]: the [while osp.exists(folder_path)] loop; the name is
    [f"{folder_basic_name}_{prefix}{counter}"]. *)
Fixpoint novel_folder_loop (fuel : nat)
    (path_to_parent_folder folder_basic_name prefix : string) (counter : Z)
    (folder_path : string) : M world string :=
  b <- osp_exists folder_path ;;
  if b : bool then
    match fuel with
    | O => raise OutOfFuel
    | S fuel' =>
        let counter := counter - 1 in
        let folder_path :=
          osp_join path_to_parent_folder
            (folder_basic_name +:+ "_" +:+ prefix +:+ pretty counter) in
        if decide (counter ≤ 100)%Z then
          novel_folder_loop fuel' path_to_parent_folder folder_basic_name
            (prefix +:+ "#") 999 folder_path
        else
          novel_folder_loop fuel' path_to_parent_folder folder_basic_name
            prefix counter folder_path
    end
  else ret folder_path.

Definition novel_folder (fuel : nat)
    (path_to_parent_folder folder_basic_name : string) : M world string :=
  let prefix := "" in
  let counter := 999 in
  let folder_path :=
    osp_join path_to_parent_folder
      (folder_basic_name +:+ "_" +:+ prefix +:+ pretty counter) in
  folder_path <- novel_folder_loop fuel path_to_parent_folder
                   folder_basic_name prefix counter folder_path ;;
  os_makedirs folder_path ;;;
  ret folder_path.

(** [novel_filename]: its body is the one of [novel_folder] with
    [filename] for [folder_basic_name], [os.makedirs(filepath)] included;
    [suffix] is accepted and never read. *)
Definition novel_filename (fuel : nat)
    (path_to_parent_folder filename suffix : string) : M world string :=
  let prefix := "" in
  let counter := 999 in
  let filepath :=
    osp_join path_to_parent_folder
      (filename +:+ "_" +:+ prefix +:+ pretty counter) in
  filepath <- novel_folder_loop fuel path_to_parent_folder filename prefix
                counter filepath ;;
  os_makedirs filepath ;;;
  ret filepath.

(** [str(Path(p))] of a path in normal form: the empty path is [.]. *)
Definition path_str (p : string) : string :=
  if decide (p = "") then "." else p.

(** [novel_filename_anum]: the [while True] loop, from the current [n]. *)
Fixpoint novel_filename_anum_loop (fuel : nat) (ptpf suffix : string)
    (digit_num : nat) (max_num : Z) (n : Z) : M world string :=
  let name := _to_base62 n digit_num +:+ suffix in
  let new_path := osp_join ptpf name in
  b <- osp_exists new_path ;;
  if negb b then
    os_makedirs (path_str ptpf) ;;;
    ret new_path
  else
    match fuel with
    | O => raise OutOfFuel
    | S fuel' =>
        novel_filename_anum_loop fuel' ptpf suffix digit_num max_num
          ((n + 1) `mod` max_num)
    end.

(** [random_n] is the value drawn by [random.randrange(max_num)]. *)
Definition novel_filename_anum (fuel : nat) (random_n : Z)
    (path_to_parent_folder suffix : string) (digit_num : nat)
    : M world string :=
  let max_num := Z.of_nat (String.length _ALPHANUM_CHARS) ^ Z.of_nat digit_num in
  let n := random_n in
  let ptpf := path_to_parent_folder in
  novel_filename_anum_loop fuel ptpf suffix digit_num max_num n.

(** The file tried by [novel_filename_anum] for the integer [n]. *)
Definition file_slot (path_to_parent_folder suffix : string)
    (digit_num : nat) (n : Z) : string :=
  osp_join path_to_parent_folder (_to_base62 n digit_num +:+ suffix).

(** The folder name tried by [novel_folder] in overflow band [k]. *)
Definition folder_name (folder_basic_name : string) (k : nat) (counter : Z)
    : string :=
  folder_basic_name +:+ "_" +:+ hashes k +:+ pretty counter.

(** The position of a character in a string. *)
Fixpoint char_index (c : ascii) (s : string) : option nat :=
  match s with
  | "" => None
  | String a s' =>
      if decide (a = c) then Some O else S <$> char_index c s'
  end.

(** Reading a base-62 name back, most significant digit first. *)
Fixpoint base62_value (acc : Z) (l : list ascii) : option Z :=
  match l with
  | [] => Some acc
  | c :: l' =>
      match char_index c _ALPHANUM_CHARS with
      | Some i => base62_value (acc * 62 + Z.of_nat i) l'
      | None => None
      end
  end.

Definition _from_base62 (s : string) : option Z :=
  base62_value 0 (list_ascii_of_string s).

(** The paths tried by [get_no_overwrite_path], in order: the requested
    one, then the numbered ones. *)
Definition candidate (file_path_no_suffix suffix : string) (k : Z) : string :=
  if decide (k = 0) then file_path_no_suffix +:+ suffix
  else probe file_path_no_suffix suffix k.

(** [len(_ALPHANUM_CHARS) ** digit_num] *)
Definition max_num_of (digit_num : nat) : Z :=
  Z.of_nat (String.length _ALPHANUM_CHARS) ^ Z.of_nat digit_num.

(** A folder [p] in which every one-character base-62 name is taken. *)
Definition w_full_1 : world :=
  World (foldr (λ k m, <[slot "p" 1 k := Dir]> m) (<["p" := Dir]> ∅)
           (seqZ 0 62)) [] 0.

(** ** The document readers ([yaml_handler.py], [json_handler.py])

    A file written by [write_yaml] reads back as the dictionary written,
    likewise for [write_json]; an empty file gives [{}].  What
    [yaml.safe_load] and [orjson.loads] make of any other file is left
    open: it is a parameter of the development ([None] stands for
    [orjson.JSONDecodeError], the only error [orjson.loads] raises). *)

Section readers.
Context (yaml_safe_load : content → res (list (string * yval))).
Context (orjson_loads : content → option (gmap string checkpoint_info)).

Definition get_yaml (path : string) : M world (list (string * yval)) :=
  ex <- osp_exists path ;;
  if ex : bool then
    c <- open_read path ;;
    match c with
    | CYaml YD => ret YD
    | CBytes "" => ret []
    | _ =>
        match yaml_safe_load c with
        | Ok YD => ret YD
        | Raise e => raise e
        end
    end
  else ret [].

Definition get_json (path : string)
    : M world (gmap string checkpoint_info) :=
  ex <- osp_exists path ;;
  if ex : bool then
    c <- open_read path ;;
    match c with
    | CJson json_dict => ret json_dict
    | CBytes "" => ret ∅
    | _ =>
        match orjson_loads c with
        | Some json_dict => ret json_dict
        | None => ret ∅
        end
    end
  else ret ∅.

End readers.

(** ** [singleton_storage_fns.py]

    [Path(p) / name] is [osp_join p name] and [str(Path(p))] is
    [path_str p], for a path [p] in normal form. *)

Module SetupNames.
Definition MAIN_YAML : string := "main.yaml".
Definition SHARED_STORAGE_YAML : string := "shared_storage.yaml".
Definition FILE_TREE_YAML : string := "file_tree.yaml".
Definition TINY_DB_JSON : string := "tiny_db.json".
Definition OLD_YAMLS_FOLDER : string := "old_yamls".
Definition FILES_FOLDER : string := "files".
End SetupNames.

Module singleton_storage_fns.

(** [setup(path_to_novel_storage_folder)]; the writers are called without
    [no_overwrite], so their loop is not entered and needs no fuel. *)
Definition setup (path_to_novel_storage_folder : string) : M world string :=
  let novel_folder_path := path_to_novel_storage_folder in
  let main_yaml_path := osp_join novel_folder_path SetupNames.MAIN_YAML in
  ex <- osp_exists main_yaml_path ;;
  (if negb ex then write_yaml 0 [] main_yaml_path "" false else ret tt) ;;;
  let shared_storage_yaml_path :=
    osp_join novel_folder_path SetupNames.SHARED_STORAGE_YAML in
  ex <- osp_exists shared_storage_yaml_path ;;
  (if negb ex then write_yaml 0 [] shared_storage_yaml_path "" false
   else ret tt) ;;;
  let file_tree_yaml_path :=
    osp_join novel_folder_path SetupNames.FILE_TREE_YAML in
  ex <- osp_exists file_tree_yaml_path ;;
  (if negb ex then write_yaml 0 [] file_tree_yaml_path "" false
   else ret tt) ;;;
  let tiny_db_path := osp_join novel_folder_path SetupNames.TINY_DB_JSON in
  ex <- osp_exists tiny_db_path ;;
  (if negb ex then write_json 0 ∅ tiny_db_path "" false else ret tt) ;;;
  let old_yamls_path :=
    osp_join novel_folder_path SetupNames.OLD_YAMLS_FOLDER in
  os_makedirs old_yamls_path ;;;
  let files_folder_path :=
    osp_join novel_folder_path SetupNames.FILES_FOLDER in
  os_makedirs files_folder_path ;;;
  ret novel_folder_path.

Definition main (fuel : nat) (path_to_storage : string)
    (path_is_only_to_container : bool) (semantic_id_of_proc : string)
    : M world string :=
  if negb path_is_only_to_container then
    ex <- osp_exists (path_str path_to_storage) ;;
    if negb ex then
      os_makedirs (path_str path_to_storage) ;;;
      setup path_to_storage
    else ret path_to_storage
  else
    ex <- osp_exists (path_str path_to_storage) ;;
    (if negb ex then os_makedirs (path_str path_to_storage) else ret tt) ;;;
    path_to_novel_folder <-
      novel_start_of_folder fuel path_to_storage semantic_id_of_proc ;;
    setup path_to_novel_folder.

End singleton_storage_fns.

(** ** [MLStorage], the rest of the class *)

(** [Path(p).mkdir(exist_ok=True)]: one level, the parent must exist. *)
Definition path_mkdir_exist_ok (p : string) : M world unit :=
  m <- gets w_fs ;;
  match m !! p with
  | Some Dir => ret tt
  | Some (File _) => raise FileExistsError
  | None =>
      let d := osp_dirname p in
      match (if decide (d = "") then Some Dir else m !! d) with
      | None => raise FileNotFoundError
      | Some (File _) => raise NotADirectoryError
      | Some Dir =>
          modify (set_fs <[p := Dir]>) ;;;
          modify (add_log (EvMkdir p))
      end
  end.

(** [ProjectPhase(value)]: the member with that value, or [ValueError]. *)
Definition ProjectPhase_of (value : yval) : res ProjectPhase :=
  match value with
  | YStr s =>
      if decide (s = "setup") then Ok SETUP
      else if decide (s = "training") then Ok TRAINING
      else if decide (s = "evaluation") then Ok EVALUATION
      else if decide (s = "ready") then Ok READY
      else Raise ValueError
  | _ => Raise ValueError
  end.

(** The object as [__init__] leaves it. *)
Definition new_MLStorage : MLStorage :=
  mkMLStorage None None None None None None None [] [] [] ∅ SETUP.

Definition set_main_config (d : list (string * yval)) (o : MLStorage) :=
  mkMLStorage (project_path o) (main_yaml_path o) (shared_storage_path o)
    (file_tree_path o) (tiny_db_path o) (old_yamls_dir o) (files_dir o)
    d (shared_storage o) (file_tree o) (checkpoint_db o) (current_phase o).

Definition set_current_phase (ph : ProjectPhase) (o : MLStorage) :=
  mkMLStorage (project_path o) (main_yaml_path o) (shared_storage_path o)
    (file_tree_path o) (tiny_db_path o) (old_yamls_dir o) (files_dir o)
    (main_config o) (shared_storage o) (file_tree o) (checkpoint_db o) ph.

(** The seven path assignments of [initial_setup]. *)
Definition set_paths (pp : string) (o : MLStorage) :=
  mkMLStorage (Some pp) (Some (osp_join pp "main.yaml"))
    (Some (osp_join pp "shared_storage.yaml"))
    (Some (osp_join pp "file_tree.yaml")) (Some (osp_join pp "tiny_db.json"))
    (Some (osp_join pp "old_yamls")) (Some (osp_join pp "files"))
    (main_config o) (shared_storage o) (file_tree o) (checkpoint_db o)
    (current_phase o).

(** [p and p.exists()] for a path field. *)
Definition path_exists (p : option string) : M session bool :=
  match p with
  | None => ret false
  | Some x => liftW (osp_exists x)
  end.

Section MLStorage_readers.
Context (yaml_safe_load : content → res (list (string * yval))).
Context (orjson_loads : content → option (gmap string checkpoint_info)).

(** [_load_all_state] *)
Definition _load_all_state : M session unit :=
  p <- gets (λ s, main_yaml_path (self s)) ;;
  ex <- path_exists p ;;
  (if ex : bool then
     p <- the_path p ;;
     d <- liftW (get_yaml yaml_safe_load p) ;;
     set_self (set_main_config d)
   else ret tt) ;;;
  p <- gets (λ s, shared_storage_path (self s)) ;;
  ex <- path_exists p ;;
  (if ex : bool then
     p <- the_path p ;;
     d <- liftW (get_yaml yaml_safe_load p) ;;
     set_self (set_shared_storage d) ;;;
     match dict_get "current_phase" d with
     | Some value =>
         match ProjectPhase_of value with
         | Ok ph => set_self (set_current_phase ph)
         | Raise _ => set_self (set_current_phase SETUP)
         end
     | None => ret tt
     end
   else ret tt) ;;;
  p <- gets (λ s, file_tree_path (self s)) ;;
  ex <- path_exists p ;;
  (if ex : bool then
     p <- the_path p ;;
     d <- liftW (get_yaml yaml_safe_load p) ;;
     set_self (set_file_tree d)
   else ret tt) ;;;
  p <- gets (λ s, tiny_db_path (self s)) ;;
  ex <- path_exists p ;;
  (if ex : bool then
     p <- the_path p ;;
     db <- liftW (get_json orjson_loads p) ;;
     set_self (set_checkpoint_db db)
   else ret tt).

(** [initial_setup(project_folder, project_name)]; [setup_storage] is
    [singleton_storage_fns.main]. *)
Definition initial_setup (fuel : nat) (project_folder project_name : string)
    : M session string :=
  pp <- liftW (singleton_storage_fns.main fuel project_folder false "") ;;
  set_self (set_paths pp) ;;;
  liftW (path_mkdir_exist_ok (osp_join pp "old_yamls")) ;;;
  liftW (path_mkdir_exist_ok (osp_join pp "files")) ;;;
  _load_all_state ;;;
  ss <- gets (λ s, shared_storage (self s)) ;;
  (match ss with
   | [] =>
       created_at <- liftW datetime_now_isoformat ;;
       phase <- gets (λ s, phase_value (current_phase (self s))) ;;
       set_self (set_shared_storage
                   [("project_name", YStr project_name);
                    ("created_at", YStr created_at);
                    ("current_phase", YStr phase);
                    ("latest_model_file", YNone);
                    ("latest_checkpoint", YNone);
                    ("total_checkpoints", YInt 0)]) ;;;
       set_self (set_file_tree [("root", YDict [])]) ;;;
       set_self (set_main_config [("project_settings", YDict [])]) ;;;
       set_self (set_checkpoint_db ∅) ;;;
       _save_all_state fuel
   | _ :: _ => ret tt
   end) ;;;
  ret pp.

End MLStorage_readers.

(** [change_phase(new_phase)]; the attribute [append] is looked up before
    the record is built, so a [phase_changes] entry that is not a list
    fails before the clock is read. *)
Definition change_phase (fuel : nat) (new_phase : ProjectPhase)
    : M session unit :=
  old_phase <- gets (λ s, phase_value (current_phase (self s))) ;;
  set_self (set_current_phase new_phase) ;;;
  set_self (λ o, set_shared_storage
                   (dict_set "current_phase" (YStr (phase_value new_phase))
                      (shared_storage o)) o) ;;;
  changes <- gets (λ s, match dict_get "phase_changes"
                                (shared_storage (self s)) with
                        | Some v => v
                        | None => YList []
                        end) ;;
  set_self (λ o, set_shared_storage
                   (dict_set "phase_changes" changes (shared_storage o)) o) ;;;
  match changes with
  | YList l =>
      now <- liftW datetime_now_isoformat ;;
      let record :=
        YDict [("from", YStr old_phase);
               ("to", YStr (phase_value new_phase));
               ("at", YStr now)] in
      set_self (λ o, set_shared_storage
                       (dict_set "phase_changes" (YList (l ++ [record]))
                          (shared_storage o)) o) ;;;
      _save_all_state fuel
  | _ => raise AttributeError
  end.

(** ** Further vocabulary *)

(** One step of [setup]: the document [c] is written at [path] unless
    something exists there. *)
Definition write_if_missing (c : content) (path : string) : M world unit :=
  ex <- osp_exists path ;;
  if negb ex then write_document 0 c path "" false else ret tt.

(** [setup] as a sequence of such steps. *)
Definition setup_steps (p : string) : M world string :=
  write_if_missing (CYaml []) (osp_join p "main.yaml") ;;;
  write_if_missing (CYaml []) (osp_join p "shared_storage.yaml") ;;;
  write_if_missing (CYaml []) (osp_join p "file_tree.yaml") ;;;
  write_if_missing (CJson ∅) (osp_join p "tiny_db.json") ;;;
  os_makedirs (osp_join p "old_yamls") ;;;
  os_makedirs (osp_join p "files") ;;;
  ret p.

(** The four documents of the project folder hold the state of the
    object. *)
Definition persisted (pp : string) (o : MLStorage) (m : gmap string node)
    : Prop :=
  m !! osp_join pp "main.yaml" = Some (File (CYaml (main_config o))) ∧
  m !! osp_join pp "shared_storage.yaml"
    = Some (File (CYaml (shared_storage o))) ∧
  m !! osp_join pp "file_tree.yaml" = Some (File (CYaml (file_tree o))) ∧
  m !! osp_join pp "tiny_db.json" = Some (File (CJson (checkpoint_db o))).

(** A project that is set up in the folder [pp], in memory and on disk. *)
Record opened (pp : string) (s : session) : Prop := Opened {
  op_store : store_at pp (self s);
  op_folder : w_fs (env s) !! pp = Some Dir;
  op_old_yamls : w_fs (env s) !! osp_join pp "old_yamls" = Some Dir;
  op_files : w_fs (env s) !! osp_join pp "files" = Some Dir;
  op_persisted : persisted pp (self s) (w_fs (env s));
  op_phase :
    dict_get "current_phase" (shared_storage (self s))
    = Some (YStr (phase_value (current_phase (self s))));
}.

(** The names of the four documents that [setup] creates. *)
Definition document_names : list string :=
  ["main.yaml"; "shared_storage.yaml"; "file_tree.yaml"; "tiny_db.json"].

(** The three keys of the shared storage that [save_checkpoint] sets. *)
Definition checkpoint_keys : list string :=
  ["latest_checkpoint"; "total_checkpoints"; "latest_model_file"].

(** The record that [change_phase] appends to [phase_changes]. *)
Definition phase_change (old_phase new_phase : ProjectPhase) (now : string)
    : yval :=
  YDict [("from", YStr (phase_value old_phase));
         ("to", YStr (phase_value new_phase));
         ("at", YStr now)].

(** A project whose [phase_changes] entry was edited into [null]. *)
Definition session_bad_changes : session :=
  Session
    (set_shared_storage
       (dict_set "phase_changes" YNone (shared_storage fresh_storage))
       fresh_storage)
    (env fresh_session).

(** Looking a path up in the file tree, along the keys that
    [_update_file_tree] uses: [part/] for a folder, [part] for the file. *)
Fixpoint tree_lookup (parts : list string) (current : yval) : option yval :=
  match parts with
  | [] => None
  | part :: rest =>
      match rest with
      | [] =>
          match current with
          | YDict d => dict_get part d
          | _ => None
          end
      | _ :: _ =>
          match current with
          | YDict d =>
              match dict_get (part +:+ "/") d with
              | Some c => tree_lookup rest c
              | None => None
              end
          | _ => None
          end
      end
  end.

(** A path component, as [Path.parts] gives them: it holds no [/]. *)
Definition is_part (part : string) : Prop := Str.has "/" part = false.

(** The folder [pp] and the folders above it are directories. *)
Definition dir_ready (pp : string) (m : gmap string node) : Prop :=
  ∀ q, q ∈ (ancestors pp ++ [pp])%list → m !! q = Some Dir.

(** The world after a file was written, and after a directory was made. *)
Definition written (p : string) (c : content) (w : world) : world :=
  add_log (EvWrite p c) (set_fs <[p := File c]> w).

Definition made (p : string) (w : world) : world :=
  add_log (EvMkdir p) (set_fs <[p := Dir]> w).

(** A place for a new project: a path in normal form at which, and below
    which, nothing exists, and that [os.makedirs] can create. *)
Record fresh_folder (pp : string) (m : gmap string node) : Prop := FreshFolder {
  ff_named : pp ≠ "";
  ff_norm : ends_with_slash pp = false;
  ff_above : ∀ q, q ∈ ancestors pp → ¬ is_file m q;
  ff_absent : m !! pp = None;
  ff_below : ∀ r, m !! (pp +:+ "/" +:+ r) = None;
}.

(** The shared storage that [initial_setup] gives a brand new project. *)
Definition initial_shared_storage (project_name created_at : string)
    (phase : ProjectPhase) : list (string * yval) :=
  [("project_name", YStr project_name);
   ("created_at", YStr created_at);
   ("current_phase", YStr (phase_value phase));
   ("latest_model_file", YNone);
   ("latest_checkpoint", YNone);
   ("total_checkpoints", YInt 0)].

(** No document of the project folder is a directory. *)
Definition docs_ok (pp : string) (m : gmap string node) : Prop :=
  ∀ n, n ∈ document_names → m !! (pp +:+ "/" +:+ n) ≠ Some Dir.

(** A name of [width] characters, all of them from the base-62 alphabet
    [0-9A-Za-z]. *)
Definition base62_name (width : nat) (name : string) : Prop :=
  String.length name = width ∧
  Forall (λ c, c ∈ list_ascii_of_string _ALPHANUM_CHARS)
    (list_ascii_of_string name).

(** The 3844 names of two characters of the alphabet. *)
Definition width_2_names : list string :=
  flat_map
    (λ a, List.map (λ b, String a (String b ""))
            (list_ascii_of_string _ALPHANUM_CHARS))
    (list_ascii_of_string _ALPHANUM_CHARS).

(** A folder [p] in which every two-character name is taken, [07]
    excepted. *)
Definition w_all_but_07 : world :=
  World (foldr (λ n m, <[osp_join "p" n := Dir]> m) (<["p" := Dir]> ∅)
           (filter (λ n, n ≠ "07") width_2_names)) [] 0.
(** * Facts about strings *)

Module StrFacts.
Import Str.

Lemma app_nil_l (s : string) : "" +:+ s = s.
Proof. done. Qed.

Lemma app_cons (a : ascii) (s t : string) :
  String a s +:+ t = String a (s +:+ t).
Proof. done. Qed.

Lemma app_nil_r (s : string) : s +:+ "" = s.
Proof. induction s as [|a s IH]; [done|]. by rewrite app_cons, IH. Qed.

Lemma app_assoc (s t u : string) : (s +:+ t) +:+ u = s +:+ (t +:+ u).
Proof. induction s as [|a s IH]; [done|]. by rewrite !app_cons, IH. Qed.

Lemma length_app (s t : string) :
  String.length (s +:+ t) = (String.length s + String.length t)%nat.
Proof.
  induction s as [|a s IH]; [done|]. rewrite app_cons. simpl. by rewrite IH.
Qed.

Lemma app_inv_head (s t u : string) : s +:+ t = s +:+ u → t = u.
Proof. apply String.app_inj. Qed.

Lemma app_same_length (s1 s2 t1 t2 : string) :
  String.length s1 = String.length s2 →
  s1 +:+ t1 = s2 +:+ t2 → s1 = s2 ∧ t1 = t2.
Proof.
  revert s2. induction s1 as [|a s1 IH]; intros [|b s2] Hl H;
    rewrite ?app_cons, ?app_nil_l in H; simplify_eq/=; [done|].
  destruct (IH s2) as [-> ->]; done.
Qed.

Lemma app_inv_tail (s1 s2 t : string) : s1 +:+ t = s2 +:+ t → s1 = s2.
Proof.
  intros H. apply (app_same_length s1 s2 t t); [|done].
  apply (f_equal String.length) in H. rewrite !length_app in H. lia.
Qed.

Lemma has_app c s t : has c (s +:+ t) = has c s || has c t.
Proof.
  induction s as [|a s IH]; [done|]. rewrite app_cons. simpl.
  by case_decide.
Qed.

Lemma rsplit_none c s : has c s = false → rsplit c s = None.
Proof.
  induction s as [|a s IH]; simpl; [done|]. case_decide; [done|].
  intros Hs. by rewrite IH.
Qed.

Lemma rsplit_app c h t :
  has c t = false → rsplit c (h +:+ String c t) = Some (h, t).
Proof.
  intros Ht. induction h as [|a h IH].
  - rewrite app_nil_l. simpl. rewrite rsplit_none by done. by case_decide.
  - rewrite app_cons. simpl. by rewrite IH.
Qed.

Lemma rstrip_slash_snoc_slash s : rstrip_slash (s +:+ "/") = rstrip_slash s.
Proof.
  induction s as [|a s IH]; [done|].
  rewrite app_cons. simpl. by rewrite IH.
Qed.

Lemma rstrip_slash_snoc s c :
  c ≠ "/"%char → rstrip_slash (s +:+ String c "") = s +:+ String c "".
Proof.
  intros Hc. induction s as [|a s IH].
  - rewrite app_nil_l. simpl. case_decide as Hd; [by destruct Hd | done].
  - rewrite app_cons. simpl. rewrite IH. case_decide as Hd; [|done].
    destruct Hd as [_ Hd]. by destruct s.
Qed.

End StrFacts.

(** * Facts about the file-system primitives *)

Ltac munfold :=
  unfold bind, ret, raise, gets, modify, osp_exists in *; simpl in *.

Lemma grows_refl m : grows m m.
Proof. by split. Qed.

Lemma grows_trans m1 m2 m3 : grows m1 m2 → grows m2 m3 → grows m1 m3.
Proof. intros [A1 B1] [A2 B2]. split; eauto. Qed.

Lemma grows_insert_dir m q : m !! q = None → grows m (<[q := Dir]> m).
Proof.
  intros Hq. split.
  - intros k v Hk. rewrite lookup_insert_ne; [done|]. congruence.
  - intros k c. rewrite lookup_insert. case_decide; [done|]. auto.
Qed.

Lemma fs_exists_true m p : fs_exists m p = true ↔ is_Some (m !! p).
Proof.
  unfold fs_exists. destruct (m !! p) eqn:E; split; intros Hx; eauto.
  - done.
  - by destruct Hx.
Qed.

Lemma fs_exists_false m p : fs_exists m p = false ↔ m !! p = None.
Proof. unfold fs_exists. by destruct (m !! p). Qed.

Lemma mkdir_chain_grows qs w :
  grows (w_fs w) (w_fs (mkdir_chain qs w).2) ∧
  w_clock (mkdir_chain qs w).2 = w_clock w.
Proof.
  revert w. induction qs as [|q rest IH]; intros w; simpl.
  - split; [apply grows_refl | done].
  - munfold. destruct (w_fs w !! q) as [[c|]|] eqn:Hq; simpl.
    + destruct rest; simpl; (split; [apply grows_refl | done]).
    + apply IH.
    + match goal with |- context [mkdir_chain rest ?w1] =>
        destruct (IH w1) as [Hg Hc] end.
      simpl in *. split; [|done].
      eapply grows_trans; [by apply grows_insert_dir | done].
Qed.

Lemma mkdir_chain_ok qs w :
  (∀ q, q ∈ qs → ¬ is_file (w_fs w) q) →
  (mkdir_chain qs w).1 = Ok tt ∧
  ∀ q, q ∈ qs → w_fs (mkdir_chain qs w).2 !! q = Some Dir.
Proof.
  revert w. induction qs as [|q rest IH]; intros w Hnf; simpl.
  - split; [done|]. intros q Hq. by apply elem_of_nil in Hq.
  - munfold. destruct (w_fs w !! q) as [[c|]|] eqn:Hq; simpl.
    + destruct (Hnf q); [left | by exists c].
    + destruct (IH w) as [Hok Hd].
      { intros q' Hq'. apply Hnf. by right. }
      split; [done|]. intros q' [->|Hin]%elem_of_cons; [|by auto].
      by apply (mkdir_chain_grows rest w).
    + match goal with |- context [mkdir_chain rest ?w1] =>
        destruct (IH w1) as [Hok Hd];
        [|pose proof (mkdir_chain_grows rest w1) as [[Hg _] _]] end.
      { intros q' Hq' [c Hc]. simpl in Hc.
        rewrite lookup_insert in Hc. case_decide; [done|].
        apply (Hnf q'); [by right | by exists c]. }
      split; [done|]. intros q' [->|Hin]%elem_of_cons; [|by auto].
      apply Hg. simpl. by rewrite lookup_insert_eq.
Qed.

(** * The no-overwrite resolver *)

Section no_overwrite.
Context (file_path_no_suffix suffix : string).

Local Abbreviation pr := (probe file_path_no_suffix suffix).

Lemma probe_inj : Inj (=) (=) pr.
Proof.
  intros a b H. unfold probe in H.
  apply StrFacts.app_inv_head in H.
  rewrite <-!StrFacts.app_assoc in H.
  apply StrFacts.app_inv_tail, StrFacts.app_inv_head in H.
  by apply (inj pretty) in H.
Qed.

Lemma loop_frame fuel add_id file_path w :
  (get_no_overwrite_path_loop fuel file_path_no_suffix suffix add_id
     file_path w).2 = w.
Proof.
  revert add_id file_path. induction fuel as [|fuel IH];
    intros add_id file_path; simpl; munfold;
    destruct (fs_exists (w_fs w) file_path); simpl; auto.
Qed.

(** Either the loop returns the first free probe, or it has seen all of
    [probe add_id .. probe (add_id + fuel)] taken. *)
Lemma loop_result fuel add_id w :
  (∃ p, (get_no_overwrite_path_loop fuel file_path_no_suffix suffix add_id
           (pr add_id) w).1 = Ok p ∧ w_fs w !! p = None ∧
        ∃ j, (add_id ≤ j)%Z ∧ p = pr j) ∨
  (∀ i : nat, (i ≤ fuel)%nat →
     is_Some (w_fs w !! pr (add_id + Z.of_nat i))).
Proof.
  revert add_id. induction fuel as [|fuel IH]; intros add_id; simpl; munfold.
  - destruct (fs_exists (w_fs w) (pr add_id)) eqn:E; simpl.
    + right. intros i Hi. assert (i = 0%nat) as -> by lia.
      rewrite Z.add_0_r. by apply fs_exists_true.
    + left. exists (pr add_id). split; [done|].
      split; [by apply fs_exists_false|]. exists add_id. split; [lia|done].
  - destruct (fs_exists (w_fs w) (pr add_id)) eqn:E; simpl.
    + destruct (IH (add_id + 1)%Z) as [(p & Hp & Hfree & j & Hj & ->)|Hall].
      * left. exists (pr j). split; [done|]. split; [done|].
        exists j. split; [lia|done].
      * right. intros [|i] Hi.
        { rewrite Z.add_0_r. by apply fs_exists_true. }
        replace (add_id + Z.of_nat (S i))%Z
          with (add_id + 1 + Z.of_nat i)%Z by lia.
        apply Hall. lia.
    + left. exists (pr add_id). split; [done|].
      split; [by apply fs_exists_false|]. exists add_id. split; [lia|done].
Qed.

(** Pigeonhole: the probes are pairwise distinct, so at most [size m] of
    them are taken. *)
Lemma probes_taken_bound (m : gmap string node) (a : Z) (n : nat) :
  (∀ i : nat, (i < n)%nat → is_Some (m !! pr (a + Z.of_nat i))) →
  (n ≤ size m)%nat.
Proof.
  intros Hall.
  set (l := (λ i : nat, pr (a + Z.of_nat i)) <$> seq 0 n).
  assert (NoDup l) as Hnd.
  { apply NoDup_fmap_2; [|apply NoDup_seq].
    intros i j Hij. apply probe_inj in Hij. lia. }
  assert (l ⊆+ elements (dom m)) as Hsub.
  { apply NoDup_submseteq; [done|]. intros x Hx.
    apply list_elem_of_fmap in Hx as (i & -> & Hi).
    apply elem_of_seq in Hi. apply elem_of_elements, elem_of_dom.
    apply Hall. lia. }
  apply submseteq_length in Hsub.
  unfold l in Hsub. rewrite length_fmap, length_seq in Hsub.
  rewrite <-size_dom. done.
Qed.

Lemma loop_terminates fuel add_id w :
  (size (w_fs w) ≤ fuel)%nat →
  ∃ p, get_no_overwrite_path_loop fuel file_path_no_suffix suffix add_id
         (pr add_id) w = (Ok p, w) ∧ w_fs w !! p = None ∧
       ∃ j, (add_id ≤ j)%Z ∧ p = pr j.
Proof.
  intros Hfuel.
  destruct (loop_result fuel add_id w) as [(p & Hp & Hfree)|Hall].
  - exists p. split; [|done].
    rewrite <-(loop_frame fuel add_id (pr add_id) w) at 2.
    rewrite <-Hp. by destruct (get_no_overwrite_path_loop _ _ _ _ _ _).
  - assert (S fuel ≤ size (w_fs w))%nat; [|lia].
    apply (probes_taken_bound (w_fs w) add_id (S fuel)).
    intros i Hi. apply Hall. lia.
Qed.

Lemma get_no_overwrite_path_frame fuel mk warn w :
  (get_no_overwrite_path fuel file_path_no_suffix suffix mk warn w).2 = w.
Proof.
  unfold get_no_overwrite_path. munfold.
  destruct (fs_exists _ _); simpl; [|done].
  pose proof (loop_frame fuel 1 (pr 1) w) as Hf. unfold probe in Hf.
  destruct (get_no_overwrite_path_loop _ _ _ _ _ _) as [[p|e] w'];
    simpl in *; by subst.
Qed.

Lemma loop_ok_free fuel add_id file_path w p w' :
  get_no_overwrite_path_loop fuel file_path_no_suffix suffix add_id
    file_path w = (Ok p, w') →
  w_fs w !! p = None.
Proof.
  revert add_id file_path. induction fuel as [|fuel IH];
    intros add_id file_path; simpl; munfold;
    destruct (fs_exists (w_fs w) file_path) eqn:E; simpl;
    try done; try (intros [= <- <-]; by apply fs_exists_false).
  apply IH.
Qed.

Lemma get_no_overwrite_path_free fuel mk warn w p old w' :
  get_no_overwrite_path fuel file_path_no_suffix suffix mk warn w
    = (Ok (p, old), w') →
  w' = w ∧ w_fs w !! p = None ∧ old = file_path_no_suffix +:+ suffix.
Proof.
  intros H. pose proof (get_no_overwrite_path_frame fuel mk warn w) as Hf.
  rewrite H in Hf. simpl in Hf. subst w'. split; [done|].
  revert H. unfold get_no_overwrite_path. munfold.
  destruct (fs_exists _ _) eqn:E; simpl.
  - destruct (get_no_overwrite_path_loop _ _ _ _ _ _) as [[r|e] w']
      eqn:Hl; simpl; [|done].
    intros [= <- <-]. split; [|done]. by eapply loop_ok_free.
  - intros [= <- <-]. split; [by apply fs_exists_false | done].
Qed.

Lemma get_no_overwrite_path_terminates fuel mk warn w :
  (size (w_fs w) ≤ fuel)%nat →
  ∃ p, get_no_overwrite_path fuel file_path_no_suffix suffix mk warn w
       = (Ok (p, file_path_no_suffix +:+ suffix), w).
Proof.
  intros Hfuel. unfold get_no_overwrite_path. munfold.
  destruct (fs_exists _ _) eqn:E; simpl; [|by eexists].
  destruct (loop_terminates fuel 1 w Hfuel) as (p & Hp & _).
  unfold probe in Hp. rewrite Hp. by eexists.
Qed.

End no_overwrite.

(** * Decimal rendering *)

Lemma pretty_N_char_ok x : pretty_N_char x ≠ "/"%char.
Proof. unfold pretty_N_char. by repeat case_match. Qed.

Lemma pretty_N_go_head_ok x s : (0 < x)%N → head_ok (pretty_N_go x s).
Proof.
  revert s. induction (N.lt_wf_0 x) as [x _ IH]; intros s Hx.
  rewrite pretty_N_go_step by done.
  destruct (decide (x `div` 10 = 0)%N) as [->|Hne].
  - rewrite pretty_N_go_0. simpl. apply pretty_N_char_ok.
  - apply IH; [apply N.div_lt; lia | by apply N.neq_0_lt_0].
Qed.

Lemma pretty_Z_head_ok (z : Z) : (0 ≤ z)%Z → head_ok (pretty z).
Proof.
  intros Hz. destruct z as [|x|x]; [by simpl | | lia].
  unfold pretty, pretty_Z, pretty, pretty_positive, pretty, pretty_N.
  case_decide; [done|]. apply pretty_N_go_head_ok. lia.
Qed.

Lemma head_ok_app s t : head_ok s → head_ok (s +:+ t).
Proof. by destruct s. Qed.

Lemma head_ok_not_slash s : head_ok s → starts_with_slash s = false.
Proof. destruct s as [|a s]; [done|]. simpl. intros H. by case_bool_decide. Qed.

Lemma head_ok_nonempty s : head_ok s → s ≠ "".
Proof. by destruct s. Qed.

(** * Paths *)

Lemma osp_join_rel a b : starts_with_slash b = false → osp_join a b = dirprefix a +:+ b.
Proof. unfold osp_join. by intros ->. Qed.

Lemma ancestors_from_app acc s t :
  ancestors_from acc (s +:+ t)
  = (ancestors_from acc s ++ ancestors_from (acc +:+ s) t)%list.
Proof.
  revert acc. induction s as [|a s IH]; intros acc.
  - by rewrite StrFacts.app_nil_l, StrFacts.app_nil_r.
  - rewrite StrFacts.app_cons. simpl. rewrite IH, <-(assoc_L (++)).
    by rewrite StrFacts.app_assoc.
Qed.

Lemma ancestors_from_elem acc s q :
  q ∈ ancestors_from acc s → ∃ r, q = acc +:+ r.
Proof.
  revert acc. induction s as [|a s IH]; intros acc; simpl.
  - by intros ?%elem_of_nil.
  - intros [Hq|Hq]%elem_of_app.
    + case_decide; [|by apply elem_of_nil in Hq].
      apply list_elem_of_singleton in Hq as ->. exists "".
      by rewrite StrFacts.app_nil_r.
    + apply IH in Hq as [r ->]. exists (String a r).
      by rewrite StrFacts.app_assoc.
Qed.

Lemma ancestors_from_no_slash acc s :
  Str.has "/" s = false → ancestors_from acc s = [].
Proof.
  revert acc. induction s as [|a s IH]; intros acc; simpl; [done|].
  case_decide; [done|]. intros Hs. rewrite IH by done.
  case_decide as Hd; [by destruct Hd | done].
Qed.

(** Creating [p] succeeds when no regular file sits on the way. *)
Lemma os_makedirs_ok p w :
  p ≠ "" →
  (∀ q, q ∈ ancestors p → ¬ is_file (w_fs w) q) →
  ¬ is_file (w_fs w) p →
  ∃ w', os_makedirs p w = (Ok tt, w') ∧
        w_fs w' !! p = Some Dir ∧
        grows (w_fs w) (w_fs w') ∧ w_clock w' = w_clock w.
Proof.
  intros Hne Hanc Hp. unfold os_makedirs.
  case_decide as Hemp; [done|].
  set (qs := (ancestors p ++ [p])%list).
  destruct (mkdir_chain_ok qs w) as [Hok Hdirs].
  { intros q [Hq| ->%list_elem_of_singleton]%elem_of_app; auto. }
  destruct (mkdir_chain_grows qs w) as [Hg Hc].
  destruct (mkdir_chain qs w) as [r w'] eqn:E. simpl in *. subst r.
  exists w'. split; [done|]. split; [|done].
  apply Hdirs. apply elem_of_app. right. by left.
Qed.

Lemma app_nonempty d name : name ≠ "" → d +:+ name ≠ "".
Proof. destruct name; [done|]. by destruct d. Qed.

Lemma os_makedirs_under d name w :
  name ≠ "" →
  (∀ q, q ∈ ancestors d → ¬ is_file (w_fs w) q) →
  (∀ r, ¬ is_file (w_fs w) (d +:+ r)) →
  ∃ w', os_makedirs (d +:+ name) w = (Ok tt, w') ∧
        w_fs w' !! (d +:+ name) = Some Dir ∧
        grows (w_fs w) (w_fs w') ∧ w_clock w' = w_clock w.
Proof.
  intros Hne Hanc Hunder. apply os_makedirs_ok; [by apply app_nonempty| |done].
  intros q Hq. unfold ancestors in Hq. rewrite ancestors_from_app in Hq.
  apply elem_of_app in Hq as [Hq|Hq]; [by apply Hanc|].
  apply ancestors_from_elem in Hq as [r ->]. apply Hunder.
Qed.

Lemma os_makedirs_leaf d name w :
  name ≠ "" → Str.has "/" name = false →
  (∀ q, q ∈ ancestors d → ¬ is_file (w_fs w) q) →
  w_fs w !! (d +:+ name) = None →
  ∃ w', os_makedirs (d +:+ name) w = (Ok tt, w') ∧
        w_fs w' !! (d +:+ name) = Some Dir ∧
        grows (w_fs w) (w_fs w') ∧ w_clock w' = w_clock w.
Proof.
  intros Hne Hns Hanc Hfree. apply os_makedirs_ok; [by apply app_nonempty| |].
  - intros q Hq. unfold ancestors in Hq. rewrite ancestors_from_app in Hq.
    rewrite (ancestors_from_no_slash _ name Hns), app_nil_r in Hq.
    by apply Hanc.
  - intros [c Hc]. congruence.
Qed.

(** Every path of a finite file system is at most some length long. *)
Lemma fs_length_bound (m : gmap string node) :
  ∃ L : nat, ∀ p, is_Some (m !! p) → (String.length p ≤ L)%nat.
Proof.
  induction m as [|k v m Hk _ IH] using map_first_key_ind.
  - exists 0%nat. intros p [x Hx]. by rewrite lookup_empty in Hx.
  - destruct IH as [L HL]. exists (max L (String.length k)).
    intros p Hp. rewrite lookup_insert in Hp. case_decide; [subst; lia|].
    specialize (HL p Hp). lia.
Qed.

(** * The sequential-counter allocator *)

Section sequential.
Context (path_to_parent_folder semantic_id : string).

Local Abbreviation D := (dirprefix path_to_parent_folder).
Local Abbreviation nm := (seq_name semantic_id).
Local Abbreviation ready := (seq_ready path_to_parent_folder).

Lemma hashes_snoc k : hashes k +:+ "#" = hashes (S k).
Proof.
  induction k as [|k IH]; [done|].
  simpl. by rewrite StrFacts.app_cons, IH.
Qed.

Lemma length_hashes k : String.length (hashes k) = k.
Proof. induction k; simpl; auto. Qed.

Lemma seq_name_head_ok k c : (0 ≤ c)%Z → head_ok (nm k c).
Proof.
  intros Hc. unfold seq_name. destruct k as [|k]; [|done].
  simpl. rewrite StrFacts.app_nil_l. by apply head_ok_app, pretty_Z_head_ok.
Qed.

Lemma join_seq_name k c :
  (0 ≤ c)%Z →
  osp_join path_to_parent_folder (nm k c) = D +:+ nm k c.
Proof. intros. by apply osp_join_rel, head_ok_not_slash, seq_name_head_ok. Qed.

Lemma length_join_seq_name k c :
  (0 ≤ c)%Z →
  (k ≤ String.length (osp_join path_to_parent_folder (nm k c)))%nat.
Proof.
  intros Hc. rewrite join_seq_name by done. unfold seq_name.
  rewrite !StrFacts.length_app, length_hashes. lia.
Qed.

Lemma loop_frame_seq fuel prefix counter folder_path w :
  (novel_start_of_folder_loop fuel path_to_parent_folder semantic_id prefix
     counter folder_path w).2 = w.
Proof.
  revert prefix counter folder_path. induction fuel as [|fuel IH];
    intros prefix counter folder_path; simpl; munfold;
    destruct (fs_exists (w_fs w) folder_path); simpl; auto.
  case_decide; apply IH.
Qed.

(** Once the prefix is longer than every existing path the probe is
    free, so the descent through the overflow bands is bounded. *)
Lemma loop_terminates_seq (w : world) (L : nat) :
  (∀ p, is_Some (w_fs w !! p) → (String.length p ≤ L)%nat) →
  ∀ (fuel k : nat) (c : Z) (fp : string),
    (101 ≤ c ≤ 999)%Z →
    (k ≤ L + 2)%nat →
    (k = (L + 2)%nat → w_fs w !! fp = None) →
    (∃ name, name ≠ "" ∧ fp = D +:+ name) →
    (899 * (Z.of_nat L + 2 - Z.of_nat k) + (c - 100) ≤ Z.of_nat fuel)%Z →
    ∃ p, novel_start_of_folder_loop fuel path_to_parent_folder semantic_id
           (hashes k) c fp w = (Ok p, w) ∧
         w_fs w !! p = None ∧ ∃ name, name ≠ "" ∧ p = D +:+ name.
Proof.
  intros HL. induction fuel as [|fuel IH]; intros k c fp Hc Hk Hfree Hfp Hfuel.
  - assert (k = (L + 2)%nat) as Hk' by lia.
    simpl. munfold. apply Hfree in Hk'.
    apply fs_exists_false in Hk' as E. rewrite E. simpl. eauto.
  - simpl. munfold.
    destruct (fs_exists (w_fs w) fp) eqn:E; simpl;
      [|apply fs_exists_false in E; eauto].
    assert (k < L + 2)%nat as Hk'.
    { destruct (decide (k = (L + 2)%nat)) as [Heq|]; [|lia].
      apply Hfree in Heq. apply fs_exists_false in Heq. congruence. }
    fold (nm k (c - 1)).
    assert (∃ name, name ≠ "" ∧
              osp_join path_to_parent_folder (nm k (c - 1)) = D +:+ name)
      as Hnew.
    { exists (nm k (c - 1)). split; [|apply join_seq_name; lia].
      apply head_ok_nonempty, seq_name_head_ok. lia. }
    case_decide as Hdec.
    + rewrite hashes_snoc. apply IH; [lia | lia | | done | lia].
      intros Hk2.
      destruct (w_fs w !! osp_join path_to_parent_folder (nm k (c - 1)))
        eqn:Hlook; [|done].
      pose proof (HL _ (mk_is_Some _ _ Hlook)) as Hlen.
      pose proof (length_join_seq_name k (c - 1)). lia.
    + apply IH; [lia | lia | lia | done | lia].
Qed.

Lemma seq_ready_grows m m' : ready m → grows m m' → ready m'.
Proof.
  intros [H1 H2] [_ Hg]. split.
  - intros q Hq [c Hc]. apply (H1 q Hq). exists c. by apply Hg.
  - intros r [c Hc]. apply (H2 r). exists c. by apply Hg.
Qed.

Lemma loop_mono_seq fuel fuel' prefix counter folder_path w p w' :
  novel_start_of_folder_loop fuel path_to_parent_folder semantic_id prefix
    counter folder_path w = (Ok p, w') →
  (fuel ≤ fuel')%nat →
  novel_start_of_folder_loop fuel' path_to_parent_folder semantic_id prefix
    counter folder_path w = (Ok p, w').
Proof.
  revert fuel' prefix counter folder_path.
  induction fuel as [|fuel IH]; intros fuel' prefix counter folder_path;
    destruct fuel' as [|fuel']; simpl; munfold;
    destruct (fs_exists (w_fs w) folder_path); simpl; try done; try lia.
  intros H Hle. case_decide; (apply IH; [done | lia]).
Qed.

Lemma novel_start_of_folder_call w :
  ready (w_fs w) →
  ∃ (fuel0 : nat) p w',
    (∀ fuel, (fuel0 ≤ fuel)%nat →
       novel_start_of_folder fuel path_to_parent_folder semantic_id w
       = (Ok p, w')) ∧
    w_fs w !! p = None ∧ w_fs w' !! p = Some Dir ∧
    grows (w_fs w) (w_fs w').
Proof.
  intros [Hanc Hunder]. destruct (fs_length_bound (w_fs w)) as [L HL].
  set (fuel0 := Z.to_nat (899 * (Z.of_nat L + 2) + 899)).
  destruct (loop_terminates_seq w L HL fuel0 0 999
              (osp_join path_to_parent_folder (nm 0 999)))
    as (p & Hp & Hfree & name & Hname & ->).
  { lia. } { lia. } { lia. }
  { exists (nm 0 999). split; [|by apply join_seq_name].
    by apply head_ok_nonempty, seq_name_head_ok. }
  { unfold fuel0. lia. }
  destruct (os_makedirs_under D name w Hname Hanc Hunder)
    as (w' & Hmk & Hdir & Hg & _).
  exists fuel0, (D +:+ name), w'. split; [|done].
  intros fuel Hfuel. unfold novel_start_of_folder.
  apply (loop_mono_seq _ fuel) in Hp; [|done].
  unfold seq_name in Hp. simpl in Hp.
  unfold bind at 1. rewrite Hp.
  unfold bind, ret. by rewrite Hmk.
Qed.

Lemma novel_start_of_folder_calls_spec n w :
  ready (w_fs w) →
  ∃ (fuel0 : nat) ps w',
    (∀ fuel, (fuel0 ≤ fuel)%nat →
       novel_start_of_folder_calls fuel n path_to_parent_folder
         semantic_id w = (Ok ps, w')) ∧
    length ps = n ∧ NoDup ps ∧
    (∀ p, p ∈ ps → w_fs w !! p = None ∧ w_fs w' !! p = Some Dir) ∧
    grows (w_fs w) (w_fs w').
Proof.
  revert w. induction n as [|n IH]; intros w Hr.
  - exists 0%nat, [], w. simpl.
    split; [done|]. split; [done|]. split; [apply NoDup_nil_2|].
    split; [by intros p ?%elem_of_nil | apply grows_refl].
  - destruct (novel_start_of_folder_call w Hr)
      as (f1 & p & w1 & Hcall & Hfree & Hdir & Hg).
    destruct (IH w1 (seq_ready_grows _ _ Hr Hg))
      as (f2 & ps & w' & Hcalls & Hlen & Hnd & Hall & Hg2).
    exists (max f1 f2), (p :: ps), w'.
    split.
    { intros fuel Hfuel. simpl. unfold bind, ret.
      rewrite Hcall by lia. by rewrite Hcalls by lia. }
    split; [by rewrite <-Hlen|].
    split.
    { apply NoDup_cons. split; [|done]. intros Hin.
      apply Hall in Hin as [Hn _]. congruence. }
    split; [|by eapply grows_trans].
    intros q [->|Hq]%elem_of_cons.
    + split; [done|]. by apply Hg2.
    + apply Hall in Hq as [Hn Hd]. split; [|done].
      destruct (w_fs w !! q) eqn:Hq'; [|done].
      apply Hg in Hq'. congruence.
Qed.

End sequential.

(** * The random-alphanumeric allocator *)

Lemma get_no_slash s i c :
  Str.has "/" s = false → String.get i s = Some c → c ≠ "/"%char.
Proof.
  revert i. induction s as [|a s IH]; intros i; simpl; [done|].
  case_decide as Ha; [done|]. intros Hs.
  destruct i as [|i]; [by intros [= <-] | by apply IH].
Qed.

Lemma alphanum_char_ok rem : alphanum_char rem ≠ "/"%char.
Proof.
  unfold alphanum_char.
  destruct (String.get _ _) as [c|] eqn:E; [|done].
  by apply (get_no_slash _ALPHANUM_CHARS (Z.to_nat rem)).
Qed.

Lemma has_string_of_list c (l : list ascii) :
  Str.has c (string_of_list_ascii l) = false ↔ c ∉ l.
Proof.
  induction l as [|a l IH]; simpl.
  - split; [intros _ ?%elem_of_nil; done | done].
  - case_decide as Ha.
    + split; [done|]. intros Hn. destruct Hn. subst. left.
    + rewrite IH, not_elem_of_cons.
      split; [intros Hl; split; [congruence | done] | by intros [_ Hl]].
Qed.

Lemma _to_base62_chars_ok num len c :
  c ∈ _to_base62_chars num len → c ≠ "/"%char.
Proof.
  revert num. induction len as [|len IH]; intros num; simpl.
  - by intros ?%elem_of_nil.
  - intros [->|Hc]%elem_of_cons; [apply alphanum_char_ok | by eapply IH].
Qed.

Lemma _to_base62_no_slash num len : Str.has "/" (_to_base62 num len) = false.
Proof.
  unfold _to_base62. apply has_string_of_list.
  intros Hin. apply list_elem_of_In, in_rev, list_elem_of_In in Hin.
  by apply _to_base62_chars_ok in Hin.
Qed.

Lemma length_string_of_list (l : list ascii) :
  String.length (string_of_list_ascii l) = length l.
Proof. induction l; simpl; auto. Qed.

Lemma length__to_base62 num len : String.length (_to_base62 num len) = len.
Proof.
  unfold _to_base62. rewrite length_string_of_list, length_rev.
  revert num. induction len as [|len IH]; intros num; simpl; auto.
Qed.

Lemma _to_base62_head_ok num len : (0 < len)%nat → head_ok (_to_base62 num len).
Proof.
  intros Hlen. pose proof (length__to_base62 num len) as Hl.
  pose proof (_to_base62_no_slash num len) as Hs.
  destruct (_to_base62 num len) as [|a s]; simpl in *; [lia|].
  by case_decide.
Qed.

Section anum.
Context (ptpf : string) (digit_num : nat) (max_num : Z).
Context (Hdigits : (0 < digit_num)%nat) (Hmax : (0 < max_num)%Z).

Local Abbreviation D := (dirprefix ptpf).
Local Abbreviation sl := (slot ptpf digit_num).

Lemma slot_eq n : sl n = D +:+ _to_base62 n digit_num.
Proof.
  unfold slot. by apply osp_join_rel, head_ok_not_slash, _to_base62_head_ok.
Qed.

(** Linear probing from [n] reaches a free slot that lies at most [fuel]
    steps ahead. *)
Lemma anum_loop_spec (w : world) :
  (∀ q, q ∈ ancestors D → ¬ is_file (w_fs w) q) →
  ∀ (fuel : nat) (n : Z),
    (0 ≤ n < max_num)%Z →
    (∃ j : nat, (j ≤ fuel)%nat ∧
       w_fs w !! sl ((n + Z.of_nat j) `mod` max_num) = None) →
    ∃ k w', novel_folder_anum_loop fuel ptpf digit_num max_num n w
              = (Ok (sl k), w') ∧
            (0 ≤ k < max_num)%Z ∧
            w_fs w !! sl k = None ∧ w_fs w' !! sl k = Some Dir ∧
            grows (w_fs w) (w_fs w').
Proof.
  intros Hanc. induction fuel as [|fuel IH]; intros n Hn (j & Hj & Hfree).
  - assert (j = 0%nat) as -> by lia.
    rewrite Z.add_0_r, Z.mod_small in Hfree by done.
    simpl. munfold. fold (sl n).
    apply fs_exists_false in Hfree as E. rewrite E. simpl.
    rewrite slot_eq in Hfree |- *.
    destruct (os_makedirs_leaf D (_to_base62 n digit_num) w)
      as (w' & Hmk & Hdir & Hg & _); [| |done|done|].
    { by apply head_ok_nonempty, _to_base62_head_ok. }
    { apply _to_base62_no_slash. }
    rewrite Hmk. exists n, w'. by rewrite slot_eq.
  - simpl. munfold. fold (sl n).
    destruct (fs_exists (w_fs w) (sl n)) eqn:E; simpl.
    + destruct j as [|j].
      { rewrite Z.add_0_r, Z.mod_small in Hfree by done.
        apply fs_exists_false in Hfree. congruence. }
      apply IH; [by apply Z.mod_pos_bound|].
      exists j. split; [lia|].
      rewrite Z.add_mod_idemp_l by lia.
      by replace (n + 1 + Z.of_nat j)%Z with (n + Z.of_nat (S j))%Z by lia.
    + apply fs_exists_false in E as Hfree'.
      rewrite slot_eq in Hfree' |- *.
      destruct (os_makedirs_leaf D (_to_base62 n digit_num) w)
        as (w' & Hmk & Hdir & Hg & _); [| |done|done|].
      { by apply head_ok_nonempty, _to_base62_head_ok. }
      { apply _to_base62_no_slash. }
      rewrite Hmk. exists n, w'. by rewrite slot_eq.
Qed.

Lemma anum_loop_free_slot (w : world) (fuel : nat) (n m : Z) :
  (∀ q, q ∈ ancestors D → ¬ is_file (w_fs w) q) →
  (Z.to_nat max_num - 1 ≤ fuel)%nat →
  (0 ≤ n < max_num)%Z → (0 ≤ m < max_num)%Z →
  w_fs w !! sl m = None →
  ∃ k w', novel_folder_anum_loop fuel ptpf digit_num max_num n w
            = (Ok (sl k), w') ∧
          (0 ≤ k < max_num)%Z ∧
          w_fs w !! sl k = None ∧ w_fs w' !! sl k = Some Dir ∧
          grows (w_fs w) (w_fs w').
Proof.
  intros Hanc Hfuel Hn Hm Hfree. apply anum_loop_spec; [done|done|].
  exists (Z.to_nat ((m - n) `mod` max_num)).
  pose proof (Z.mod_pos_bound (m - n) max_num Hmax).
  split; [lia|]. rewrite Z2Nat.id by lia.
  rewrite Z.add_mod_idemp_r by lia.
  replace (n + (m - n))%Z with m by lia. by rewrite Z.mod_small.
Qed.

End anum.

(** * The backup deduplicator *)

Lemma mkdir_chain_new qs w k v :
  w_fs (mkdir_chain qs w).2 !! k = Some v →
  w_fs w !! k = Some v ∨ (k ∈ qs ∧ v = Dir).
Proof.
  revert w. induction qs as [|q rest IH]; intros w; simpl; [by left|].
  munfold. destruct (w_fs w !! q) as [[c|]|] eqn:Hq; simpl.
  - destruct rest; by left.
  - intros [?|[? ?]]%IH; [by left | right; split; [by right | done]].
  - intros [Hk|[? ?]]%IH; [|right; split; [by right | done]].
    simpl in Hk. rewrite lookup_insert in Hk. case_decide.
    + simplify_eq. right. split; [by left | done].
    + by left.
Qed.

Lemma rsplit_spec c s h t :
  Str.rsplit c s = Some (h, t) →
  s = h +:+ String c t ∧ Str.has c t = false.
Proof.
  revert h. induction s as [|a s IH]; intros h; simpl; [done|].
  destruct (Str.rsplit c s) as [[h' t']|] eqn:E.
  - intros [= <- <-]. destruct (IH h' eq_refl) as [-> Ht]. done.
  - case_decide as Ha; [|done]. intros [= <- <-]. subst a. split; [done|].
    clear IH. induction s as [|b s IH]; simpl in *; [done|].
    destruct (Str.rsplit c s) as [[h' t']|]; [done|].
    case_decide; [done|]. by apply IH.
Qed.

Lemma osp_basename_no_slash p : Str.has "/" (osp_basename p) = false.
Proof.
  unfold osp_basename. destruct (Str.rsplit "/" p) as [[h t]|] eqn:E.
  - by apply rsplit_spec in E as [_ ?].
  - induction p as [|a p IH]; simpl in *; [done|].
    destruct (Str.rsplit "/" p) as [[h' t']|]; [done|].
    case_decide; [done|]. by apply IH.
Qed.

Lemma no_slash_not_start s : Str.has "/" s = false → starts_with_slash s = false.
Proof. destruct s as [|a s]; simpl; [done|]. case_decide; [done|]. by case_bool_decide. Qed.

Lemma ends_with_slash_snoc s : ends_with_slash s = true → ∃ h, s = h +:+ "/".
Proof.
  induction s as [|a s IH]; simpl; [done|]. destruct s as [|b s].
  - case_bool_decide; [|done]. subst. by exists "".
  - intros [h Hh]%IH. exists (String a h). by rewrite StrFacts.app_cons, <-Hh.
Qed.

Lemma dirprefix_snoc b : b ≠ "" → ∃ h, dirprefix b = h +:+ "/".
Proof.
  intros Hb. unfold dirprefix. case_decide; [done|].
  destruct (ends_with_slash b) eqn:E; [by apply ends_with_slash_snoc | by exists b].
Qed.

Lemma length_rstrip_slash s :
  (String.length (Str.rstrip_slash s) ≤ String.length s)%nat.
Proof. induction s as [|a s IH]; simpl; [done|]. case_decide; simpl; lia. Qed.

Lemma ancestors_from_length acc s q :
  q ∈ ancestors_from acc s →
  (String.length q < String.length acc + String.length s)%nat.
Proof.
  revert acc. induction s as [|a s IH]; intros acc; simpl.
  - by intros ?%elem_of_nil.
  - intros [Hq|Hq]%elem_of_app.
    + case_decide; [|by apply elem_of_nil in Hq].
      apply list_elem_of_singleton in Hq as ->. lia.
    + apply IH in Hq. rewrite StrFacts.length_app in Hq. simpl in Hq. lia.
Qed.

Section backups.
Context (B : string) (HB : B ≠ "").

Local Abbreviation tgt := (backup_target B).
Local Abbreviation bd := (backup_dir B).
Local Abbreviation chain := (ancestors (backup_dir B) ++ [backup_dir B])%list.

Lemma tgt_eq p : tgt p = dirprefix B +:+ osp_basename p.
Proof.
  unfold backup_target. apply osp_join_rel, no_slash_not_start,
    osp_basename_no_slash.
Qed.

Lemma dirname_prefix f :
  Str.has "/" f = false → osp_dirname (dirprefix B +:+ f) = bd.
Proof.
  intros Hf. destruct (dirprefix_snoc B HB) as [h Hh].
  unfold backup_dir, osp_dirname. rewrite Hh.
  rewrite StrFacts.app_assoc. change ("/" +:+ f) with (String "/"%char f).
  rewrite (StrFacts.rsplit_app "/" h f Hf).
  by rewrite (StrFacts.rsplit_app "/" h "" eq_refl).
Qed.

Lemma dirname_tgt p : osp_dirname (tgt p) = bd.
Proof. rewrite tgt_eq. apply dirname_prefix, osp_basename_no_slash. Qed.

Lemma length_bd : (String.length bd ≤ String.length (dirprefix B))%nat.
Proof.
  destruct (dirprefix_snoc B HB) as [h Hh].
  unfold backup_dir, osp_dirname. rewrite Hh.
  rewrite (StrFacts.rsplit_app "/" h "" eq_refl).
  case_decide; [done|]. apply length_rstrip_slash.
Qed.


Lemma chain_length q :
  q ∈ chain → (String.length q ≤ String.length (dirprefix B))%nat.
Proof.
  pose proof length_bd.
  intros [Hq| ->%list_elem_of_singleton]%elem_of_app; [|done].
  apply ancestors_from_length in Hq. simpl in Hq. lia.
Qed.

Lemma tgt_not_chain p : osp_basename p ≠ "" → tgt p ∉ chain.
Proof.
  intros Hne Hin. apply chain_length in Hin.
  rewrite tgt_eq, StrFacts.length_app in Hin.
  destruct (osp_basename p); [done|]. simpl in Hin. lia.
Qed.





(** A call that finds every existing source already backed up copies
    nothing. *)
Lemma second_call paths w :
  (∀ p, p ∈ paths → is_Some (w_fs w !! p) → is_Some (w_fs w !! tgt p)) →
  make_non_duplicate_backups paths B w
  = (Ok (outcome2 (w_fs w) <$> paths), w).
Proof.
  induction paths as [|p rest IH]; intros Hall; [done|].
  simpl. munfold. unfold outcome2 at 1.
  assert (make_non_duplicate_backups rest B w
          = (Ok (outcome2 (w_fs w) <$> rest), w)) as Hrest
    by (apply IH; intros q Hq; apply Hall; by right).
  destruct (fs_exists (w_fs w) p) eqn:E; simpl; [|by rewrite Hrest].
  fold (tgt p).
  rewrite (proj2 (fs_exists_true _ _)
             (Hall p (list_elem_of_here _ _) (proj1 (fs_exists_true _ _) E))).
  by rewrite Hrest.
Qed.

End backups.


(** * Properties of [helpers_storage.py] *)

(** C9: [get_no_overwrite_path] leaves the world (every path's existence
    and content, and the log of file-system operations) exactly as it
    found it, and its result does not depend on [make_folders_on_path]
    (nor on [warn_if_already_exists]): no directory is created. *)
Theorem get_no_overwrite_path_readonly (fuel : nat)
    (file_path_no_suffix suffix : string)
    (make_folders_on_path warn_if_already_exists : bool) (w : world) :
  (get_no_overwrite_path fuel file_path_no_suffix suffix
     make_folders_on_path warn_if_already_exists w).2 = w ∧
  ∀ make_folders_on_path' warn_if_already_exists',
    get_no_overwrite_path fuel file_path_no_suffix suffix
      make_folders_on_path' warn_if_already_exists' w
    = get_no_overwrite_path fuel file_path_no_suffix suffix
        make_folders_on_path warn_if_already_exists w.
Proof. split; [apply get_no_overwrite_path_frame | done]. Qed.

Example get_no_overwrite_path_taken :
  get_no_overwrite_path 1 "p/ab" ".txt" true false w_one_file
  = (Ok ("p/ab_1.txt", "p/ab.txt"), w_one_file).
Proof. vm_compute. reflexivity. Qed.

(** C3, as stated, fails: with nothing created in between, the second
    call returns the path of the first. *)
Lemma get_no_overwrite_path_twice_same :
  get_no_overwrite_path_twice 1 "p/ab" ".txt" w_one_file
  = (Ok ("p/ab_1.txt", "p/ab_1.txt"), w_one_file).
Proof. vm_compute. reflexivity. Qed.

(** C3, amended: two calls in succession return the same free path and
    change nothing; once something exists at the first returned path, the
    next call returns a different path and still changes nothing, so the
    content at the first path is kept. *)
Theorem get_no_overwrite_path_no_clobber (fuel : nat)
    (file_path_no_suffix suffix : string) (w : world) :
  (size (w_fs w) ≤ fuel)%nat →
  ∃ p1,
    get_no_overwrite_path_twice fuel file_path_no_suffix suffix w
      = (Ok (p1, p1), w) ∧
    w_fs w !! p1 = None ∧
    ∀ w1, is_Some (w_fs w1 !! p1) → (size (w_fs w1) ≤ fuel)%nat →
      ∃ p2 old,
        get_no_overwrite_path fuel file_path_no_suffix suffix true false w1
          = (Ok (p2, old), w1) ∧
        p2 ≠ p1 ∧ w_fs w1 !! p2 = None.
Proof.
  intros Hfuel.
  destruct (get_no_overwrite_path_terminates file_path_no_suffix suffix
              fuel true false w Hfuel) as [p1 H1].
  exists p1. split; [|split].
  - unfold get_no_overwrite_path_twice, bind, ret. by rewrite !H1.
  - by apply get_no_overwrite_path_free in H1 as (_ & ? & _).
  - intros w1 Hex Hfuel1.
    destruct (get_no_overwrite_path_terminates file_path_no_suffix suffix
                fuel true false w1 Hfuel1) as [p2 H2].
    exists p2, (file_path_no_suffix +:+ suffix). split; [done|].
    apply get_no_overwrite_path_free in H2 as (_ & Hfree & _).
    split; [|done]. intros ->. destruct Hex as [v Hv]. congruence.
Qed.

Lemma get_no_overwrite_path_no_clobber_witness :
  ∃ p1,
    get_no_overwrite_path_twice 3 "p/ab" ".txt" w_one_file
      = (Ok (p1, p1), w_one_file) ∧
    w_fs w_one_file !! p1 = None ∧
    ∀ w1, is_Some (w_fs w1 !! p1) → (size (w_fs w1) ≤ 3)%nat →
      ∃ p2 old,
        get_no_overwrite_path 3 "p/ab" ".txt" true false w1
          = (Ok (p2, old), w1) ∧
        p2 ≠ p1 ∧ w_fs w1 !! p2 = None.
Proof.
  apply (get_no_overwrite_path_no_clobber 3 "p/ab" ".txt" w_one_file).
  vm_compute. lia.
Defined.

(** C4: [n] calls of [novel_start_of_folder] on an initially empty parent
    folder with one label all return (given enough fuel for the loops),
    the [n] returned paths are pairwise distinct, and each of them is a
    directory afterwards. *)
Theorem novel_start_of_folder_unique (n : nat)
    (path_to_parent_folder semantic_id : string) (w : world) :
  (∀ q, q ∈ ancestors (dirprefix path_to_parent_folder) →
        ¬ is_file (w_fs w) q) →
  (∀ r, w_fs w !! (dirprefix path_to_parent_folder +:+ r) = None) →
  ∃ (fuel0 : nat) (ps : list string) (w' : world),
    (∀ fuel, (fuel0 ≤ fuel)%nat →
       novel_start_of_folder_calls fuel n path_to_parent_folder semantic_id w
       = (Ok ps, w')) ∧
    length ps = n ∧ NoDup ps ∧
    ∀ p, p ∈ ps → w_fs w' !! p = Some Dir.
Proof.
  intros Hanc Hempty.
  destruct (novel_start_of_folder_calls_spec path_to_parent_folder
              semantic_id n w)
    as (fuel0 & ps & w' & Hcalls & Hlen & Hnd & Hall & _).
  { split; [done|]. intros r [c Hc]. by rewrite Hempty in Hc. }
  exists fuel0, ps, w'. split; [done|]. split; [done|]. split; [done|].
  intros p Hp. by apply Hall.
Qed.

Lemma w_empty_dir_ready :
  (∀ q, q ∈ ancestors (dirprefix "p") → ¬ is_file (w_fs w_empty_dir) q) ∧
  (∀ r, w_fs w_empty_dir !! (dirprefix "p" +:+ r) = None).
Proof.
  split.
  - intros q Hq [c Hc]. vm_compute in Hq.
    apply list_elem_of_singleton in Hq as ->. by vm_compute in Hc.
  - intros r. simpl. rewrite lookup_insert_ne by done. apply lookup_empty.
Defined.

Lemma novel_start_of_folder_unique_witness :
  ∃ (fuel0 : nat) (ps : list string) (w' : world),
    (∀ fuel, (fuel0 ≤ fuel)%nat →
       novel_start_of_folder_calls fuel 3 "p" "run" w_empty_dir = (Ok ps, w')) ∧
    length ps = 3%nat ∧ NoDup ps ∧
    ∀ p, p ∈ ps → w_fs w' !! p = Some Dir.
Proof.
  apply (novel_start_of_folder_unique 3 "p" "run" w_empty_dir);
    apply w_empty_dir_ready.
Defined.

Example novel_start_of_folder_three_calls :
  (novel_start_of_folder_calls 3 3 "p" "run" w_empty_dir).1
  = Ok ["p/999_run"; "p/998_run"; "p/997_run"].
Proof. vm_compute. reflexivity. Qed.

(** The overflow band: when [999] down to [101] are taken the call
    settles on [100], and the next one on [#998]. *)
Example novel_start_of_folder_overflow :
  (novel_start_of_folder_calls 2000 2 "p" "x" w_band_taken).1
  = Ok ["p/100_x"; "p/#998_x"].
Proof. vm_compute. reflexivity. Qed.

Example novel_folder_anum_wraps :
  (novel_folder_anum 2 3843 "p" 2
     (World (<["p/zz" := Dir]> (<["p/00" := Dir]> ∅)) [] 0)).1
  = Ok "p/01".
Proof. vm_compute. reflexivity. Qed.





Example make_non_duplicate_backups_two_calls :
  let (r1, w1) :=
    make_non_duplicate_backups ["a/x"; "nope"; "b/y"] "bk" w_two_sources in
  r1 = Ok [COPIED; MISSING; COPIED] ∧
  (make_non_duplicate_backups ["a/x"; "nope"; "b/y"] "bk" w1).1
  = Ok [ALREADY_PRESENT; MISSING; ALREADY_PRESENT].
Proof. vm_compute. split; reflexivity. Qed.


(** * The checkpoint store *)

Lemma bind_inv {St A B} (m : M St A) (k : A → M St B) s r s' :
  bind m k s = (Ok r, s') →
  ∃ a s1, m s = (Ok a, s1) ∧ k a s1 = (Ok r, s').
Proof.
  unfold bind. destruct (m s) as [[a|e] s1]; [|done]. eauto.
Qed.

Lemma liftW_inv {A} (m : M world A) s r s' :
  liftW m s = (r, s') →
  ∃ w', m (env s) = (r, w') ∧ s' = Session (self s) w'.
Proof.
  unfold liftW. destruct (m (env s)) as [r0 w']. intros [= <- <-]. eauto.
Qed.

Lemma the_path_inv {St} (p : option string) (s : St) x s' :
  the_path p s = (Ok x, s') → p = Some x ∧ s' = s.
Proof. destruct p; simpl; unfold ret, raise; by intros [= <- <-]. Qed.

Section unpickling_facts.
Context (pickle_load_other : content → res pyobj).

Local Abbreviation load_objects := (load_checkpoint_objects pickle_load_other).

Lemma load_checkpoint_objects_frame files loaded s :
  (load_objects files loaded s).2 = s.
Proof.
  revert loaded. induction files as [|[obj_name filename] rest IH];
    intros loaded; simpl; [done|].
  destruct s as [o w]. unfold bind, gets, the_path, liftW, osp_exists,
    open_read, ret, raise. simpl.
  destruct (files_dir o) as [dir|]; simpl; [|done].
  destruct (fs_exists (w_fs w) (osp_join dir filename)); simpl; [|apply IH].
  unfold bind, gets. simpl.
  destruct (w_fs w !! osp_join dir filename) as [[c|]|]; simpl; try done.
  destruct (pickle_load pickle_load_other c); simpl; [apply IH | done].
Qed.

(** Every error of the loop is the error of reading one recorded file
    that exists (or of the missing [files_dir]). *)
Lemma load_checkpoint_objects_error files loaded s e :
  (load_objects files loaded s).1 = Raise e →
  files_dir (self s) = None ∧ e = TypeError ∨
  ∃ dir r f,
    files_dir (self s) = Some dir ∧ (r, f) ∈ files ∧
    (w_fs (env s) !! osp_join dir f = Some Dir ∧ e = IsADirectoryError ∨
     ∃ c, w_fs (env s) !! osp_join dir f = Some (File c) ∧
          pickle_load pickle_load_other c = Raise e).
Proof.
  revert loaded. induction files as [|[obj_name filename] rest IH];
    intros loaded; simpl; [done|].
  destruct s as [o w]. unfold bind, gets, the_path, liftW, osp_exists,
    open_read, ret, raise. simpl.
  destruct (files_dir o) as [dir|] eqn:Hdir; simpl;
    [|intros [= <-]; by left].
  assert (∀ loaded',
            (load_objects rest loaded' (Session o w)).1 = Raise e →
            Some dir = None ∧ e = TypeError ∨
            ∃ dir0 r f,
              Some dir = Some dir0 ∧ (r, f) ∈ (obj_name, filename) :: rest ∧
              (w_fs w !! osp_join dir0 f = Some Dir ∧ e = IsADirectoryError ∨
               ∃ c, w_fs w !! osp_join dir0 f = Some (File c) ∧
                    pickle_load pickle_load_other c = Raise e)) as Hrest.
  { intros loaded' H. destruct (IH _ H) as [[? ?]|(d & r & f & Hd & Hin & Hx)].
    - simpl in *. congruence.
    - right. exists d, r, f. simpl in *. rewrite Hdir in Hd.
      split; [done|]. split; [by right | done]. }
  unfold fs_exists, bind, gets. simpl.
  destruct (w_fs w !! osp_join dir filename) as [[c|]|] eqn:E; simpl.
  - rewrite E. simpl.
    destruct (pickle_load pickle_load_other c) as [ob|e'] eqn:Hc; simpl;
      [apply Hrest|].
    intros [= <-]. right. exists dir, obj_name, filename.
    split; [done|]. split; [by left|]. right. by exists c.
  - rewrite E. simpl. intros [= <-]. right. exists dir, obj_name, filename.
    split; [done|]. split; [by left|]. by left.
  - apply Hrest.
Qed.

Lemma load_checkpoint_frame name s :
  (load_checkpoint pickle_load_other name s).2 = s.
Proof.
  unfold load_checkpoint, bind, gets, raise.
  destruct (checkpoint_db (self s) !! name) as [info|]; simpl; [|done].
  apply load_checkpoint_objects_frame.
Qed.

End unpickling_facts.

(** C7, as stated, fails in its "only if" half: in a store whose index
    holds [c1], with the file of one role overwritten by bytes on which
    [pickle.load] raises [ValueError], [load_checkpoint] fails with a
    [ValueError], the class of the not-found error, although the name is
    in the index. *)
Lemma load_checkpoint_value_error_present :
  is_Some (checkpoint_db (self session_logs_garbage) !! "c1") ∧
  load_checkpoint pickle_load_value_error "c1" session_logs_garbage
  = (Raise ValueError, session_logs_garbage).
Proof. split; [vm_compute; by eexists | vm_compute; reflexivity]. Qed.

(** C7, amended: [load_checkpoint name] raises [ValueError] ("not found")
    whenever [name] is not a key of the checkpoint index, and it leaves
    the whole state (index, shared state, file tree, files on disk) as
    it was, whether it fails or not.  For a name that is in the index,
    every failure is the failure of reading one recorded file that
    exists (a directory in its place, or bytes that [pickle.load]
    rejects), or the [TypeError] of a store without [files_dir]; so if
    [pickle.load] raises no [ValueError], the call raises [ValueError]
    exactly when the name is absent. *)
Theorem load_checkpoint_not_found
    (pickle_load_other : content → res pyobj) (name : string) (s : session) :
  (checkpoint_db (self s) !! name = None →
   load_checkpoint pickle_load_other name s = (Raise ValueError, s)) ∧
  (load_checkpoint pickle_load_other name s).2 = s ∧
  (∀ info e,
     checkpoint_db (self s) !! name = Some info →
     (load_checkpoint pickle_load_other name s).1 = Raise e →
     files_dir (self s) = None ∧ e = TypeError ∨
     ∃ dir r f,
       files_dir (self s) = Some dir ∧ (r, f) ∈ ci_files info ∧
       (w_fs (env s) !! osp_join dir f = Some Dir ∧ e = IsADirectoryError ∨
        ∃ c, w_fs (env s) !! osp_join dir f = Some (File c) ∧
             pickle_load pickle_load_other c = Raise e)) ∧
  ((∀ c, pickle_load_other c ≠ Raise ValueError) →
   ((load_checkpoint pickle_load_other name s).1 = Raise ValueError ↔
    checkpoint_db (self s) !! name = None)).
Proof.
  assert (∀ info e,
            checkpoint_db (self s) !! name = Some info →
            (load_checkpoint pickle_load_other name s).1 = Raise e →
            files_dir (self s) = None ∧ e = TypeError ∨
            ∃ dir r f,
              files_dir (self s) = Some dir ∧ (r, f) ∈ ci_files info ∧
              (w_fs (env s) !! osp_join dir f = Some Dir ∧
               e = IsADirectoryError ∨
               ∃ c, w_fs (env s) !! osp_join dir f = Some (File c) ∧
                    pickle_load pickle_load_other c = Raise e)) as Herr.
  { intros info e Hin. unfold load_checkpoint, bind, gets. rewrite Hin.
    apply load_checkpoint_objects_error. }
  assert (checkpoint_db (self s) !! name = None →
          load_checkpoint pickle_load_other name s = (Raise ValueError, s))
    as Habsent.
  { intros Hn. unfold load_checkpoint, bind, gets, raise. by rewrite Hn. }
  split; [done|]. split; [apply load_checkpoint_frame|]. split; [done|].
  intros Hno. split; [|by intros ->%Habsent].
  intros Hv. destruct (checkpoint_db (self s) !! name) as [info|] eqn:E;
    [|done].
  destruct (Herr info ValueError eq_refl Hv)
    as [[_ ?]|(dir & r & f & _ & _ & [[_ ?]|(c & _ & Hc)])]; try done.
  destruct c; simpl in Hc; try done; by destruct (Hno _ Hc).
Qed.

Lemma load_checkpoint_not_found_witness :
  load_checkpoint pickle_load_unpickling_error "nope" session_after_c1
  = (Raise ValueError, session_after_c1) ∧
  ((load_checkpoint pickle_load_unpickling_error "c1" session_logs_garbage).1
   = Raise ValueError ↔
   checkpoint_db (self session_logs_garbage) !! "c1" = None).
Proof.
  split.
  - apply (load_checkpoint_not_found pickle_load_unpickling_error "nope"
             session_after_c1).
    vm_compute. reflexivity.
  - apply (load_checkpoint_not_found pickle_load_unpickling_error "c1"
             session_logs_garbage).
    intros c. discriminate.
Defined.

Example load_checkpoint_unknown :
  load_checkpoint pickle_load_unpickling_error "nope" fresh_session
  = (Raise ValueError, fresh_session).
Proof. vm_compute. reflexivity. Qed.

(** With [model=None] the object is skipped like any other [None], and
    the call then raises [KeyError] at
    [checkpoint_info['files']['model']], after the entry has been put into
    the in-memory index and before anything is written. *)
Example save_checkpoint_model_none_raises :
  let r := save_checkpoint 5 "c1" [("model", None)] fresh_session in
  r.1 = Raise KeyError ∧
  (ci_files <$> checkpoint_db (self r.2) !! "c1") = Some [] ∧
  w_log (env r.2) = [].
Proof. vm_compute. repeat split; reflexivity. Qed.

(** C2, as stated, fails: the checkpoint index [tiny_db.json] is the last
    document written, after [shared_storage.yaml]. *)
Lemma save_checkpoint_index_written_last :
  let l := write_paths
             (w_log (env (save_checkpoint 5 "c1" [("model", Some a_model)]
                            fresh_session).2)) in
  l = ["proj/files/c1_model.pkl"; "proj/main.yaml";
       "proj/shared_storage.yaml"; "proj/file_tree.yaml";
       "proj/tiny_db.json"] ∧
  ¬ ∃ i j : nat, (i < j)%nat ∧ l !! i = Some "proj/tiny_db.json" ∧
                 l !! j = Some "proj/shared_storage.yaml".
Proof.
  intros l.
  assert (l = ["proj/files/c1_model.pkl"; "proj/main.yaml";
               "proj/shared_storage.yaml"; "proj/file_tree.yaml";
               "proj/tiny_db.json"]) as Hl by (vm_compute; reflexivity).
  clearbody l. subst l. split; [reflexivity|].
  intros (i & j & Hij & Hi & Hj).
  do 5 (destruct i as [|i]; [simplify_eq/=|]); [|done].
  do 5 (destruct j as [|j]; [simplify_eq/=; lia|]); done.
Qed.

Lemma loop_ok_shape file_path_no_suffix suffix fuel add_id w p w' :
  get_no_overwrite_path_loop fuel file_path_no_suffix suffix add_id
    (probe file_path_no_suffix suffix add_id) w = (Ok p, w') →
  ∃ j, (add_id ≤ j)%Z ∧ p = probe file_path_no_suffix suffix j.
Proof.
  revert add_id. induction fuel as [|fuel IH]; intros add_id; simpl; munfold;
    destruct (fs_exists (w_fs w) _) eqn:E; simpl; try done;
    try (intros [= <- <-]; exists add_id; split; [lia | done]).
  intros H. apply IH in H as (j & Hj & ->). exists j. split; [lia | done].
Qed.

Lemma get_no_overwrite_path_shape fuel base suffix mk warn w p old w' :
  get_no_overwrite_path fuel base suffix mk warn w = (Ok (p, old), w') →
  w' = w ∧ w_fs w !! p = None ∧
  (p = base +:+ suffix ∨
   (is_Some (w_fs w !! (base +:+ suffix)) ∧
    ∃ k : Z, (1 ≤ k)%Z ∧ p = probe base suffix k)).
Proof.
  intros H.
  destruct (get_no_overwrite_path_free _ _ _ _ _ _ _ _ _ H) as (-> & Hfree & _).
  split; [done|]. split; [done|].
  revert H. unfold get_no_overwrite_path. munfold.
  destruct (fs_exists (w_fs w) (base +:+ suffix)) eqn:E; simpl.
  - destruct (get_no_overwrite_path_loop _ _ _ _ _ _) as [[q|e] w1] eqn:Hl;
      simpl; [|done].
    intros [= <- <-]. right. split; [by apply fs_exists_true|].
    by apply (loop_ok_shape base suffix fuel 1 w q w1).
  - intros [= <- <-]. by left.
Qed.

Lemma open_write_inv p c w w' :
  open_write p c w = (Ok tt, w') →
  w' = add_log (EvWrite p c) (set_fs <[p := File c]> w).
Proof.
  unfold open_write. munfold.
  destruct (w_fs w !! p) as [[c0|]|]; simpl; try done;
    (case_decide; [|destruct (w_fs w !! osp_dirname p) as [[c1|]|]]);
    simpl; try done; by intros [= <-].
Qed.

Lemma _update_file_tree_inv relative_path s s' :
  _update_file_tree relative_path s = (Ok tt, s') →
  same_but_tree (self s) (self s') ∧
  w_fs (env s') = w_fs (env s) ∧ w_log (env s') = w_log (env s).
Proof.
  destruct s as [o w]. unfold _update_file_tree.
  unfold bind, gets, liftW, datetime_now_isoformat, the_path, osp_getsize,
    ret, raise. simpl.
  assert (∀ leaf root,
    (added_at <- liftW datetime_now_isoformat ;;
     pp <- the_path (project_path o) ;;
     size_bytes <- liftW (osp_getsize (osp_join pp relative_path)) ;;
     match tree_insert (path_parts relative_path)
             (leaf added_at size_bytes) root with
     | Ok root' =>
         set_self (set_file_tree (dict_set "root" root' (file_tree o)))
     | Raise e => raise e
     end) (Session o w) = (Ok tt, s') →
    same_but_tree o (self s') ∧ w_fs (env s') = w_fs w ∧
    w_log (env s') = w_log w) as Hrest.
  { intros leaf root.
    unfold bind, gets, liftW, datetime_now_isoformat, the_path, osp_getsize,
      ret, raise. simpl.
    destruct (project_path o) as [pp|]; simpl; [|done].
    unfold bind, gets. simpl.
    destruct (w_fs w !! osp_join pp relative_path) as [[c|]|]; simpl;
      [| |done].
    - destruct (tree_insert _ _ _); simpl; [|done].
      unfold set_self, modify. intros [= <-]. simpl. by destruct o.
    - destruct (tree_insert _ _ _); simpl; [|done].
      unfold set_self, modify. intros [= <-]. simpl. by destruct o. }
  unfold bind at 1, gets at 1. simpl.
  destruct (tree_insert _ YNone _) as [r0|[]]; try done;
    apply (Hrest (λ a z, YDict [("added_at", YStr a); ("size_bytes", YInt z)])).
Qed.

Lemma same_but_tree_refl o : same_but_tree o o.
Proof. by destruct o. Qed.

Lemma same_but_tree_trans o1 o2 o3 :
  same_but_tree o1 o2 → same_but_tree o2 o3 → same_but_tree o1 o3.
Proof.
  unfold same_but_tree. destruct o1, o2, o3. simpl.
  intros [= -> -> -> -> -> -> -> -> -> -> ->] [= -> -> -> -> -> -> -> -> -> -> ->].
  done.
Qed.

(** One pass of the loop of [save_checkpoint]. *)
Lemma save_checkpoint_object_inv fuel name obj_name obj dir s f s' :
  files_dir (self s) = Some dir →
  save_checkpoint_object fuel name obj_name obj s = (Ok f, s') →
  ∃ final_path,
    f = path_name final_path ∧
    w_fs (env s) !! final_path = None ∧
    chosen_path (w_fs (env s)) (object_base dir name obj_name) final_path ∧
    w_fs (env s')
      = <[final_path := File (CPickle (pickled obj))]> (w_fs (env s)) ∧
    w_log (env s')
      = (w_log (env s) ++ saved_events (obj_name, obj, final_path))%list ∧
    same_but_tree (self s) (self s').
Proof.
  intros Hdir H. unfold save_checkpoint_object in H.
  apply bind_inv in H as (o & sa & Hprep & H).
  assert (o = pickled obj ∧ self sa = self s ∧ w_fs (env sa) = w_fs (env s) ∧
          w_log (env sa)
          = (w_log (env s) ++
             if po_has_prepare_for_save obj then [EvPrepare obj_name] else [])%list)
    as (-> & Hself & Hfs & Hlog).
  { unfold pickled. destruct (po_has_prepare_for_save obj).
    - apply bind_inv in Hprep as ([] & sx & Hm%liftW_inv & Hr).
      destruct Hm as (w' & Hm & ->). unfold modify in Hm.
      unfold ret in Hr. simplify_eq. done.
    - unfold ret in Hprep. simplify_eq. by rewrite app_nil_r. }
  apply bind_inv in H as (d0 & sx0 & Hg & H). unfold gets in Hg.
  injection Hg as <- <-. rewrite Hself, Hdir in H.
  apply bind_inv in H as (d & sx1 & Hp%the_path_inv & H).
  destruct Hp as [[= <-] ->].
  apply bind_inv in H as ([final_path old] & sb & Hn%liftW_inv & H).
  destruct Hn as (w' & Hn%get_no_overwrite_path_shape & ->).
  destruct Hn as (-> & Hfree & Hshape). simpl in H.
  apply bind_inv in H as ([] & sc & Hw%liftW_inv & H).
  destruct Hw as (w' & Hw%open_write_inv & ->). simpl in Hw. subst w'.
  apply bind_inv in H as (pp & sx2 & Hg & H). unfold gets in Hg.
  injection Hg as <- <-. simpl in H.
  apply bind_inv in H as (pp' & sx3 & Hp%the_path_inv & H).
  destruct Hp as [_ ->].
  destruct (path_relative_to final_path pp') as [rel|e]; [|done].
  apply bind_inv in H as ([] & sd & Hu & H).
  apply _update_file_tree_inv in Hu.
  unfold ret in H. injection H as <- <-. simpl in Hu.
  destruct Hu as (Htree & Hfs' & Hlog').
  exists final_path. split; [done|]. rewrite <-Hfs.
  split; [done|]. split; [done|].
  split; [by rewrite Hfs'|]. split.
  - rewrite Hlog'. simpl. rewrite Hlog. unfold saved_events. simpl.
    by rewrite <-(assoc_L (++)).
  - by rewrite <-Hself.
Qed.

Lemma same_but_tree_files_dir o o' :
  same_but_tree o o' →
  files_dir o' = files_dir o ∧ project_path o' = project_path o ∧
  checkpoint_db o' = checkpoint_db o ∧ shared_storage o' = shared_storage o ∧
  current_phase o' = current_phase o.
Proof. intros ->. by destruct o. Qed.

Lemma save_checkpoint_objects_trace fuel name dir objs :
  ∀ files s files' s',
    files_dir (self s) = Some dir →
    save_checkpoint_objects fuel name objs files s = (Ok files', s') →
    ∃ saved : list saved_object,
      given_objects objs = (λ x, x.1) <$> saved ∧
      files' = saved_files files saved ∧
      w_fs (env s') = saved_fs (w_fs (env s)) saved ∧
      w_log (env s')
        = (w_log (env s) ++ concat (saved_events <$> saved))%list ∧
      saved_fresh dir name (w_fs (env s)) saved ∧
      same_but_tree (self s) (self s').
Proof.
  induction objs as [|[obj_name [obj|]] rest IH];
    intros files s files' s' Hdir H; simpl in H.
  - unfold ret in H. injection H as <- <-. exists []. simpl.
    rewrite app_nil_r. split_and!; try done. apply same_but_tree_refl.
  - apply bind_inv in H as (f & s1 & Hone & H).
    apply (save_checkpoint_object_inv _ _ _ _ dir) in Hone
      as (fp & -> & Hfree & Hchosen & Hfs & Hlog & Htree); [|done].
    apply IH in H as (saved & Hgiven & -> & Hfs' & Hlog' & Hfresh & Htree').
    2:{ apply same_but_tree_files_dir in Htree as (-> & _). done. }
    exists ((obj_name, obj, fp) :: saved). simpl.
    unfold given_objects in *. simpl. rewrite Hgiven.
    split_and!; try done.
    + by rewrite Hfs', Hfs.
    + rewrite Hlog', Hlog. by rewrite <-(assoc_L (++)).
    + by rewrite <-Hfs.
    + by eapply same_but_tree_trans.
  - apply IH in H; [|done]. done.
Qed.

(** ** What the passes leave behind *)

Lemma saved_fs_mono dir name saved :
  ∀ m, saved_fresh dir name m saved →
       ∀ k v, m !! k = Some v → saved_fs m saved !! k = Some v.
Proof.
  induction saved as [|x rest IH]; intros m Hf k v Hk; simpl in *; [done|].
  destruct Hf as (Hfree & _ & Hf). apply (IH _ Hf).
  rewrite lookup_insert_ne; [done|]. intros <-. congruence.
Qed.

Lemma saved_fs_elem dir name saved :
  ∀ m, saved_fresh dir name m saved →
       ∀ x, x ∈ saved →
            m !! x.2 = None ∧
            saved_fs m saved !! x.2 = Some (File (CPickle (pickled x.1.2))).
Proof.
  induction saved as [|y rest IH]; intros m Hf x Hx; simpl in *.
  - by apply elem_of_nil in Hx.
  - destruct Hf as (Hfree & _ & Hf).
    apply elem_of_cons in Hx as [->|Hx].
    + split; [done|]. apply (saved_fs_mono _ _ _ _ Hf).
      by rewrite lookup_insert_eq.
    + destruct (IH _ Hf x Hx) as [Hn Hs]. split; [|done].
      rewrite lookup_insert in Hn. by case_decide.
Qed.

Lemma saved_fs_new saved :
  ∀ m k v, saved_fs m saved !! k = Some v →
           m !! k = Some v ∨ ∃ x, x ∈ saved ∧ k = x.2.
Proof.
  induction saved as [|y rest IH]; intros m k v Hk; simpl in *; [by left|].
  apply IH in Hk as [Hk|(x & Hx & ->)].
  - rewrite lookup_insert in Hk. case_decide.
    + right. exists y. split; [by left | done].
    + by left.
  - right. exists x. split; [by right | done].
Qed.

Lemma saved_paths_NoDup dir name saved :
  ∀ m, saved_fresh dir name m saved → NoDup ((λ x, x.2) <$> saved).
Proof.
  induction saved as [|y rest IH]; intros m Hf; simpl in *.
  - apply NoDup_nil_2.
  - destruct Hf as (Hfree & _ & Hf). apply NoDup_cons. split; [|by eapply IH].
    intros Hin. apply list_elem_of_fmap in Hin as (x & Heq & Hx).
    destruct (saved_fs_elem _ _ _ _ Hf x Hx) as [Hn _].
    rewrite <-Heq, lookup_insert_eq in Hn. done.
Qed.

Lemma saved_chosen dir name saved :
  ∀ m, saved_fresh dir name m saved →
       ∀ x, x ∈ saved →
            (∃ b, x.2 = b +:+ ".pkl") ∧
            (x.2 = object_base dir name x.1.1 +:+ ".pkl" ∨
             ∃ k : Z, (1 ≤ k)%Z ∧
                      x.2 = probe (object_base dir name x.1.1) ".pkl" k) ∧
            (is_Some (m !! (object_base dir name x.1.1 +:+ ".pkl")) →
             ∃ k : Z, (1 ≤ k)%Z ∧
                      x.2 = probe (object_base dir name x.1.1) ".pkl" k) ∧
            is_Some (saved_fs m saved !! (object_base dir name x.1.1 +:+ ".pkl")).
Proof.
  induction saved as [|y rest IH]; intros m Hf x Hx; simpl in *.
  - by apply elem_of_nil in Hx.
  - destruct Hf as (Hfree & Hch & Hf).
    apply elem_of_cons in Hx as [->|Hx].
    + assert (∀ z, z ≠ y.2 → is_Some (m !! z) →
                is_Some (saved_fs (<[y.2:=File (CPickle (pickled y.1.2))]> m)
                           rest !! z)) as Hkeep.
      { intros z Hz [v Hv]. exists v. apply (saved_fs_mono _ _ _ _ Hf).
        by rewrite lookup_insert_ne. }
      destruct Hch as [Heq|(Hex & k & Hk & Heq)].
      * split; [by eexists|]. split; [by left|]. split.
        -- intros [v Hv]. rewrite <-Heq in Hv. congruence.
        -- rewrite <-Heq. eexists. apply (saved_fs_mono _ _ _ _ Hf).
           by rewrite lookup_insert_eq.
      * split.
        { exists (object_base dir name y.1.1 +:+ "_" +:+ pretty k).
          rewrite Heq. unfold probe. by rewrite !StrFacts.app_assoc. }
        split; [right; by exists k|]. split; [intros _; by exists k|].
        apply Hkeep; [|done]. intros Hz. rewrite <-Hz in Hfree.
        destruct Hex as [v Hv]. congruence.
    + destruct (IH _ Hf x Hx) as (H1 & H2 & H3 & H4).
      split; [done|]. split; [done|]. split; [|done].
      intros [v Hv]. apply H3. destruct (decide (object_base dir name x.1.1 +:+ ".pkl" = y.2)) as [He|Hne].
      * rewrite He, lookup_insert_eq. by eexists.
      * rewrite lookup_insert_ne by done. by eexists.
Qed.

(** ** Python dictionaries *)

Lemma dict_get_set {V} (k k' : string) (v : V) d :
  dict_get k (dict_set k' v d) = if decide (k' = k) then Some v else dict_get k d.
Proof.
  induction d as [|[k0 v0] d IH]; simpl.
  - by case_decide.
  - destruct (decide (k0 = k')) as [->|Hne]; simpl.
    + by case_decide.
    + rewrite IH. destruct (decide (k0 = k)) as [->|]; [|done].
      by rewrite decide_False by done.
Qed.

Lemma dict_set_keys_NoDup {V} (k : string) (v : V) d :
  NoDup d.*1 → NoDup (dict_set k v d).*1.
Proof.
  induction d as [|[k0 v0] d IH]; simpl; intros Hnd.
  - apply NoDup_singleton.
  - apply NoDup_cons in Hnd as [Hin Hnd]. case_decide.
    + subst. simpl. by apply NoDup_cons.
    + simpl. apply NoDup_cons. split; [|by apply IH].
      intros Hk. apply Hin. clear -Hk H.
      induction d as [|[k1 v1] d IH]; simpl in *.
      * apply list_elem_of_singleton in Hk. congruence.
      * case_decide; simpl in *; [subst|].
        -- apply elem_of_cons in Hk as [->|Hk]; [done | by right].
        -- apply elem_of_cons in Hk as [->|Hk]; [by left | right; by apply IH].
Qed.

Lemma dict_get_elem {V} (k : string) (v : V) d :
  NoDup d.*1 → (k, v) ∈ d → dict_get k d = Some v.
Proof.
  induction d as [|[k0 v0] d IH]; simpl; intros Hnd Hin.
  - by apply elem_of_nil in Hin.
  - apply NoDup_cons in Hnd as [Hnin Hnd].
    apply elem_of_cons in Hin as [[= <- <-]|Hin]; [by rewrite decide_True|].
    case_decide; [|by apply IH]. subst. destruct Hnin.
    apply list_elem_of_fmap. by exists (k, v).
Qed.

Lemma dict_get_Some_elem {V} (k : string) (v : V) d :
  dict_get k d = Some v → (k, v) ∈ d.
Proof.
  induction d as [|[k0 v0] d IH]; simpl; [done|].
  case_decide; [intros [= <-]; subst; by left | intros ?; right; by apply IH].
Qed.

Lemma saved_files_get obj_name saved :
  ∀ files,
    dict_get obj_name (saved_files files saved)
    = match last_for obj_name saved with
      | Some x => Some (path_name x.2)
      | None => dict_get obj_name files
      end.
Proof.
  induction saved as [|y rest IH]; intros files; simpl; [done|].
  unfold saved_files in *. simpl. rewrite IH.
  destruct (last_for obj_name rest); [done|].
  rewrite dict_get_set. by case_decide.
Qed.

Lemma saved_files_NoDup saved :
  ∀ files, NoDup files.*1 → NoDup (saved_files files saved).*1.
Proof.
  induction saved as [|y rest IH]; intros files Hnd; simpl; [done|].
  apply IH. by apply dict_set_keys_NoDup.
Qed.

Lemma last_for_elem obj_name saved x :
  last_for obj_name saved = Some x → x ∈ saved ∧ x.1.1 = obj_name.
Proof.
  induction saved as [|y rest IH]; simpl; [done|].
  destruct (last_for obj_name rest) as [z|].
  - intros [= <-]. destruct (IH eq_refl). split; [by right | done].
  - case_decide; [|done]. intros [= <-]. split; [by left | done].
Qed.

Lemma last_for_exists obj_name saved x :
  x ∈ saved → x.1.1 = obj_name → is_Some (last_for obj_name saved).
Proof.
  induction saved as [|y rest IH]; simpl; intros Hx Hr.
  - by apply elem_of_nil in Hx.
  - apply elem_of_cons in Hx as [->|Hx].
    + destruct (last_for obj_name rest); [by eexists|].
      rewrite decide_True by done. by eexists.
    + destruct (IH Hx Hr) as [z ->]. by eexists.
Qed.

(** ** The document writers *)

Lemma write_paths_app l1 l2 :
  write_paths (l1 ++ l2) = (write_paths l1 ++ write_paths l2)%list.
Proof. unfold write_paths. apply omap_app. Qed.

Lemma mkdir_chain_log qs w :
  ∃ evs, w_log (mkdir_chain qs w).2 = (w_log w ++ evs)%list ∧
         write_paths evs = [] ∧ Forall document_event evs.
Proof.
  revert w. induction qs as [|q rest IH]; intros w; simpl.
  - exists []. by rewrite app_nil_r.
  - munfold. destruct (w_fs w !! q) as [[c|]|]; simpl.
    + exists []. rewrite app_nil_r. by destruct rest.
    + apply IH.
    + match goal with |- context [mkdir_chain rest ?w1] =>
        destruct (IH w1) as (evs & Hl & Hw & Hd) end.
      simpl in Hl. exists (EvMkdir q :: evs). rewrite Hl.
      rewrite <-(assoc_L (++)). split; [done|]. split; [done|].
      by apply Forall_cons.
Qed.

Lemma os_makedirs_inv p w w' :
  os_makedirs p w = (Ok tt, w') →
  grows (w_fs w) (w_fs w') ∧
  ∃ evs, w_log w' = (w_log w ++ evs)%list ∧
         write_paths evs = [] ∧ Forall document_event evs.
Proof.
  unfold os_makedirs. case_decide as Hd; [done|]. intros H.
  pose proof (mkdir_chain_grows (ancestors p ++ [p]) w) as [Hg _].
  pose proof (mkdir_chain_log (ancestors p ++ [p]) w) as Hl.
  rewrite H in Hg, Hl. done.
Qed.

Lemma write_document_inv fuel c p w w' :
  match c with CYaml _ | CJson _ => True | _ => False end →
  write_document fuel c p "" false w = (Ok tt, w') →
  w_fs w' !! p = Some (File c) ∧
  (∀ k v, k ≠ p → w_fs w !! k = Some v → w_fs w' !! k = Some v) ∧
  ∃ evs, w_log w' = (w_log w ++ evs)%list ∧
         write_paths evs = [p] ∧ Forall document_event evs.
Proof.
  intros Hc. unfold write_document. rewrite StrFacts.app_nil_r. simpl.
  intros H. apply bind_inv in H as (ex & w1 & Hex & H).
  unfold osp_exists, gets in Hex. injection Hex as <- <-.
  apply bind_inv in H as (fp & w1 & Hfp & H).
  unfold ret in Hfp. injection Hfp as <- <-.
  apply bind_inv in H as ([] & w2 & Hmk%os_makedirs_inv & H).
  destruct Hmk as ([Hg _] & evs & Hl & Hw & Hd).
  apply open_write_inv in H as ->. simpl.
  split; [by rewrite lookup_insert_eq|]. split.
  - intros k v Hk Hv. rewrite lookup_insert_ne by done. by apply Hg.
  - exists (evs ++ [EvWrite p c])%list. rewrite Hl, <-(assoc_L (++)).
    split; [done|]. split.
    + by rewrite write_paths_app, Hw.
    + apply Forall_app. split; [done|]. apply Forall_singleton.
      by destruct c.
Qed.

Lemma write_yaml_inv fuel d p w w' :
  write_yaml fuel d p "" false w = (Ok tt, w') →
  w_fs w' !! p = Some (File (CYaml d)) ∧
  (∀ k v, k ≠ p → w_fs w !! k = Some v → w_fs w' !! k = Some v) ∧
  ∃ evs, w_log w' = (w_log w ++ evs)%list ∧
         write_paths evs = [p] ∧ Forall document_event evs.
Proof. apply (write_document_inv fuel (CYaml d) p w w' I). Qed.

Lemma write_json_inv fuel db p w w' :
  write_json fuel db p "" false w = (Ok tt, w') →
  w_fs w' !! p = Some (File (CJson db)) ∧
  (∀ k v, k ≠ p → w_fs w !! k = Some v → w_fs w' !! k = Some v) ∧
  ∃ evs, w_log w' = (w_log w ++ evs)%list ∧
         write_paths evs = [p] ∧ Forall document_event evs.
Proof. apply (write_document_inv fuel (CJson db) p w w' I). Qed.

Lemma _save_all_state_inv fuel pp s s' :
  store_at pp (self s) →
  _save_all_state fuel s = (Ok tt, s') →
  self s' = self s ∧
  w_fs (env s') !! osp_join pp "shared_storage.yaml"
    = Some (File (CYaml (shared_storage (self s)))) ∧
  w_fs (env s') !! osp_join pp "tiny_db.json"
    = Some (File (CJson (checkpoint_db (self s)))) ∧
  (∀ k v, k ∉ document_paths pp →
          w_fs (env s) !! k = Some v → w_fs (env s') !! k = Some v) ∧
  ∃ evs, w_log (env s') = (w_log (env s) ++ evs)%list ∧
         write_paths evs = document_paths pp ∧ Forall document_event evs.
Proof.
  intros (Hne & Hpp & Hmain & Hshared & Htree & Hdb & _ & _).
  destruct s as [o w]. simpl in *. unfold _save_all_state.
  intros H. apply bind_inv in H as (o' & sx & Hg & H).
  unfold gets in Hg. injection Hg as <- <-. simpl in H.
  rewrite Hpp, Hmain, Hshared, Htree, Hdb in H. simpl in H.
  repeat match type of H with
  | bind (ret _) _ _ = _ => unfold bind at 1, ret at 1 in H
  end.
  apply bind_inv in H as ([] & s1 & H1%liftW_inv & H).
  destruct H1 as (w1 & H1 & ->).
  apply write_yaml_inv in H1 as (_ & Hk1 & e1 & Hl1 & Hw1 & Hd1).
  unfold bind at 1, ret at 1 in H.
  apply bind_inv in H as ([] & s2 & H2%liftW_inv & H).
  destruct H2 as (w2 & H2 & ->). simpl in H2.
  apply write_yaml_inv in H2 as (Hs2 & Hk2 & e2 & Hl2 & Hw2 & Hd2).
  unfold bind at 1, ret at 1 in H.
  apply bind_inv in H as ([] & s3 & H3%liftW_inv & H).
  destruct H3 as (w3 & H3 & ->). simpl in H3.
  apply write_yaml_inv in H3 as (_ & Hk3 & e3 & Hl3 & Hw3 & Hd3).
  unfold bind at 1, ret at 1 in H.
  apply liftW_inv in H as (w4 & H4 & ->). simpl in H4.
  apply write_json_inv in H4 as (Hs4 & Hk4 & e4 & Hl4 & Hw4 & Hd4).
  simpl. split; [done|].
  assert (dirprefix pp +:+ "shared_storage.yaml"
          ≠ dirprefix pp +:+ "file_tree.yaml") as Hn1
    by (intros Hx%StrFacts.app_inv_head; done).
  assert (dirprefix pp +:+ "shared_storage.yaml"
          ≠ dirprefix pp +:+ "tiny_db.json") as Hn2
    by (intros Hx%StrFacts.app_inv_head; done).
  split; [|split; [done|split]].
  - apply Hk4; [done|]. apply Hk3; [done|]. done.
  - intros k v Hk Hv. unfold document_paths in Hk.
    rewrite !not_elem_of_cons in Hk. destruct Hk as (? & ? & ? & ? & _).
    apply Hk4; [done|]. apply Hk3; [done|]. apply Hk2; [done|].
    by apply Hk1.
  - exists (e1 ++ e2 ++ e3 ++ e4)%list. split.
    + rewrite Hl4, Hl3, Hl2, Hl1. by rewrite <-!(assoc_L (++)).
    + split.
      * by rewrite !write_paths_app, Hw1, Hw2, Hw3, Hw4.
      * by rewrite !Forall_app.
Qed.

(** ** [save_checkpoint] as a whole *)

Lemma store_at_set_shared_storage pp d o :
  store_at pp o → store_at pp (set_shared_storage d o).
Proof. by destruct o. Qed.

Lemma store_at_set_checkpoint_db pp db o :
  store_at pp o → store_at pp (set_checkpoint_db db o).
Proof. by destruct o. Qed.

Lemma store_at_same_but_tree pp o o' :
  store_at pp o → same_but_tree o o' → store_at pp o'.
Proof. intros H ->. by destruct o. Qed.

Lemma set_self_inv f s s' :
  set_self f s = (Ok tt, s') → s' = Session (f (self s)) (env s).
Proof. unfold set_self, modify. by intros [= <-]. Qed.

Lemma save_checkpoint_inv fuel name objs s s' pp :
  store_at pp (self s) →
  save_checkpoint fuel name objs s = (Ok tt, s') →
  ∃ (saved : list saved_object) (saved_at : string) (evs : list event),
    given_objects objs = (λ x, x.1) <$> saved ∧
    saved_fresh (osp_join pp "files") name (w_fs (env s)) saved ∧
    checkpoint_db (self s')
      = <[name := CheckpointInfo name (phase_value (current_phase (self s)))
                    saved_at (saved_files [] saved)]> (checkpoint_db (self s)) ∧
    store_at pp (self s') ∧
    w_fs (env s') !! osp_join pp "shared_storage.yaml"
      = Some (File (CYaml (shared_storage (self s')))) ∧
    w_fs (env s') !! osp_join pp "tiny_db.json"
      = Some (File (CJson (checkpoint_db (self s')))) ∧
    (∀ k v, k ∉ document_paths pp →
            saved_fs (w_fs (env s)) saved !! k = Some v →
            w_fs (env s') !! k = Some v) ∧
    w_log (env s')
      = (w_log (env s) ++ concat (saved_events <$> saved) ++ evs)%list ∧
    write_paths evs = document_paths pp ∧ Forall document_event evs ∧
    (dict_has "model" objs = true →
     is_Some (dict_get "model" (saved_files [] saved))).
Proof.
  intros Hst H. unfold save_checkpoint in H.
  apply bind_inv in H as (phase & sx0 & Hg & H).
  unfold gets in Hg. injection Hg as <- <-.
  apply bind_inv in H as (saved_at & s1 & Hnow%liftW_inv & H).
  destruct Hnow as (w1 & Hnow & ->). unfold datetime_now_isoformat in Hnow.
  injection Hnow as Hsaved_at <-. clear Hsaved_at.
  apply bind_inv in H as (files & s2 & Hloop & H).
  pose proof Hst as (_ & _ & _ & _ & _ & _ & _ & Hdir).
  apply (save_checkpoint_objects_trace _ _ (osp_join pp "files")) in Hloop
    as (saved & Hgiven & -> & Hfs & Hlog & Hfresh & Htree); [|done].
  simpl in Hfs, Hlog, Hfresh, Htree.
  pose proof (store_at_same_but_tree _ _ _ Hst Htree) as Hst2.
  apply same_but_tree_files_dir in Htree as (_ & _ & Hdb & _ & Hphase).
  apply bind_inv in H as ([] & s3 & ->%set_self_inv & H).
  apply bind_inv in H as ([] & s4 & ->%set_self_inv & H).
  apply bind_inv in H as (total & sx1 & Hg & H).
  unfold gets in Hg. injection Hg as <- <-. simpl in H.
  match type of H with
  | match ?t with _ => _ end _ = _ => destruct t as [[|z| | |]|]; try done
  end.
  apply bind_inv in H as ([] & s5 & ->%set_self_inv & H).
  apply bind_inv in H as ([] & s6 & Hmodel & H).
  assert (env s6 = env s2 ∧ store_at pp (self s6) ∧
          checkpoint_db (self s6)
          = <[name := CheckpointInfo name
                        (phase_value (current_phase (self s))) saved_at
                        (saved_files [] saved)]> (checkpoint_db (self s)) ∧
          (dict_has "model" objs = true →
           is_Some (dict_get "model" (saved_files [] saved))))
    as (Henv & Hst6 & Hdb6 & Hmod).
  { destruct (dict_has "model" objs).
    - destruct (dict_get "model" (saved_files [] saved)); [|done].
      apply set_self_inv in Hmodel as ->. simpl. split; [done|].
      split; [|split; [by rewrite Hdb; destruct (self s2) | by eexists]].
      by repeat first [apply store_at_set_shared_storage
                      |apply store_at_set_checkpoint_db].
    - unfold ret in Hmodel. injection Hmodel as <-. simpl. split; [done|].
      split; [|split; [by rewrite Hdb; destruct (self s2) | done]].
      by repeat first [apply store_at_set_shared_storage
                      |apply store_at_set_checkpoint_db]. }
  apply (_save_all_state_inv _ pp) in H
    as (Hself & Hshared & Htiny & Hkeep & evs & Hlog' & Hw & Hd); [|done].
  exists saved, saved_at, evs. rewrite Hself.
  split; [done|]. split; [done|]. split; [done|]. split; [done|].
  split; [done|]. split; [done|]. split.
  - intros k v Hk Hv. apply Hkeep; [done|]. by rewrite Henv, Hfs.
  - split; [|done]. rewrite Hlog', Henv, Hlog. by rewrite <-(assoc_L (++)).
Qed.

Lemma dict_has_elem {V} (k : string) (v : V) d :
  (k, v) ∈ d → dict_has k d = true.
Proof.
  unfold dict_has. induction d as [|[k0 v0] d IH]; simpl.
  - by intros ?%elem_of_nil.
  - intros [[= <- <-]|Hin]%elem_of_cons; [by rewrite decide_True|].
    case_decide; [done | by apply IH].
Qed.

Lemma app_same_tail (s1 s2 t1 t2 : string) :
  String.length t1 = String.length t2 →
  s1 +:+ t1 = s2 +:+ t2 → s1 = s2 ∧ t1 = t2.
Proof.
  intros Hl H. apply StrFacts.app_same_length; [|done].
  apply (f_equal String.length) in H. rewrite !StrFacts.length_app in H. lia.
Qed.

Lemma pkl_not_document pp b : b +:+ ".pkl" ∉ document_paths pp.
Proof.
  unfold document_paths, osp_join. simpl.
  rewrite !not_elem_of_cons. split_and!; [| | | |apply not_elem_of_nil].
  - change "main.yaml" with ("main." +:+ "yaml").
    rewrite <-StrFacts.app_assoc. by intros [_ ?]%app_same_tail.
  - change "shared_storage.yaml" with ("shared_storage." +:+ "yaml").
    rewrite <-StrFacts.app_assoc. by intros [_ ?]%app_same_tail.
  - change "file_tree.yaml" with ("file_tree." +:+ "yaml").
    rewrite <-StrFacts.app_assoc. by intros [_ ?]%app_same_tail.
  - change "tiny_db.json" with ("tiny_db." +:+ "json").
    rewrite <-StrFacts.app_assoc. by intros [_ ?]%app_same_tail.
Qed.

Lemma write_paths_saved saved :
  write_paths (concat (saved_events <$> saved)) = (λ x, x.2) <$> saved.
Proof.
  induction saved as [|x rest IH]; [done|].
  rewrite !fmap_cons. change (concat (?a :: ?l)) with (a ++ concat l)%list.
  rewrite write_paths_app, IH. unfold saved_events.
  by destruct (po_has_prepare_for_save x.1.2).
Qed.

Lemma saved_events_pickle saved p o :
  EvWrite p (CPickle o) ∈ concat (saved_events <$> saved) →
  ∃ x, x ∈ saved ∧ p = x.2 ∧ o = pickled x.1.2.
Proof.
  induction saved as [|x rest IH]; simpl.
  - by intros ?%elem_of_nil.
  - intros [Hin|Hin]%elem_of_app.
    + exists x. split; [by left|]. unfold saved_events in Hin.
      apply elem_of_app in Hin as [Hin|Hin].
      * destruct (po_has_prepare_for_save x.1.2);
          [by apply list_elem_of_singleton in Hin | by apply elem_of_nil in Hin].
      * apply list_elem_of_singleton in Hin. by injection Hin as -> ->.
    + destruct (IH Hin) as (y & Hy & ?). exists y. split; [by right | done].
Qed.

Lemma document_events_no_pickle evs p o :
  Forall document_event evs → EvWrite p (CPickle o) ∉ evs.
Proof.
  intros Hd Hin. rewrite Forall_forall in Hd. by apply Hd in Hin.
Qed.

Lemma given_objects_elem objs r o :
  (r, o) ∈ given_objects objs ↔ (r, Some o) ∈ objs.
Proof.
  unfold given_objects. rewrite list_elem_of_omap. split.
  - intros ([r' [o'|]] & Hin & Heq); simpl in Heq; [|done].
    by injection Heq as -> ->.
  - intros Hin. by exists (r, Some o).
Qed.

Lemma saved_role_elem objs saved r :
  given_objects objs = (λ x : saved_object, x.1) <$> saved →
  (∃ o, (r, Some o) ∈ objs) ↔ (∃ x, x ∈ saved ∧ x.1.1 = r).
Proof.
  intros Hg. split.
  - intros [o Ho]. apply given_objects_elem in Ho. rewrite Hg in Ho.
    apply list_elem_of_fmap in Ho as (x & Hx & Hin).
    exists x. split; [done|]. by rewrite <-Hx.
  - intros (x & Hx & <-). exists x.1.2. apply given_objects_elem.
    rewrite Hg. apply list_elem_of_fmap. exists x.
    split; [by destruct x as [[] ?] | done].
Qed.

(** C2, amended: a successful [save_checkpoint] writes the object files
    and then the four documents in the order [main.yaml],
    [shared_storage.yaml], [file_tree.yaml], [tiny_db.json]: the
    shared-state document is written before the checkpoint index, which
    comes last; afterwards both hold the in-memory state. *)
Theorem save_checkpoint_write_order (fuel : nat) (name : string)
    (objects_to_save : list (string * option pyobj)) (s s' : session)
    (pp : string) :
  store_at pp (self s) →
  save_checkpoint fuel name objects_to_save s = (Ok tt, s') →
  ∃ object_paths,
    write_paths (w_log (env s'))
    = (write_paths (w_log (env s)) ++ object_paths ++
       [osp_join pp "main.yaml"; osp_join pp "shared_storage.yaml";
        osp_join pp "file_tree.yaml"; osp_join pp "tiny_db.json"])%list ∧
    (∀ p, p ∈ object_paths → ∃ b, p = b +:+ ".pkl") ∧
    w_fs (env s') !! osp_join pp "shared_storage.yaml"
      = Some (File (CYaml (shared_storage (self s')))) ∧
    w_fs (env s') !! osp_join pp "tiny_db.json"
      = Some (File (CJson (checkpoint_db (self s')))) ∧
    is_Some (checkpoint_db (self s') !! name).
Proof.
  intros Hst H.
  apply (save_checkpoint_inv _ _ _ _ _ pp) in H
    as (saved & saved_at & evs & _ & Hfresh & Hdb & _ & Hshared & Htiny & _
        & Hlog & Hw & _); [|done].
  exists ((λ x, x.2) <$> saved). split_and!; try done.
  - rewrite Hlog, !write_paths_app, write_paths_saved, Hw. done.
  - intros p (x & -> & Hx)%list_elem_of_fmap.
    by destruct (saved_chosen _ _ _ _ Hfresh x Hx) as (? & _).
  - rewrite Hdb, lookup_insert_eq. by eexists.
Qed.

Lemma fresh_session_store_at : store_at "proj" (self fresh_session).
Proof. by repeat split. Defined.

Lemma save_checkpoint_write_order_witness :
  ∃ object_paths,
    write_paths (w_log (env session_after_c1))
    = (write_paths (w_log (env fresh_session)) ++ object_paths ++
       [osp_join "proj" "main.yaml"; osp_join "proj" "shared_storage.yaml";
        osp_join "proj" "file_tree.yaml"; osp_join "proj" "tiny_db.json"])%list ∧
    (∀ p, p ∈ object_paths → ∃ b, p = b +:+ ".pkl") ∧
    w_fs (env session_after_c1) !! osp_join "proj" "shared_storage.yaml"
      = Some (File (CYaml (shared_storage (self session_after_c1)))) ∧
    w_fs (env session_after_c1) !! osp_join "proj" "tiny_db.json"
      = Some (File (CJson (checkpoint_db (self session_after_c1)))) ∧
    is_Some (checkpoint_db (self session_after_c1) !! "c1").
Proof.
  apply (save_checkpoint_write_order 5 "c1"
           [("model", Some a_model); ("logs", Some some_logs)]
           fresh_session session_after_c1 "proj").
  - apply fresh_session_store_at.
  - vm_compute. reflexivity.
Defined.



Example save_checkpoint_twice_files :
  ci_files <$> checkpoint_db (self session_after_c1_twice) !! "c1"
  = Some [("model", "c1_model_1.pkl"); ("logs", "c1_logs_1.pkl")] ∧
  size (checkpoint_db (self session_after_c1_twice)) = 1%nat.
Proof. vm_compute. split; reflexivity. Qed.

(** ** Loading *)

Lemma pretty_N_go_no_slash x s :
  Str.has "/" s = false → Str.has "/" (pretty_N_go x s) = false.
Proof.
  revert s. induction (N.lt_wf_0 x) as [x _ IH]; intros s Hs.
  destruct (decide (x = 0)%N) as [->|Hx]; [by rewrite pretty_N_go_0|].
  rewrite pretty_N_go_step by lia. apply IH; [apply N.div_lt; lia|].
  simpl. case_decide as Hc; [|done]. by apply pretty_N_char_ok in Hc.
Qed.

Lemma pretty_Z_no_slash (z : Z) : Str.has "/" (pretty z) = false.
Proof.
  destruct z as [|x|x]; [done| |].
  - unfold pretty, pretty_Z, pretty, pretty_positive, pretty, pretty_N.
    case_decide; [done|]. by apply pretty_N_go_no_slash.
  - unfold pretty, pretty_Z. rewrite StrFacts.has_app. simpl.
    unfold pretty, pretty_positive, pretty, pretty_N.
    case_decide; [done|]. by apply pretty_N_go_no_slash.
Qed.

Section in_folder.
Context (dir : string) (Hdir : dir ≠ "").

Lemma path_name_in_folder t :
  Str.has "/" t = false → path_name (dirprefix dir +:+ t) = t.
Proof.
  intros Ht. destruct (dirprefix_snoc dir Hdir) as [h ->].
  unfold path_name, osp_basename. rewrite StrFacts.app_assoc.
  change ("/" +:+ t) with (String "/"%char t).
  by rewrite (StrFacts.rsplit_app "/" h t Ht).
Qed.

Lemma osp_join_in_folder t :
  Str.has "/" t = false → osp_join dir t = dirprefix dir +:+ t.
Proof. intros Ht. by apply osp_join_rel, no_slash_not_start. Qed.

Lemma object_base_in_folder name obj_name :
  Str.has "/" name = false → Str.has "/" obj_name = false →
  object_base dir name obj_name = dirprefix dir +:+ name +:+ "_" +:+ obj_name.
Proof.
  intros Hn Hr. unfold object_base.
  assert (Str.has "/" (name +:+ "_" +:+ obj_name) = false) as Hstem.
  { rewrite !StrFacts.has_app, Hn, Hr. done. }
  assert (name +:+ "_" +:+ obj_name +:+ ".pkl"
          = (name +:+ "_" +:+ obj_name) +:+ String "."%char "pkl") as Hf.
  { by rewrite !StrFacts.app_assoc. }
  rewrite Hf, osp_join_in_folder.
  2:{ rewrite StrFacts.has_app, Hstem. done. }
  destruct (dirprefix_snoc dir Hdir) as [h Hh]. rewrite Hh.
  unfold path_with_suffix_empty. rewrite StrFacts.app_assoc.
  change ("/" +:+ ?t) with (String "/"%char t).
  rewrite (StrFacts.rsplit_app "/" h).
  2:{ rewrite StrFacts.has_app, Hstem. done. }
  rewrite (StrFacts.rsplit_app "." _ "pkl" eq_refl).
  rewrite decide_True; [by rewrite !StrFacts.app_assoc|].
  split; [|done]. destruct name; done.
Qed.

(** The file name recorded for a pass leads back to the path written. *)
Lemma saved_path_in_folder name m saved x :
  Str.has "/" name = false → Str.has "/" x.1.1 = false →
  saved_fresh dir name m saved → x ∈ saved →
  osp_join dir (path_name x.2) = x.2.
Proof.
  intros Hn Hr Hf Hx.
  destruct (saved_chosen _ _ _ _ Hf x Hx) as (_ & Hch & _).
  rewrite (object_base_in_folder name x.1.1 Hn Hr) in Hch.
  assert (∃ t, Str.has "/" t = false ∧ x.2 = dirprefix dir +:+ t)
    as (t & Ht & ->).
  { destruct Hch as [->|(k & _ & ->)].
    - exists (name +:+ "_" +:+ x.1.1 +:+ ".pkl").
      split; [by rewrite !StrFacts.has_app, Hn, Hr|].
      by rewrite !StrFacts.app_assoc.
    - exists (name +:+ "_" +:+ x.1.1 +:+ "_" +:+ pretty k +:+ ".pkl").
      split; [by rewrite !StrFacts.has_app, Hn, Hr, pretty_Z_no_slash|].
      unfold probe. by rewrite !StrFacts.app_assoc. }
  by rewrite path_name_in_folder, osp_join_in_folder.
Qed.

End in_folder.

Lemma dict_get_None {V} (k : string) (d : list (string * V)) :
  k ∉ d.*1 → dict_get k d = None.
Proof.
  induction d as [|[k0 v0] d IH]; simpl; [done|].
  rewrite not_elem_of_cons. intros [Hne Hin]. by rewrite decide_False, IH.
Qed.

Lemma load_result_get m dir r files :
  ∀ loaded, NoDup files.*1 →
    dict_get r (load_result m dir files loaded)
    = match dict_get r files with
      | Some f =>
          match m !! osp_join dir f with
          | Some (File (CPickle o)) => Some (LObj o)
          | _ => dict_get r loaded
          end
      | None => dict_get r loaded
      end.
Proof.
  induction files as [|[r0 f0] rest IH]; intros loaded Hnd; simpl; [done|].
  apply NoDup_cons in Hnd as [Hnin Hnd].
  destruct (decide (r0 = r)) as [->|Hne].
  - pose proof (dict_get_None r rest Hnin) as Hnone.
    destruct (m !! osp_join dir f0) as [[[]|]|]; rewrite IH, ?Hnone; try done.
    rewrite dict_get_set. by rewrite decide_True.
  - destruct (m !! osp_join dir f0) as [[[]|]|]; rewrite IH; try done.
    rewrite dict_get_set, decide_False by done. done.
Qed.

Lemma load_checkpoint_objects_ok pickle_load_other dir files s :
  files_dir (self s) = Some dir →
  (∀ r f, (r, f) ∈ files →
     w_fs (env s) !! osp_join dir f = None ∨
     ∃ o, w_fs (env s) !! osp_join dir f = Some (File (CPickle o))) →
  ∀ loaded,
    load_checkpoint_objects pickle_load_other files loaded s
    = (Ok (load_result (w_fs (env s)) dir files loaded), s).
Proof.
  intros Hdir. destruct s as [o w]. simpl in *.
  induction files as [|[r f] rest IH]; intros Hall loaded; simpl; [done|].
  unfold bind, gets, the_path, liftW, osp_exists, open_read, ret, raise.
  simpl. rewrite Hdir. simpl. unfold fs_exists, bind, gets. simpl.
  destruct (Hall r f) as [Hn|[ob Hob]]; [by left| |].
  - rewrite Hn. simpl. apply IH. intros r' f' Hin. apply (Hall r' f'). by right.
  - rewrite Hob. simpl. rewrite Hob. simpl.
    apply IH. intros r' f' Hin. apply (Hall r' f'). by right.
Qed.

Lemma NoDup_fmap_eq {A B} (f : A → B) (l : list A) x y :
  NoDup (f <$> l) → x ∈ l → y ∈ l → f x = f y → x = y.
Proof.
  induction l as [|a l IH]; simpl; intros Hnd Hx Hy Heq.
  - by apply elem_of_nil in Hx.
  - apply NoDup_cons in Hnd as [Hnin Hnd].
    apply elem_of_cons in Hx as [->|Hx]; apply elem_of_cons in Hy as [->|Hy];
      try done; try by apply IH.
    + destruct Hnin. rewrite Heq. by apply list_elem_of_fmap_2.
    + destruct Hnin. rewrite <-Heq. by apply list_elem_of_fmap_2.
Qed.

Lemma given_objects_keys_NoDup objs :
  NoDup objs.*1 → NoDup (given_objects objs).*1.
Proof.
  induction objs as [|[r [o|]] rest IH]; simpl; intros Hnd; [done| |].
  - apply NoDup_cons in Hnd as [Hnin Hnd]. unfold given_objects. simpl.
    apply NoDup_cons. split; [|by apply IH].
    intros Hin. apply Hnin. apply list_elem_of_fmap in Hin as ([r' o'] & -> & Hin).
    apply given_objects_elem in Hin. apply list_elem_of_fmap.
    by exists (r', Some o').
  - apply NoDup_cons in Hnd as [_ Hnd]. by apply IH.
Qed.

Lemma os_remove_file p c s :
  w_fs (env s) !! p = Some (File c) →
  liftW (os_remove p) s
  = (Ok tt, Session (self s)
              (add_log (EvRemove p) (set_fs (delete p) (env s)))).
Proof.
  intros Hp. unfold liftW, os_remove, bind, gets, modify. simpl.
  by rewrite Hp.
Qed.

(** C1, as stated, fails: after the file of [logs] is deleted,
    [load_checkpoint] returns the model, but the result has no entry at
    all for [logs]; there is no marker. *)
Lemma load_checkpoint_no_marker :
  ∃ loaded,
    load_checkpoint pickle_load_unpickling_error "c1" session_logs_deleted
    = (Ok loaded, session_logs_deleted) ∧
    dict_get "model" loaded = Some (LObj a_model) ∧
    dict_get "logs" loaded = None ∧
    ¬ is_Some (dict_get "logs" loaded).
Proof.
  eexists. split; [vm_compute; reflexivity|].
  split; [reflexivity|]. split; [reflexivity|]. by intros [v Hv].
Qed.

(** C1, amended: for a checkpoint saved in an initialised store under a
    name and with roles that contain no slash, if the file of one saved
    role is deleted and another role was saved too, [load_checkpoint]
    does not raise and changes nothing; it returns the other role's
    object as it was pickled, and the deleted role is left out of the
    result, not marked: its key is absent.  The one exception is a role
    that is itself named [checkpoint_info]: that key is always in the
    result, and it then holds the index record, not an object. *)
Theorem load_checkpoint_partial (pickle_load_other : content → res pyobj)
    (fuel : nat) (name : string)
    (objects_to_save : list (string * option pyobj)) (s s1 : session)
    (pp r1 r2 : string) (o1 o2 : pyobj) :
  store_at pp (self s) →
  Str.has "/" name = false →
  (∀ r o, (r, Some o) ∈ objects_to_save → Str.has "/" r = false) →
  NoDup objects_to_save.*1 →
  save_checkpoint fuel name objects_to_save s = (Ok tt, s1) →
  (r1, Some o1) ∈ objects_to_save →
  (r2, Some o2) ∈ objects_to_save →
  r1 ≠ r2 →
  ∃ info f1 s2 loaded,
    checkpoint_db (self s1) !! name = Some info ∧
    dict_get r1 (ci_files info) = Some f1 ∧
    liftW (os_remove (osp_join (osp_join pp "files") f1)) s1 = (Ok tt, s2) ∧
    load_checkpoint pickle_load_other name s2 = (Ok loaded, s2) ∧
    dict_get r2 loaded = Some (LObj (pickled o2)) ∧
    dict_get r1 loaded
    = (if decide (r1 = "checkpoint_info") then Some (LInfo info) else None) ∧
    (∀ o, dict_get r1 loaded ≠ Some (LObj o)).
Proof.
  intros Hst Hname Hroles Hnd Hsave Hin1 Hin2 Hne.
  apply (save_checkpoint_inv _ _ _ _ _ pp) in Hsave
    as (saved & saved_at & evs & Hg & Hfresh & Hdb & Hst1 & _ & _ & Hkeep & _);
    [|done].
  set (dir := osp_join pp "files") in *.
  assert (dir ≠ "") as Hdir.
  { unfold dir, osp_join. simpl. apply app_nonempty. done. }
  assert (NoDup ((λ x : saved_object, x.1.1) <$> saved)) as Hndr.
  { apply given_objects_keys_NoDup in Hnd. rewrite Hg in Hnd.
    by rewrite <-list_fmap_compose in Hnd. }
  assert (∀ r o, (r, Some o) ∈ objects_to_save →
            ∃ x, x ∈ saved ∧ x.1 = (r, o) ∧ last_for r saved = Some x)
    as Hlast.
  { intros r o Hin. apply given_objects_elem in Hin. rewrite Hg in Hin.
    apply list_elem_of_fmap in Hin as (x & Hx & Hxin).
    exists x. split; [done|]. split; [done|].
    destruct (last_for_exists r saved x Hxin) as [y Hy]; [by rewrite <-Hx|].
    destruct (last_for_elem _ _ _ Hy) as [Hyin Hyr].
    rewrite Hy. f_equal.
    apply (NoDup_fmap_eq (λ x : saved_object, x.1.1) saved); try done.
    by rewrite Hyr, <-Hx. }
  assert (∀ x, x ∈ saved → Str.has "/" x.1.1 = false) as Hslash.
  { intros x Hx. apply (Hroles x.1.1 x.1.2). apply given_objects_elem.
    rewrite Hg. apply list_elem_of_fmap. exists x.
    split; [by destruct x as [[] ?] | done]. }
  assert (∀ x, x ∈ saved →
            w_fs (env s1) !! x.2 = Some (File (CPickle (pickled x.1.2))))
    as Hon.
  { intros x Hx. destruct (saved_chosen _ _ _ _ Hfresh x Hx) as ([b Hb] & _).
    apply Hkeep; [rewrite Hb; apply pkl_not_document|].
    by apply (saved_fs_elem _ _ _ _ Hfresh). }
  destruct (Hlast r1 o1 Hin1) as (x1 & Hx1 & Hr1 & Hl1).
  destruct (Hlast r2 o2 Hin2) as (x2 & Hx2 & Hr2 & Hl2).
  assert (x1.2 ≠ x2.2) as Hpaths.
  { intros Heq.
    apply (NoDup_fmap_eq (λ x : saved_object, x.2) saved) in Heq;
      [|by eapply saved_paths_NoDup|done|done].
    subst x2. rewrite Hr1 in Hr2. by injection Hr2 as -> _. }
  pose proof (saved_path_in_folder dir Hdir name _ saved x1 Hname
                (Hslash x1 Hx1) Hfresh Hx1) as Hj1.
  pose proof (saved_path_in_folder dir Hdir name _ saved x2 Hname
                (Hslash x2 Hx2) Hfresh Hx2) as Hj2.
  set (info := CheckpointInfo name (phase_value (current_phase (self s)))
                 saved_at (saved_files [] saved)) in *.
  set (s2 := Session (self s1)
               (add_log (EvRemove x1.2) (set_fs (delete x1.2) (env s1)))).
  pose proof Hst1 as (_ & _ & _ & _ & _ & _ & _ & Hfd).
  assert (NoDup (saved_files [] saved).*1) as Hkeys
    by (apply saved_files_NoDup, NoDup_nil_2).
  exists info, (path_name x1.2), s2,
    (load_result (w_fs (env s2)) dir (saved_files [] saved)
       [("checkpoint_info", LInfo info)]).
  split; [by rewrite Hdb, lookup_insert_eq|].
  split; [simpl; by rewrite saved_files_get, Hl1|].
  split; [rewrite Hj1; by apply (os_remove_file _ _ _ (Hon x1 Hx1))|].
  split.
  { unfold load_checkpoint, bind, gets. simpl.
    rewrite Hdb, lookup_insert_eq. simpl.
    apply load_checkpoint_objects_ok; [done|].
    intros r f Hin. apply (dict_get_elem _ _ _ Hkeys) in Hin.
    rewrite saved_files_get in Hin.
    destruct (last_for r saved) as [y|] eqn:Hy; [|done].
    injection Hin as <-. destruct (last_for_elem _ _ _ Hy) as [Hyin Hyr].
    rewrite (saved_path_in_folder dir Hdir name _ saved y Hname
               (Hslash y Hyin) Hfresh Hyin).
    simpl. destruct (decide (x1.2 = y.2)) as [<-|Hd].
    - left. apply lookup_delete_eq.
    - right. rewrite lookup_delete_ne by done. eexists. by apply Hon. }
  rewrite !load_result_get by done.
  rewrite !saved_files_get, Hl1, Hl2, Hj1, Hj2. simpl.
  rewrite lookup_delete_eq, lookup_delete_ne, (Hon x2 Hx2) by done.
  rewrite Hr2. split; [done|].
  split; [|intros o; by case_decide].
  repeat case_decide; congruence.
Qed.

Lemma load_checkpoint_partial_witness :
  ∃ info f1 s2 loaded,
    checkpoint_db (self session_after_c1) !! "c1" = Some info ∧
    dict_get "logs" (ci_files info) = Some f1 ∧
    liftW (os_remove (osp_join (osp_join "proj" "files") f1)) session_after_c1
      = (Ok tt, s2) ∧
    load_checkpoint pickle_load_value_error "c1" s2 = (Ok loaded, s2) ∧
    dict_get "model" loaded = Some (LObj (pickled a_model)) ∧
    dict_get "logs" loaded
    = (if decide ("logs" = "checkpoint_info") then Some (LInfo info)
       else None) ∧
    (∀ o, dict_get "logs" loaded ≠ Some (LObj o)).
Proof.
  apply (load_checkpoint_partial pickle_load_value_error 5 "c1"
           [("model", Some a_model); ("logs", Some some_logs)]
           fresh_session session_after_c1 "proj" "logs" "model"
           some_logs a_model).
  - apply fresh_session_store_at.
  - reflexivity.
  - intros r o Hin.
    repeat (apply elem_of_cons in Hin as [[= -> ->]|Hin]); try reflexivity.
    by apply elem_of_nil in Hin.
  - repeat (apply NoDup_cons; split;
            [rewrite ?not_elem_of_cons; split_and?; try done;
             apply not_elem_of_nil|]).
    apply NoDup_nil_2.
  - vm_compute. reflexivity.
  - right. left.
  - left.
  - done.
Defined.

(** ** Objects that are [None] *)

Lemma saved_events_prepare saved r :
  EvPrepare r ∈ concat (saved_events <$> saved) →
  ∃ x, x ∈ saved ∧ x.1.1 = r.
Proof.
  induction saved as [|x rest IH]; simpl.
  - by intros ?%elem_of_nil.
  - intros [Hin|Hin]%elem_of_app.
    + exists x. split; [by left|]. unfold saved_events in Hin.
      apply elem_of_app in Hin as [Hin|Hin].
      * destruct (po_has_prepare_for_save x.1.2);
          [|by apply elem_of_nil in Hin].
        apply list_elem_of_singleton in Hin. by injection Hin as ->.
      * by apply list_elem_of_singleton in Hin.
    + destruct (IH Hin) as (y & Hy & ?). exists y. split; [by right | done].
Qed.

Lemma none_not_saved objs saved r :
  NoDup objs.*1 →
  given_objects objs = (λ x : saved_object, x.1) <$> saved →
  (r, None) ∈ objs →
  ∀ x, x ∈ saved → x.1.1 ≠ r.
Proof.
  intros Hnd Hg Hin x Hx Hr.
  assert ((r, Some x.1.2) ∈ objs) as Hin'.
  { apply given_objects_elem. rewrite Hg. apply list_elem_of_fmap.
    exists x. split; [by destruct x as [[] ?]; simplify_eq/= | done]. }
  by pose proof (NoDup_fmap_eq fst objs _ _ Hnd Hin Hin' eq_refl).
Qed.

(** In every call that returns, an object given as [None] is skipped: its
    role is not in the recorded mapping, its hook is not run and only the
    other objects are written. *)
Lemma save_checkpoint_none_skipped fuel name objs s s' pp r :
  store_at pp (self s) → NoDup objs.*1 →
  save_checkpoint fuel name objs s = (Ok tt, s') →
  (r, None) ∈ objs →
  ∃ info evs,
    checkpoint_db (self s') !! name = Some info ∧
    dict_get r (ci_files info) = None ∧
    w_log (env s') = (w_log (env s) ++ evs)%list ∧
    ¬ (EvPrepare r ∈ evs) ∧
    (∀ p o, EvWrite p (CPickle o) ∈ evs →
            ∃ r' o', (r', Some o') ∈ objs ∧ r' ≠ r ∧ o = pickled o').
Proof.
  intros Hst Hnd H Hin.
  apply (save_checkpoint_inv _ _ _ _ _ pp) in H
    as (saved & saved_at & evs & Hg & Hfresh & Hdb & _ & _ & _ & _ & Hlog
        & Hw & Hd & _); [|done].
  pose proof (none_not_saved _ _ _ Hnd Hg Hin) as Hnot.
  eexists _, _. split; [by rewrite Hdb, lookup_insert_eq|]. simpl.
  split.
  { rewrite saved_files_get.
    destruct (last_for r saved) as [x|] eqn:E; [|done].
    apply last_for_elem in E as [Hx Hr]. by destruct (Hnot x Hx). }
  split; [exact Hlog|]. split.
  { intros [Hp|Hp]%elem_of_app.
    - apply saved_events_prepare in Hp as (x & Hx & Hr). by destruct (Hnot x Hx).
    - rewrite Forall_forall in Hd. by apply Hd in Hp. }
  intros p o [Hp|Hp]%elem_of_app;
    [|by apply (document_events_no_pickle _ p o) in Hd].
  apply saved_events_pickle in Hp as (x & Hx & -> & ->).
  exists x.1.1, x.1.2. split; [|split; [by apply Hnot | done]].
  apply given_objects_elem. rewrite Hg. apply list_elem_of_fmap.
  exists x. split; [by destruct x as [[] ?] | done].
Qed.

(** With [model=None] among distinct keyword arguments the call never
    returns. *)
Lemma save_checkpoint_model_none fuel name objs s s' pp :
  store_at pp (self s) → NoDup objs.*1 →
  ("model", None) ∈ objs →
  save_checkpoint fuel name objs s ≠ (Ok tt, s').
Proof.
  intros Hst Hnd Hin H.
  apply (save_checkpoint_inv _ _ _ _ _ pp) in H
    as (saved & _ & _ & Hg & _ & _ & _ & _ & _ & _ & _ & _ & _ & Hmod);
    [|done].
  destruct (Hmod (dict_has_elem _ _ _ Hin)) as [f Hf].
  rewrite saved_files_get in Hf.
  destruct (last_for "model" saved) as [x|] eqn:E; [|done].
  apply last_for_elem in E as [Hx Hr].
  by destruct (none_not_saved _ _ _ Hnd Hg Hin x Hx).
Qed.

(** ** Objects that are [None], whatever the outcome *)

Lemma wrote_refl Q w : wrote Q w w.
Proof.
  exists []. rewrite app_nil_r. split; [done|]. split; [done|]. auto.
Qed.

Lemma wrote_trans Q w1 w2 w3 : wrote Q w1 w2 → wrote Q w2 w3 → wrote Q w1 w3.
Proof.
  intros (e1 & L1 & Q1 & F1) (e2 & L2 & Q2 & F2). exists (e1 ++ e2)%list.
  rewrite L2, L1, <-(assoc_L (++)). split; [done|].
  split; [by apply Forall_app|].
  intros k c Hk. rewrite elem_of_app.
  destruct (F2 k c Hk) as [H|H]; [|auto]. destruct (F1 k c H); auto.
Qed.

Lemma wrote_mono (Q Q' : event → Prop) w w' :
  (∀ e, Q e → Q' e) → wrote Q w w' → wrote Q' w w'.
Proof.
  intros HQ (e & L & Qe & F). exists e. split; [done|]. split; [|done].
  by eapply Forall_impl.
Qed.

Lemma wrote_same Q w w' :
  w_fs w' = w_fs w → w_log w' = w_log w → wrote Q w w'.
Proof.
  intros Hfs Hlog. exists []. rewrite app_nil_r, Hfs.
  split; [done|]. split; [done|]. auto.
Qed.

Lemma kept_refl Q s : kept Q s s.
Proof. split; [apply same_but_tree_refl | apply wrote_refl]. Qed.

Lemma kept_trans Q s1 s2 s3 : kept Q s1 s2 → kept Q s2 s3 → kept Q s1 s3.
Proof.
  intros [T1 W1] [T2 W2].
  split; [by eapply same_but_tree_trans | by eapply wrote_trans].
Qed.

(** A relation that holds along both halves of a [bind] holds along the
    [bind], whether the first half returns or raises. *)
Lemma bind_along {St A B} (R : St → St → Prop) (m : M St A)
    (k : A → M St B) s :
  (∀ x y z, R x y → R y z → R x z) →
  R s (m s).2 →
  (∀ a s1, m s = (Ok a, s1) → R s1 (k a s1).2) →
  R s (bind m k s).2.
Proof.
  intros Htrans H1 H2. unfold bind.
  destruct (m s) as [[a|e] s1]; simpl in *; [|done].
  eapply Htrans; [done|]. by apply H2.
Qed.

Lemma liftW_kept {A} Q (m : M world A) s :
  wrote Q (env s) (m (env s)).2 → kept Q s (liftW m s).2.
Proof.
  intros H. unfold liftW. destruct (m (env s)) as [r w']. simpl in *.
  split; [apply same_but_tree_refl | done].
Qed.

Lemma os_makedirs_wrote p w : wrote document_event w (os_makedirs p w).2.
Proof.
  unfold os_makedirs. case_decide; [apply wrote_refl|].
  destruct (mkdir_chain_grows (ancestors p ++ [p]) w) as [[_ Hg] _].
  destruct (mkdir_chain_log (ancestors p ++ [p]) w) as (evs & Hl & _ & Hd).
  exists evs. split; [done|]. split; [done|]. intros k c Hk. left.
  by apply Hg.
Qed.

Lemma open_write_wrote (Q : event → Prop) p c w :
  Q (EvWrite p c) → wrote Q w (open_write p c w).2.
Proof.
  intros HQ.
  assert (wrote Q w (add_log (EvWrite p c) (set_fs <[p := File c]> w)))
    as Hw.
  { exists [EvWrite p c]. split; [done|]. split; [by apply Forall_singleton|].
    intros k c' Hk. simpl in Hk. rewrite lookup_insert in Hk.
    case_decide as Hkp; [|by left]. right. injection Hk as <-. subst.
    by apply list_elem_of_singleton. }
  unfold open_write. munfold.
  destruct (w_fs w !! p) as [[c0|]|]; simpl; try apply wrote_refl;
    (case_decide; [|destruct (w_fs w !! osp_dirname p) as [[c1|]|]]);
    simpl; try apply wrote_refl; exact Hw.
Qed.

Lemma write_document_wrote fuel c p w :
  document_event (EvWrite p c) →
  wrote document_event w (write_document fuel c p "" false w).2.
Proof.
  intros Hc. unfold write_document. rewrite StrFacts.app_nil_r. simpl.
  unfold bind at 1, osp_exists at 1, gets at 1. simpl.
  unfold bind at 1, ret at 1. simpl.
  apply (bind_along (wrote document_event)).
  - apply wrote_trans.
  - apply os_makedirs_wrote.
  - intros [] w1 _. by apply open_write_wrote.
Qed.

Lemma _update_file_tree_kept Q relative_path s :
  kept Q s (_update_file_tree relative_path s).2.
Proof.
  destruct s as [o w]. unfold _update_file_tree.
  assert (∀ leaf root,
    kept Q (Session o w)
      ((added_at <- liftW datetime_now_isoformat ;;
        pp <- the_path (project_path o) ;;
        size_bytes <- liftW (osp_getsize (osp_join pp relative_path)) ;;
        match tree_insert (path_parts relative_path)
                (leaf added_at size_bytes) root with
        | Ok root' =>
            set_self (set_file_tree (dict_set "root" root' (file_tree o)))
        | Raise e => raise e
        end) (Session o w)).2) as Hrest.
  { intros leaf root.
    unfold bind, gets, liftW, datetime_now_isoformat, the_path, osp_getsize,
      ret, raise. simpl.
    destruct (project_path o) as [pp|]; simpl;
      [|split; [apply same_but_tree_refl | by apply wrote_same]].
    unfold bind, gets. simpl.
    destruct (w_fs w !! osp_join pp relative_path) as [[c|]|]; simpl;
      try (split; [apply same_but_tree_refl | by apply wrote_same]);
      (destruct (tree_insert _ _ _); simpl;
       [unfold set_self, modify; simpl;
        split; [by destruct o | by apply wrote_same]
       |split; [apply same_but_tree_refl | by apply wrote_same]]). }
  unfold bind at 1, gets at 1. simpl.
  destruct (tree_insert _ YNone _) as [r0|[]]; try apply kept_refl;
    apply (Hrest (λ a z, YDict [("added_at", YStr a); ("size_bytes", YInt z)])).
Qed.

(** One pass of the loop, whether it returns or raises. *)
Lemma save_checkpoint_object_kept objs fuel name obj_name obj s :
  (obj_name, Some obj) ∈ objs →
  kept (object_event objs) s
    (save_checkpoint_object fuel name obj_name obj s).2.
Proof.
  intros Hin. unfold save_checkpoint_object.
  apply (bind_along (kept (object_event objs))); [apply kept_trans| |].
  { destruct (po_has_prepare_for_save obj); [|apply kept_refl].
    apply (bind_along (kept (object_event objs))); [apply kept_trans| |].
    - apply liftW_kept. unfold modify. simpl.
      exists [EvPrepare obj_name]. split; [done|].
      split; [apply Forall_singleton; by exists obj | auto].
    - intros. apply kept_refl. }
  intros o s1 Ho.
  assert (o = pickled obj) as ->.
  { unfold pickled. destruct (po_has_prepare_for_save obj).
    - apply bind_inv in Ho as ([] & sx & _ & Hr). unfold ret in Hr.
      by injection Hr as <- _.
    - unfold ret in Ho. by injection Ho as <- _. }
  apply (bind_along (kept (object_event objs)));
    [apply kept_trans | apply kept_refl |].
  intros d0 s2 _.
  apply (bind_along (kept (object_event objs))); [apply kept_trans| |].
  { destruct d0; apply kept_refl. }
  intros dir s3 _.
  apply (bind_along (kept (object_event objs))); [apply kept_trans| |].
  { apply liftW_kept. rewrite get_no_overwrite_path_frame. apply wrote_refl. }
  intros r s4 _. simpl.
  apply (bind_along (kept (object_event objs))); [apply kept_trans| |].
  { apply liftW_kept, open_write_wrote. by exists obj_name, obj. }
  intros [] s5 _.
  apply (bind_along (kept (object_event objs)));
    [apply kept_trans | apply kept_refl |].
  intros pp0 s6 _.
  apply (bind_along (kept (object_event objs))); [apply kept_trans| |].
  { destruct pp0; apply kept_refl. }
  intros pp s7 _.
  destruct (path_relative_to r.1 pp); [|apply kept_refl].
  apply (bind_along (kept (object_event objs))); [apply kept_trans| |].
  { apply _update_file_tree_kept. }
  intros. apply kept_refl.
Qed.

Lemma object_event_mono objs objs' e :
  (∀ x, x ∈ objs → x ∈ objs') → object_event objs e → object_event objs' e.
Proof.
  intros Hsub. destruct e as [p|p [b|o|d|db]|p|r]; simpl; try done.
  - intros (r & o' & Hin & ->). exists r, o'. auto.
  - intros [o Hin]. exists o. auto.
Qed.

(** The loop, whether it returns or raises; the roles recorded when it
    returns are roles that were given an object. *)
Lemma save_checkpoint_objects_kept all fuel name objs :
  (∀ x, x ∈ objs → x ∈ all) →
  ∀ files s,
    kept (object_event all) s
      (save_checkpoint_objects fuel name objs files s).2 ∧
    ∀ files',
      (save_checkpoint_objects fuel name objs files s).1 = Ok files' →
      ∀ r, is_Some (dict_get r files') →
           is_Some (dict_get r files) ∨ ∃ o, (r, Some o) ∈ all.
Proof.
  induction objs as [|[obj_name [obj|]] rest IH]; intros Hsub files s; simpl.
  - split; [apply kept_refl|]. unfold ret. simpl. intros ? [= <-]. auto.
  - assert ((obj_name, Some obj) ∈ all) as Hin by (apply Hsub; left).
    assert (∀ x, x ∈ rest → x ∈ all) as Hsub' by (intros; apply Hsub; by right).
    pose proof (save_checkpoint_object_kept all fuel name obj_name obj s Hin)
      as Hone.
    unfold bind.
    destruct (save_checkpoint_object fuel name obj_name obj s)
      as [[f|e] s1]; simpl in *; [|split; [done|done]].
    destruct (IH Hsub' (dict_set obj_name f files) s1) as [Hk Hf].
    split; [by eapply kept_trans|].
    intros files' Hok r Hr. destruct (Hf files' Hok r Hr) as [Hs|Hs]; [|auto].
    rewrite dict_get_set in Hs. case_decide; [|auto]. subst. right.
    by exists obj.
  - apply IH. intros; apply Hsub; by right.
Qed.

Lemma _save_all_state_wrote fuel s :
  self (_save_all_state fuel s).2 = self s ∧
  wrote document_event (env s) (env (_save_all_state fuel s).2).
Proof.
  set (R := λ s s' : session,
         self s' = self s ∧ wrote document_event (env s) (env s')).
  assert (∀ x y z, R x y → R y z → R x z) as Htrans.
  { intros x y z [S1 W1] [S2 W2].
    split; [congruence | by eapply wrote_trans]. }
  assert (∀ s, R s s) as Hrefl by (intros; split; [done | apply wrote_refl]).
  assert (∀ c p s, document_event (EvWrite p c) →
            R s (liftW (write_document fuel c p "" false) s).2) as Hdoc.
  { intros c p s0 Hc. pose proof (write_document_wrote fuel c p (env s0) Hc).
    unfold liftW. destruct (write_document _ _ _ _ _ _). by split. }
  assert (∀ p s, R s (the_path (St := session) p s).2) as Hpath
    by (intros [p|] s0; apply Hrefl).
  change (R s (_save_all_state fuel s).2). unfold _save_all_state.
  apply (bind_along R); [done | apply Hrefl |]. intros o s1 _.
  destruct (project_path o); [|apply Hrefl].
  unfold write_yaml, write_json.
  apply (bind_along R); [done | apply Hpath |]. intros p1 s2 _.
  apply (bind_along R); [done | by apply Hdoc |]. intros [] s3 _.
  apply (bind_along R); [done | apply Hpath |]. intros p2 s4 _.
  apply (bind_along R); [done | by apply Hdoc |]. intros [] s5 _.
  apply (bind_along R); [done | apply Hpath |]. intros p3 s6 _.
  apply (bind_along R); [done | by apply Hdoc |]. intros [] s7 _.
  apply (bind_along R); [done | apply Hpath |]. intros p4 s8 _.
  by apply Hdoc.
Qed.

(** [save_checkpoint], whether it returns or raises: what it wrote and
    what became of the index. *)
Lemma save_checkpoint_any fuel name objs s out s' :
  save_checkpoint fuel name objs s = (out, s') →
  wrote (save_event objs) (env s) (env s') ∧
  (out ≠ Ok tt ∧ checkpoint_db (self s') = checkpoint_db (self s) ∨
   ∃ info,
     checkpoint_db (self s') = <[name := info]> (checkpoint_db (self s)) ∧
     ci_name info = name ∧
     ∀ r, is_Some (dict_get r (ci_files info)) → ∃ o, (r, Some o) ∈ objs).
Proof.
  unfold save_checkpoint.
  unfold bind at 1, gets at 1. simpl.
  unfold bind at 1, liftW at 1, datetime_now_isoformat at 1. simpl.
  set (s1 := Session (self s) _).
  set (saved_at := "t" +:+ _).
  assert (wrote (save_event objs) (env s) (env s1)) as W1
    by (apply wrote_same; reflexivity).
  destruct (save_checkpoint_objects_kept objs fuel name objs
              (λ x H, H) [] s1) as [[Htree Hw] Hfiles].
  apply same_but_tree_files_dir in Htree as (_ & _ & Hdb & _ & _).
  apply (wrote_mono _ (save_event objs)) in Hw; [|by left].
  pose proof (wrote_trans _ _ _ _ W1 Hw) as W2. clear W1 Hw.
  unfold bind at 1.
  destruct (save_checkpoint_objects fuel name objs [] s1) as [[files|e] s2];
    simpl in Hfiles, Hdb, W2 |- *.
  2:{ intros [= <- <-]. split; [done|]. left. by rewrite Hdb. }
  assert (∀ r, is_Some (dict_get r files) → ∃ o, (r, Some o) ∈ objs) as Hroles.
  { intros r Hr. destruct (Hfiles files eq_refl r Hr) as [[? ?]|?]; done. }
  clear Hfiles.
  set (info := CheckpointInfo name (phase_value (current_phase (self s)))
                 saved_at files).
  assert (∀ o w,
            checkpoint_db o = <[name := info]> (checkpoint_db (self s)) →
            wrote (save_event objs) (env s) w →
            wrote (save_event objs) (env s) w ∧
            (out ≠ Ok tt ∧ checkpoint_db o = checkpoint_db (self s) ∨
             ∃ info,
               checkpoint_db o = <[name := info]> (checkpoint_db (self s)) ∧
               ci_name info = name ∧
               ∀ r, is_Some (dict_get r (ci_files info)) →
                    ∃ o, (r, Some o) ∈ objs)) as Hstop.
  { intros o w Ho Hw. split; [done|]. right. by exists info. }
  unfold bind at 1, set_self at 1, modify at 1. simpl.
  unfold bind at 1, set_self at 1, modify at 1. simpl.
  unfold bind at 1, gets at 1. simpl.
  destruct (dict_get "total_checkpoints" _) as [[|z|z0|l|d]|]; simpl;
    try (intros [= <- <-]; apply Hstop; simpl;
         [by rewrite Hdb; destruct (self s2) | done]).
  assert (∀ o,
            checkpoint_db o = <[name := info]> (checkpoint_db (self s)) →
            _save_all_state fuel (Session o (env s2)) = (out, s') →
            wrote (save_event objs) (env s) (env s') ∧
            (out ≠ Ok tt ∧ checkpoint_db (self s') = checkpoint_db (self s) ∨
             ∃ info,
               checkpoint_db (self s')
               = <[name := info]> (checkpoint_db (self s)) ∧
               ci_name info = name ∧
               ∀ r, is_Some (dict_get r (ci_files info)) →
                    ∃ o, (r, Some o) ∈ objs)) as Hsave.
  { intros o Ho Hrun.
    destruct (_save_all_state_wrote fuel (Session o (env s2))) as [Hself Hw].
    rewrite Hrun in Hself, Hw. simpl in Hself, Hw. rewrite Hself.
    apply Hstop; [done|]. eapply wrote_trans; [exact W2|].
    eapply wrote_mono; [|exact Hw]. intros e He. by right. }
  unfold bind at 1, set_self at 1, modify at 1. simpl.
  unfold bind at 1.
  destruct (dict_has "model" objs); [destruct (dict_get "model" files)|];
    unfold set_self, modify, raise, ret; simpl;
    try (intros [= <- <-]; apply Hstop; simpl;
         [by rewrite Hdb; destruct (self s2) | done]);
    apply Hsave; simpl; by rewrite Hdb; destruct (self s2).
Qed.

(** C10: whatever [save_checkpoint] does, whether it returns or raises,
    an object given as [None] is skipped: its [prepare_for_save] hook is
    not run; every pickle written by the call, and every pickle on disk
    afterwards that was not there before, is the pickle of an object
    given under another role; and the index is unchanged or has got the
    entry of this call, whose mapping from roles to file names does not
    mention the role.  When the call returns, that entry is in the
    index. *)
Theorem save_checkpoint_none_skipped_always (fuel : nat) (name : string)
    (objects_to_save : list (string * option pyobj)) (s : session)
    (role : string) :
  NoDup objects_to_save.*1 →
  (role, None) ∈ objects_to_save →
  ∃ (out : res unit) (s' : session) (evs : list event),
    save_checkpoint fuel name objects_to_save s = (out, s') ∧
    w_log (env s') = (w_log (env s) ++ evs)%list ∧
    (EvPrepare role ∉ evs) ∧
    (∀ p o, EvWrite p (CPickle o) ∈ evs →
       ∃ r' o', (r', Some o') ∈ objects_to_save ∧ r' ≠ role ∧
                o = pickled o') ∧
    (∀ p o, w_fs (env s') !! p = Some (File (CPickle o)) →
       w_fs (env s) !! p = Some (File (CPickle o)) ∨
       ∃ r' o', (r', Some o') ∈ objects_to_save ∧ r' ≠ role ∧
                o = pickled o') ∧
    (checkpoint_db (self s') = checkpoint_db (self s) ∧ out ≠ Ok tt ∨
     ∃ info,
       checkpoint_db (self s')
       = <[name := info]> (checkpoint_db (self s)) ∧
       ci_name info = name ∧
       dict_get role (ci_files info) = None).
Proof.
  intros Hnd Hin.
  destruct (save_checkpoint fuel name objects_to_save s) as [out s'] eqn:Hrun.
  apply save_checkpoint_any in Hrun as [(evs & Hlog & Hev & Hfs) Hdb].
  assert (∀ o, (role, Some o) ∉ objects_to_save) as Hnot.
  { intros o Ho.
    by pose proof (NoDup_fmap_eq fst objects_to_save _ _ Hnd Hin Ho eq_refl). }
  assert (∀ p o, EvWrite p (CPickle o) ∈ evs →
            ∃ r' o', (r', Some o') ∈ objects_to_save ∧ r' ≠ role ∧
                     o = pickled o') as Hpickles.
  { intros p o Hp. rewrite Forall_forall in Hev.
    destruct (Hev _ Hp) as [(r' & o' & Ho' & ->)|[]].
    exists r', o'. split; [done|]. split; [|done].
    intros ->. by destruct (Hnot o'). }
  exists out, s', evs. split; [done|]. split; [done|]. split.
  { intros Hp. rewrite Forall_forall in Hev.
    destruct (Hev _ Hp) as [[o Ho]|[]]. by destruct (Hnot o). }
  split; [done|]. split.
  { intros p o Hp. destruct (Hfs p _ Hp) as [?|Hw]; [by left|].
    right. by eapply Hpickles. }
  destruct Hdb as [[Hout Hdb]|(info & Hdb & Hname & Hroles)]; [by left|].
  right. exists info. split; [done|]. split; [done|].
  destruct (dict_get role (ci_files info)) as [f|] eqn:E; [|done].
  destruct (Hroles role) as [o Ho]; [by rewrite E|]. by destruct (Hnot o).
Qed.

Lemma save_checkpoint_none_skipped_always_witness :
  ∃ (out : res unit) (s' : session) (evs : list event),
    save_checkpoint 5 "c1" [("model", Some a_model); ("logs", None)]
      fresh_session = (out, s') ∧
    w_log (env s') = (w_log (env fresh_session) ++ evs)%list ∧
    (EvPrepare "logs" ∉ evs) ∧
    (∀ p o, EvWrite p (CPickle o) ∈ evs →
       ∃ r' o', (r', Some o') ∈ [("model", Some a_model); ("logs", None)] ∧
                r' ≠ "logs" ∧ o = pickled o') ∧
    (∀ p o, w_fs (env s') !! p = Some (File (CPickle o)) →
       w_fs (env fresh_session) !! p = Some (File (CPickle o)) ∨
       ∃ r' o', (r', Some o') ∈ [("model", Some a_model); ("logs", None)] ∧
                r' ≠ "logs" ∧ o = pickled o') ∧
    (checkpoint_db (self s') = checkpoint_db (self fresh_session) ∧
     out ≠ Ok tt ∨
     ∃ info,
       checkpoint_db (self s')
       = <["c1" := info]> (checkpoint_db (self fresh_session)) ∧
       ci_name info = "c1" ∧
       dict_get "logs" (ci_files info) = None).
Proof.
  apply (save_checkpoint_none_skipped_always 5 "c1"
           [("model", Some a_model); ("logs", None)] fresh_session "logs").
  - simpl. apply NoDup_cons. split; [|apply NoDup_singleton].
    by intros ?%list_elem_of_singleton.
  - right. left.
Defined.

(** The object given as [None] is skipped here, the other one is saved. *)
Example save_checkpoint_logs_none :
  let r := save_checkpoint 5 "c1" [("model", Some a_model); ("logs", None)]
             fresh_session in
  r.1 = Ok tt ∧
  (ci_files <$> checkpoint_db (self r.2) !! "c1")
  = Some [("model", "c1_model.pkl")] ∧
  write_paths (w_log (env r.2))
  = ["proj/files/c1_model.pkl"; "proj/main.yaml"; "proj/shared_storage.yaml";
     "proj/file_tree.yaml"; "proj/tiny_db.json"].
Proof. vm_compute. repeat split; reflexivity. Qed.

(** * Further properties *)

(** ** Base-62 names *)

Lemma string_of_list_ascii_inj (l1 l2 : list ascii) :
  string_of_list_ascii l1 = string_of_list_ascii l2 → l1 = l2.
Proof.
  intros H. apply (f_equal list_ascii_of_string) in H.
  by rewrite !list_ascii_of_string_of_list_ascii in H.
Qed.

Lemma char_index_alphanum (i : nat) :
  (i < 62)%nat →
  char_index (alphanum_char (Z.of_nat i)) _ALPHANUM_CHARS = Some i.
Proof.
  intros Hi. do 62 (destruct i as [|i]; [by vm_compute|]). lia.
Qed.

Lemma alphanum_char_inj (a b : Z) :
  (0 ≤ a < 62)%Z → (0 ≤ b < 62)%Z →
  alphanum_char a = alphanum_char b → a = b.
Proof.
  intros Ha Hb Heq.
  pose proof (char_index_alphanum (Z.to_nat a)) as H1.
  pose proof (char_index_alphanum (Z.to_nat b)) as H2.
  rewrite Z2Nat.id in H1, H2 by lia.
  rewrite Heq, H2 in H1 by lia. injection H1; lia.
Qed.

Lemma _to_base62_chars_cons num len :
  _to_base62_chars num (S len)
  = alphanum_char (num `mod` 62) :: _to_base62_chars (num `div` 62) len.
Proof. done. Qed.

Lemma _to_base62_chars_congr len :
  ∀ n m, _to_base62_chars n len = _to_base62_chars m len ↔
         (n `mod` 62 ^ Z.of_nat len = m `mod` 62 ^ Z.of_nat len)%Z.
Proof.
  induction len as [|len IH]; intros n m.
  - simpl. rewrite !Z.mod_1_r. done.
  - rewrite !_to_base62_chars_cons.
    replace (Z.of_nat (S len)) with (1 + Z.of_nat len)%Z by lia.
    rewrite Z.pow_add_r by lia. rewrite Z.pow_1_r.
    assert (0 < 62 ^ Z.of_nat len)%Z as Hpos by (apply Z.pow_pos_nonneg; lia).
    rewrite !Z.rem_mul_r by lia.
    pose proof (Z.mod_pos_bound n 62). pose proof (Z.mod_pos_bound m 62).
    pose proof (Z.mod_pos_bound (n `div` 62) _ Hpos).
    pose proof (Z.mod_pos_bound (m `div` 62) _ Hpos).
    split.
    + intros [= Hc Ht]. apply alphanum_char_inj in Hc; [|lia..].
      apply IH in Ht. lia.
    + intros Heq.
      assert (n `mod` 62 = m `mod` 62 ∧
              (n `div` 62) `mod` 62 ^ Z.of_nat len
              = (m `div` 62) `mod` 62 ^ Z.of_nat len)%Z as [Hc Ht] by lia.
      rewrite Hc. f_equal. by apply IH.
Qed.

Lemma _to_base62_congr (n m : Z) (length : nat) :
  _to_base62 n length = _to_base62 m length ↔
  (n `mod` 62 ^ Z.of_nat length = m `mod` 62 ^ Z.of_nat length)%Z.
Proof.
  unfold _to_base62. rewrite <-_to_base62_chars_congr. split.
  - intros H%string_of_list_ascii_inj.
    apply (f_equal (@rev ascii)) in H. by rewrite !rev_involutive in H.
  - by intros ->.
Qed.

(** X1: two integers get the same base-62 name of a given width exactly
    when they agree modulo [62 ^ width]; so the names of the integers in
    [0, 62 ^ width) are pairwise distinct, and a larger integer silently
    loses its high digits. *)
Theorem _to_base62_congruence (n m : Z) (length : nat) :
  _to_base62 n length = _to_base62 m length ↔
  (n `mod` 62 ^ Z.of_nat length = m `mod` 62 ^ Z.of_nat length)%Z.
Proof. apply _to_base62_congr. Qed.

Lemma base62_value_app l1 l2 acc :
  base62_value acc (l1 ++ l2)
  = match base62_value acc l1 with
    | Some a => base62_value a l2
    | None => None
    end.
Proof.
  revert acc. induction l1 as [|c l1 IH]; intros acc;
    cbn [base62_value app]; [done|].
  destruct (char_index c _ALPHANUM_CHARS); [apply IH | done].
Qed.

Lemma base62_value_chars len :
  ∀ n, base62_value 0 (rev (_to_base62_chars n len))
       = Some (n `mod` 62 ^ Z.of_nat len)%Z.
Proof.
  induction len as [|len IH]; intros n.
  - simpl. by rewrite Z.mod_1_r.
  - rewrite _to_base62_chars_cons. simpl rev.
    rewrite base62_value_app, IH. cbn [base62_value].
    pose proof (Z.mod_pos_bound n 62) as Hb.
    pose proof (char_index_alphanum (Z.to_nat (n `mod` 62))) as Hi.
    rewrite Z2Nat.id in Hi by lia. rewrite Hi by lia.
    rewrite Z2Nat.id by lia. f_equal.
    replace (Z.of_nat (S len)) with (1 + Z.of_nat len)%Z by lia.
    rewrite Z.pow_add_r by lia. rewrite Z.pow_1_r.
    assert (0 < 62 ^ Z.of_nat len)%Z as Hpos by (apply Z.pow_pos_nonneg; lia).
    rewrite Z.rem_mul_r by lia. lia.
Qed.

(** X2: reading a base-62 name back gives the integer it was made from,
    reduced modulo [62 ^ width]: for an integer in range the name is a
    faithful encoding. *)
Theorem _to_base62_round_trip (num : Z) (length : nat) :
  _from_base62 (_to_base62 num length)
  = Some (num `mod` 62 ^ Z.of_nat length)%Z.
Proof.
  unfold _from_base62, _to_base62.
  rewrite list_ascii_of_string_of_list_ascii. apply base62_value_chars.
Qed.

(** ** The first free candidate of [get_no_overwrite_path] *)

Section first_free.
Context (file_path_no_suffix suffix : string).

Local Abbreviation pr := (probe file_path_no_suffix suffix).

Lemma loop_first_free fuel w : ∀ add_id p w',
  get_no_overwrite_path_loop fuel file_path_no_suffix suffix add_id
    (pr add_id) w = (Ok p, w') →
  ∃ j, (add_id ≤ j)%Z ∧ p = pr j ∧
       ∀ i, (add_id ≤ i < j)%Z → is_Some (w_fs w !! pr i).
Proof.
  induction fuel as [|fuel IH]; intros add_id p w'; simpl; munfold;
    destruct (fs_exists (w_fs w) (pr add_id)) eqn:E; simpl; try done.
  - intros [= <- <-]. exists add_id. split; [lia|]. split; [done|].
    intros i Hi. lia.
  - intros H. apply (IH (add_id + 1)%Z) in H as (j & Hj & -> & Hall).
    exists j. split; [lia|]. split; [done|]. intros i Hi.
    destruct (decide (i = add_id)) as [->|Hne]; [by apply fs_exists_true|].
    apply Hall. lia.
  - intros [= <- <-]. exists add_id. split; [lia|]. split; [done|].
    intros i Hi. lia.
Qed.

End first_free.

(** X3: with fuel for one step per existing entry, [get_no_overwrite_path]
    returns the first free candidate: the requested path if it is free,
    otherwise the numbered path [_k] with the smallest [k ≥ 1] that is
    free; every earlier candidate exists.  The world is not changed. *)
Theorem get_no_overwrite_path_first_free (fuel : nat)
    (file_path_no_suffix suffix : string)
    (make_folders_on_path warn_if_already_exists : bool) (w : world) :
  (size (w_fs w) ≤ fuel)%nat →
  ∃ k : Z, (0 ≤ k)%Z ∧
    get_no_overwrite_path fuel file_path_no_suffix suffix
      make_folders_on_path warn_if_already_exists w
    = (Ok (candidate file_path_no_suffix suffix k,
           file_path_no_suffix +:+ suffix), w) ∧
    w_fs w !! candidate file_path_no_suffix suffix k = None ∧
    ∀ j, (0 ≤ j < k)%Z →
         is_Some (w_fs w !! candidate file_path_no_suffix suffix j).
Proof.
  intros Hfuel.
  destruct (get_no_overwrite_path_terminates file_path_no_suffix suffix fuel
              make_folders_on_path warn_if_already_exists w Hfuel)
    as [p Hp].
  pose proof (get_no_overwrite_path_free _ _ _ _ _ _ _ _ _ Hp)
    as (_ & Hfree & _).
  rewrite Hp. revert Hp. unfold get_no_overwrite_path. munfold.
  destruct (fs_exists (w_fs w) (file_path_no_suffix +:+ suffix)) eqn:E;
    simpl.
  - destruct (get_no_overwrite_path_loop _ _ _ _ _ _) as [[r|e] w1] eqn:Hl;
      simpl; [|done].
    intros [= -> ->].
    apply (loop_first_free file_path_no_suffix suffix fuel w 1%Z) in Hl
      as (j & Hj & -> & Hall).
    exists j. unfold candidate. rewrite decide_False by lia.
    split; [lia|]. split; [done|]. split; [done|]. intros i Hi.
    case_decide as Hi0; [by apply fs_exists_true|]. apply Hall. lia.
  - intros [= <-]. exists 0%Z. unfold candidate. simpl.
    split; [lia|]. split; [done|]. split; [done|]. intros i Hi. lia.
Qed.

Lemma get_no_overwrite_path_first_free_witness :
  ∃ k : Z, (0 ≤ k)%Z ∧
    get_no_overwrite_path 3 "p/ab" ".txt" true false w_one_file
    = (Ok (candidate "p/ab" ".txt" k, "p/ab" +:+ ".txt"), w_one_file) ∧
    w_fs w_one_file !! candidate "p/ab" ".txt" k = None ∧
    ∀ j, (0 ≤ j < k)%Z →
         is_Some (w_fs w_one_file !! candidate "p/ab" ".txt" j).
Proof.
  apply (get_no_overwrite_path_first_free 3 "p/ab" ".txt" true false
           w_one_file).
  vm_compute. lia.
Defined.

(** ** The base-62 allocators at any width *)

Lemma max_num_of_eq digit_num : max_num_of digit_num = (62 ^ Z.of_nat digit_num)%Z.
Proof. done. Qed.

Lemma max_num_of_pos digit_num : (0 < max_num_of digit_num)%Z.
Proof. rewrite max_num_of_eq. apply Z.pow_pos_nonneg; lia. Qed.

Lemma _to_base62_mod n digit_num :
  _to_base62 (n `mod` max_num_of digit_num) digit_num = _to_base62 n digit_num.
Proof.
  apply _to_base62_congr. rewrite <-max_num_of_eq.
  apply Z.mod_mod. pose proof (max_num_of_pos digit_num). lia.
Qed.

Lemma anum_loop_exhausted ptpf digit_num w :
  (∀ k, (0 ≤ k < max_num_of digit_num)%Z →
        is_Some (w_fs w !! slot ptpf digit_num k)) →
  ∀ fuel n,
    novel_folder_anum_loop fuel ptpf digit_num (max_num_of digit_num) n w
    = (Raise OutOfFuel, w).
Proof.
  intros Hall. induction fuel as [|fuel IH]; intros n; simpl; munfold;
    fold (slot ptpf digit_num n);
    (assert (fs_exists (w_fs w) (slot ptpf digit_num n) = true) as ->;
     [|simpl; auto]);
    apply fs_exists_true; unfold slot; rewrite <-_to_base62_mod;
    apply Hall, Z.mod_pos_bound, max_num_of_pos.
Qed.

(** X4: when every name of the chosen width is taken in the parent
    folder, the probing of [novel_folder_anum] never finds a free slot:
    whatever the fuel and the random start, the loop is still running
    when the fuel is used up (the Python loop does not terminate), and
    nothing has been created. *)
Theorem novel_folder_anum_exhausted (fuel : nat) (random_n : Z)
    (path_to_parent_folder : string) (digit_num : nat) (w : world) :
  (∀ k, (0 ≤ k < 62 ^ Z.of_nat digit_num)%Z →
        is_Some (w_fs w !! slot path_to_parent_folder digit_num k)) →
  novel_folder_anum fuel random_n path_to_parent_folder digit_num w
  = (Raise OutOfFuel, w).
Proof.
  intros Hall. unfold novel_folder_anum.
  by apply (anum_loop_exhausted path_to_parent_folder digit_num w).
Qed.

Lemma foldr_insert_taken (f : Z → string) (l : list Z)
    (m : gmap string node) (k : Z) :
  k ∈ l → is_Some (foldr (λ c m, <[f c := Dir]> m) m l !! f k).
Proof.
  induction l as [|c l IH]; [by intros ?%elem_of_nil|].
  intros [->|Hin]%elem_of_cons; simpl.
  - rewrite lookup_insert_eq. by eexists.
  - rewrite lookup_insert. case_decide; [by eexists | by apply IH].
Qed.

Lemma novel_folder_anum_exhausted_witness :
  novel_folder_anum 100 17 "p" 1 w_full_1 = (Raise OutOfFuel, w_full_1).
Proof.
  apply (novel_folder_anum_exhausted 100 17 "p" 1 w_full_1).
  intros k Hk. apply (foldr_insert_taken (slot "p" 1)).
  apply elem_of_seqZ. simpl in Hk. lia.
Defined.

(** X5: at any width [digit_num ≥ 1], when some name of that width is
    free in the parent folder and no regular file lies on the way to the
    folder, [novel_folder_anum] with fuel for one full round returns a
    name that was free, and that name is a directory afterwards; no
    existing entry is changed. *)
Theorem novel_folder_anum_any_width (fuel : nat) (random_n m : Z)
    (path_to_parent_folder : string) (digit_num : nat) (w : world) :
  (0 < digit_num)%nat →
  (Z.to_nat (62 ^ Z.of_nat digit_num) - 1 ≤ fuel)%nat →
  (0 ≤ random_n < 62 ^ Z.of_nat digit_num)%Z →
  (0 ≤ m < 62 ^ Z.of_nat digit_num)%Z →
  (∀ q, q ∈ ancestors (dirprefix path_to_parent_folder) →
        ¬ is_file (w_fs w) q) →
  w_fs w !! slot path_to_parent_folder digit_num m = None →
  ∃ (k : Z) (w' : world),
    novel_folder_anum fuel random_n path_to_parent_folder digit_num w
      = (Ok (slot path_to_parent_folder digit_num k), w') ∧
    (0 ≤ k < 62 ^ Z.of_nat digit_num)%Z ∧
    w_fs w !! slot path_to_parent_folder digit_num k = None ∧
    w_fs w' !! slot path_to_parent_folder digit_num k = Some Dir ∧
    grows (w_fs w) (w_fs w').
Proof.
  intros Hd Hfuel Hn Hm Hanc Hfree. unfold novel_folder_anum.
  fold (max_num_of digit_num). rewrite max_num_of_eq.
  apply (anum_loop_free_slot path_to_parent_folder digit_num _ Hd) with m;
    try done.
  apply Z.pow_pos_nonneg; lia.
Qed.

Lemma novel_folder_anum_any_width_witness :
  ∃ (k : Z) (w' : world),
    novel_folder_anum 61 40 "p" 1 w_empty_dir = (Ok (slot "p" 1 k), w') ∧
    (0 ≤ k < 62 ^ Z.of_nat 1)%Z ∧
    w_fs w_empty_dir !! slot "p" 1 k = None ∧
    w_fs w' !! slot "p" 1 k = Some Dir ∧
    grows (w_fs w_empty_dir) (w_fs w').
Proof.
  apply (novel_folder_anum_any_width 61 40 3 "p" 1 w_empty_dir).
  - lia.
  - simpl. lia.
  - simpl. lia.
  - simpl. lia.
  - apply w_empty_dir_ready.
  - vm_compute. reflexivity.
Defined.

(** ** Two-character names *)

Lemma get_lookup (s : string) (i : nat) :
  String.get i s = list_ascii_of_string s !! i.
Proof.
  revert i. induction s as [|a s IH]; intros [|i]; simpl; auto.
Qed.

Lemma length_list_ascii_of_string (s : string) :
  length (list_ascii_of_string s) = String.length s.
Proof. induction s; simpl; auto. Qed.

Lemma alphanum_char_elem (c : ascii) :
  c ∈ list_ascii_of_string _ALPHANUM_CHARS ↔
  ∃ r, (0 ≤ r < 62)%Z ∧ alphanum_char r = c.
Proof.
  unfold alphanum_char. split.
  - intros [i Hi]%list_elem_of_lookup.
    pose proof (lookup_lt_Some _ _ _ Hi) as Hlt.
    change (i < 62)%nat in Hlt.
    exists (Z.of_nat i). split; [lia|].
    by rewrite Nat2Z.id, get_lookup, Hi.
  - intros (r & Hr & <-). rewrite get_lookup.
    destruct (lookup_lt_is_Some_2 (list_ascii_of_string _ALPHANUM_CHARS)
                (Z.to_nat r)) as [c Hc].
    { change (Z.to_nat r < 62)%nat. lia. }
    rewrite Hc. by apply list_elem_of_lookup_2 in Hc.
Qed.

Lemma _to_base62_chars_alphanum len : ∀ num,
  Forall (λ c, c ∈ list_ascii_of_string _ALPHANUM_CHARS)
    (_to_base62_chars num len).
Proof.
  induction len as [|len IH]; intros num; [constructor|].
  rewrite _to_base62_chars_cons. constructor; [|apply IH].
  apply alphanum_char_elem. exists (num `mod` 62)%Z.
  split; [apply Z.mod_pos_bound; lia | done].
Qed.

(** The encoder makes names of the alphabet, of the width asked for. *)
Lemma _to_base62_name num len : base62_name len (_to_base62 num len).
Proof.
  split; [apply length__to_base62|]. unfold _to_base62.
  rewrite list_ascii_of_string_of_list_ascii. apply Forall_rev,
    _to_base62_chars_alphanum.
Qed.

Lemma _to_base62_chars_onto (ds : list ascii) :
  Forall (λ c, c ∈ list_ascii_of_string _ALPHANUM_CHARS) ds →
  ∃ m, (0 ≤ m < 62 ^ Z.of_nat (length ds))%Z ∧
       _to_base62_chars m (length ds) = ds.
Proof.
  induction 1 as [|d ds Hd _ IH].
  - exists 0%Z. split; [simpl; lia | done].
  - destruct IH as (m' & Hm' & Hds).
    apply alphanum_char_elem in Hd as (r & Hr & <-).
    exists (r + m' * 62)%Z. simpl length.
    replace (Z.of_nat (S (length ds))) with (1 + Z.of_nat (length ds))%Z
      by lia.
    rewrite Z.pow_add_r by lia. rewrite Z.pow_1_r.
    split; [nia|]. rewrite _to_base62_chars_cons.
    rewrite Z.mod_add, Z.div_add by lia.
    rewrite Z.mod_small, Z.div_small by lia. by rewrite Z.add_0_l, Hds.
Qed.

(** Every name of the alphabet is the name of an integer in range. *)
Lemma _to_base62_onto (width : nat) (name : string) :
  base62_name width name →
  ∃ m, (0 ≤ m < 62 ^ Z.of_nat width)%Z ∧ _to_base62 m width = name.
Proof.
  intros [Hlen Hall]. apply Forall_rev in Hall.
  destruct (_to_base62_chars_onto _ Hall) as (m & Hm & Hds).
  rewrite length_rev, length_list_ascii_of_string, Hlen in Hm, Hds.
  exists m. split; [done|]. unfold _to_base62.
  by rewrite Hds, rev_involutive, string_of_list_ascii_of_string.
Qed.

(** C5: with [digit_num = 2], if some name of two characters of the
    base-62 alphabet is free in the parent folder, [novel_folder_anum]
    returns for every starting integer in [0, 3844): the returned path is
    the parent folder joined with a two-character name of the alphabet,
    it did not exist before and is a directory afterwards, and nothing
    that existed is changed; if every other two-character name is taken,
    the returned name is the free one. *)
Theorem novel_folder_anum_width_2 (fuel : nat) (random_n : Z)
    (name path_to_parent_folder : string) (w : world) :
  (3843 ≤ fuel)%nat →
  (0 ≤ random_n < 3844)%Z →
  base62_name 2 name →
  (∀ q, q ∈ ancestors (dirprefix path_to_parent_folder) →
        ¬ is_file (w_fs w) q) →
  w_fs w !! osp_join path_to_parent_folder name = None →
  ∃ (name' : string) (w' : world),
    novel_folder_anum fuel random_n path_to_parent_folder 2 w
      = (Ok (osp_join path_to_parent_folder name'), w') ∧
    base62_name 2 name' ∧
    w_fs w !! osp_join path_to_parent_folder name' = None ∧
    w_fs w' !! osp_join path_to_parent_folder name' = Some Dir ∧
    grows (w_fs w) (w_fs w') ∧
    ((∀ n, base62_name 2 n → n ≠ name →
           is_Some (w_fs w !! osp_join path_to_parent_folder n)) →
     name' = name).
Proof.
  intros Hfuel Hn Hname Hanc Hfree.
  destruct (_to_base62_onto 2 name Hname) as (m & Hm & <-).
  unfold novel_folder_anum.
  change (Z.of_nat (String.length _ALPHANUM_CHARS) ^ Z.of_nat 2)%Z with 3844%Z.
  change (62 ^ Z.of_nat 2)%Z with 3844%Z in Hm.
  assert (Z.to_nat 3844 - 1 ≤ fuel)%nat as Hfuel' by lia.
  destruct (anum_loop_free_slot path_to_parent_folder 2 3844
              (le_S _ _ (le_n 1)) eq_refl w fuel random_n m)
    as (k & w' & Hrun & Hk & Hkfree & Hdir & Hgrows); try done.
  unfold slot in Hrun, Hkfree, Hdir.
  exists (_to_base62 k 2), w'. split; [done|].
  split; [apply _to_base62_name|]. split; [done|]. split; [done|].
  split; [done|]. intros Hall.
  destruct (decide (_to_base62 k 2 = _to_base62 m 2)) as [|Hne]; [done|].
  destruct (Hall _ (_to_base62_name k 2) Hne) as [v Hv]. congruence.
Qed.

Lemma foldr_insert_elem {A} (f : A → string) (l : list A)
    (m : gmap string node) (k : A) :
  k ∈ l → foldr (λ c m, <[f c := Dir]> m) m l !! f k = Some Dir.
Proof.
  induction l as [|c l IH]; [by intros ?%elem_of_nil|].
  intros [->|Hin]%elem_of_cons; simpl.
  - by rewrite lookup_insert_eq.
  - rewrite lookup_insert. case_decide; [done | by apply IH].
Qed.

Lemma foldr_insert_no_file {A} (f : A → string) (l : list A)
    (m : gmap string node) (q : string) :
  ¬ is_file m q → ¬ is_file (foldr (λ c m, <[f c := Dir]> m) m l) q.
Proof.
  intros Hm. induction l as [|c l IH]; simpl; [done|].
  intros [x Hx]. rewrite lookup_insert in Hx. case_decide; [done|].
  apply IH. by exists x.
Qed.

Lemma width_2_names_elem (n : string) : base62_name 2 n → n ∈ width_2_names.
Proof.
  intros [Hlen Hall].
  destruct n as [|a [|b [|c n]]]; simpl in Hlen; try done.
  simpl in Hall. apply Forall_cons in Hall as [Ha Hall].
  apply Forall_cons in Hall as [Hb _].
  apply list_elem_of_In, in_flat_map. exists a.
  split; [by apply list_elem_of_In|].
  apply (in_map (λ b, String a (String b ""))). by apply list_elem_of_In.
Qed.

Lemma w_all_but_07_ready :
  base62_name 2 "07" ∧
  (∀ q, q ∈ ancestors (dirprefix "p") → ¬ is_file (w_fs w_all_but_07) q) ∧
  w_fs w_all_but_07 !! osp_join "p" "07" = None ∧
  (∀ n, base62_name 2 n → n ≠ "07" →
        is_Some (w_fs w_all_but_07 !! osp_join "p" n)).
Proof.
  split.
  { split; [done|]. simpl. repeat constructor. }
  split.
  { intros q Hq. vm_compute in Hq. apply list_elem_of_singleton in Hq as ->.
    apply foldr_insert_no_file. intros [c Hc]. by vm_compute in Hc. }
  split; [vm_compute; reflexivity|].
  intros n Hn Hne. exists Dir.
  apply (foldr_insert_elem (osp_join "p")), list_elem_of_filter.
  split; [done | by apply width_2_names_elem].
Defined.

Lemma novel_folder_anum_width_2_witness :
  (∀ n, base62_name 2 n → n ≠ "07" →
        is_Some (w_fs w_all_but_07 !! osp_join "p" n)) ∧
  ∃ (name' : string) (w' : world),
    novel_folder_anum 3843 8 "p" 2 w_all_but_07
      = (Ok (osp_join "p" name'), w') ∧
    base62_name 2 name' ∧
    w_fs w_all_but_07 !! osp_join "p" name' = None ∧
    w_fs w' !! osp_join "p" name' = Some Dir ∧
    grows (w_fs w_all_but_07) (w_fs w') ∧
    ((∀ n, base62_name 2 n → n ≠ "07" →
           is_Some (w_fs w_all_but_07 !! osp_join "p" n)) →
     name' = "07").
Proof.
  split; [apply w_all_but_07_ready|].
  apply (novel_folder_anum_width_2 3843 8 "07" "p" w_all_but_07).
  - lia.
  - lia.
  - apply w_all_but_07_ready.
  - apply w_all_but_07_ready.
  - apply w_all_but_07_ready.
Defined.

(** From the start [8] the probing goes through the 3843 taken names,
    wraps around at [zz] and settles on [07]. *)
Example novel_folder_anum_all_but_one :
  (novel_folder_anum 3843 8 "p" 2 w_all_but_07).1 = Ok "p/07" ∧
  (novel_folder_anum 3842 8 "p" 2 w_all_but_07).1 = Raise OutOfFuel.
Proof. vm_compute. split; reflexivity. Qed.

(** ** [os.makedirs], read backwards *)

Lemma mkdir_chain_dirs qs : ∀ w w',
  mkdir_chain qs w = (Ok tt, w') → ∀ q, q ∈ qs → w_fs w' !! q = Some Dir.
Proof.
  induction qs as [|q0 rest IH]; intros w w' H q Hq;
    [by apply elem_of_nil in Hq|].
  simpl in H. munfold. destruct (w_fs w !! q0) as [[c|]|] eqn:E; simpl in H.
  - by destruct rest.
  - apply elem_of_cons in Hq as [->|Hin]; [|by eapply IH].
    pose proof (mkdir_chain_grows rest w) as [[Hg _] _].
    rewrite H in Hg. by apply Hg.
  - apply elem_of_cons in Hq as [->|Hin]; [|by eapply IH].
    match type of H with mkdir_chain rest ?w1 = _ =>
      pose proof (mkdir_chain_grows rest w1) as [[Hg _] _] end.
    rewrite H in Hg. apply Hg. simpl. by rewrite lookup_insert_eq.
Qed.

Lemma mkdir_chain_noop qs w :
  (∀ q, q ∈ qs → w_fs w !! q = Some Dir) → mkdir_chain qs w = (Ok tt, w).
Proof.
  induction qs as [|q0 rest IH]; intros Hall; [done|].
  simpl. munfold. rewrite (Hall q0) by left. apply IH.
  intros q Hq. apply Hall. by right.
Qed.

Lemma os_makedirs_dir p w w' :
  os_makedirs p w = (Ok tt, w') → w_fs w' !! p = Some Dir.
Proof.
  unfold os_makedirs. case_decide as Hd; [done|]. intros H.
  eapply mkdir_chain_dirs; [done|]. apply elem_of_app. right. by left.
Qed.

Lemma os_makedirs_again p w w' :
  os_makedirs p w = (Ok tt, w') → os_makedirs p w' = (Ok tt, w').
Proof.
  unfold os_makedirs. case_decide as Hd; [done|]. intros H.
  apply mkdir_chain_noop. by eapply mkdir_chain_dirs.
Qed.

Lemma os_makedirs_new p w w' k v :
  os_makedirs p w = (Ok tt, w') → w_fs w' !! k = Some v →
  w_fs w !! k = Some v ∨ (k ∈ (ancestors p ++ [p])%list ∧ v = Dir).
Proof.
  unfold os_makedirs. case_decide as Hd; [done|]. intros H Hk.
  apply (mkdir_chain_new (ancestors p ++ [p]) w). by rewrite H.
Qed.

Lemma os_makedirs_clock p w w' :
  os_makedirs p w = (Ok tt, w') → w_clock w' = w_clock w.
Proof.
  unfold os_makedirs. case_decide as Hd; [done|]. intros H.
  pose proof (mkdir_chain_grows (ancestors p ++ [p]) w) as [_ Hc].
  by rewrite H in Hc.
Qed.

(** ** [novel_start_of_folder], read backwards *)

Lemma loop_ok_free_seq parent semantic_id fuel w : ∀ prefix counter fp p w',
  novel_start_of_folder_loop fuel parent semantic_id prefix counter fp w
    = (Ok p, w') →
  w' = w ∧ w_fs w !! p = None.
Proof.
  induction fuel as [|fuel IH]; intros prefix counter fp p w'; simpl; munfold;
    destruct (fs_exists (w_fs w) fp) eqn:E; simpl; try done;
    try (intros [= <- <-]; split; [done | by apply fs_exists_false]).
  case_decide; apply IH.
Qed.

Lemma novel_start_of_folder_inv (fuel : nat)
    (path_to_parent_folder semantic_id : string) (w w' : world)
    (p : string) :
  novel_start_of_folder fuel path_to_parent_folder semantic_id w
    = (Ok p, w') →
  w_fs w !! p = None ∧ w_fs w' !! p = Some Dir ∧
  grows (w_fs w) (w_fs w') ∧ w_clock w' = w_clock w.
Proof.
  unfold novel_start_of_folder. intros H.
  apply bind_inv in H as (fp & w1 & Hloop & H).
  apply loop_ok_free_seq in Hloop as [-> Hfree].
  apply bind_inv in H as ([] & w2 & Hmk & H).
  injection H as <- <-.
  split; [done|]. split; [by eapply os_makedirs_dir|].
  split; [by apply os_makedirs_inv in Hmk as [? _] | by eapply os_makedirs_clock].
Qed.

(** X6: whenever [novel_start_of_folder] returns, the returned path did
    not exist before the call and is a directory after it, and the call
    has only added directories: every entry that existed is unchanged
    and no regular file has appeared. *)
Theorem novel_start_of_folder_returns_new (fuel : nat)
    (path_to_parent_folder semantic_id : string) (w w' : world)
    (p : string) :
  novel_start_of_folder fuel path_to_parent_folder semantic_id w
    = (Ok p, w') →
  w_fs w !! p = None ∧ w_fs w' !! p = Some Dir ∧
  grows (w_fs w) (w_fs w') ∧ w_clock w' = w_clock w.
Proof. apply novel_start_of_folder_inv. Qed.

Lemma novel_start_of_folder_returns_new_witness :
  w_fs w_empty_dir !! "p/999_run" = None ∧
  w_fs (novel_start_of_folder 0 "p" "run" w_empty_dir).2 !! "p/999_run"
    = Some Dir ∧
  grows (w_fs w_empty_dir)
    (w_fs (novel_start_of_folder 0 "p" "run" w_empty_dir).2) ∧
  w_clock (novel_start_of_folder 0 "p" "run" w_empty_dir).2
    = w_clock w_empty_dir.
Proof.
  apply (novel_start_of_folder_returns_new 0 "p" "run" w_empty_dir).
  vm_compute. reflexivity.
Defined.

(** ** [novel_folder] and [novel_filename] *)

Section named.
Context (path_to_parent_folder folder_basic_name : string).
Context (Hrel : starts_with_slash folder_basic_name = false).

Local Abbreviation D := (dirprefix path_to_parent_folder).
Local Abbreviation nm := (folder_name folder_basic_name).

Lemma folder_name_rel k c : starts_with_slash (nm k c) = false.
Proof.
  unfold folder_name. destruct folder_basic_name as [|a s]; [done|].
  by rewrite StrFacts.app_cons.
Qed.

Lemma folder_name_nonempty k c : nm k c ≠ "".
Proof.
  unfold folder_name. intros H.
  apply (f_equal String.length) in H.
  rewrite !StrFacts.length_app in H. simpl in H. lia.
Qed.

Lemma join_folder_name k c :
  osp_join path_to_parent_folder (nm k c) = D +:+ nm k c.
Proof. apply osp_join_rel, folder_name_rel. Qed.

Lemma length_join_folder_name k c :
  (k ≤ String.length (osp_join path_to_parent_folder (nm k c)))%nat.
Proof.
  rewrite join_folder_name. unfold folder_name.
  rewrite !StrFacts.length_app, length_hashes. lia.
Qed.

Lemma loop_ok_free_named fuel w : ∀ prefix counter fp p w',
  novel_folder_loop fuel path_to_parent_folder folder_basic_name prefix
    counter fp w = (Ok p, w') →
  w' = w ∧ w_fs w !! p = None.
Proof.
  induction fuel as [|fuel IH]; intros prefix counter fp p w'; simpl; munfold;
    destruct (fs_exists (w_fs w) fp) eqn:E; simpl; try done;
    try (intros [= <- <-]; split; [done | by apply fs_exists_false]).
  case_decide; apply IH.
Qed.

Lemma loop_terminates_named (w : world) (L : nat) :
  (∀ p, is_Some (w_fs w !! p) → (String.length p ≤ L)%nat) →
  ∀ (fuel k : nat) (c : Z) (fp : string),
    (101 ≤ c ≤ 999)%Z →
    (k ≤ L + 2)%nat →
    (k = (L + 2)%nat → w_fs w !! fp = None) →
    (∃ name, name ≠ "" ∧ fp = D +:+ name) →
    (899 * (Z.of_nat L + 2 - Z.of_nat k) + (c - 100) ≤ Z.of_nat fuel)%Z →
    ∃ p, novel_folder_loop fuel path_to_parent_folder folder_basic_name
           (hashes k) c fp w = (Ok p, w) ∧
         w_fs w !! p = None ∧ ∃ name, name ≠ "" ∧ p = D +:+ name.
Proof.
  intros HL. induction fuel as [|fuel IH]; intros k c fp Hc Hk Hfree Hfp Hfuel.
  - assert (k = (L + 2)%nat) as Hk' by lia.
    simpl. munfold. apply Hfree in Hk'.
    apply fs_exists_false in Hk' as E. rewrite E. simpl. eauto.
  - simpl. munfold.
    destruct (fs_exists (w_fs w) fp) eqn:E; simpl;
      [|apply fs_exists_false in E; eauto].
    assert (k < L + 2)%nat as Hk'.
    { destruct (decide (k = (L + 2)%nat)) as [Heq|]; [|lia].
      apply Hfree in Heq. apply fs_exists_false in Heq. congruence. }
    fold (nm k (c - 1)).
    assert (∃ name, name ≠ "" ∧
              osp_join path_to_parent_folder (nm k (c - 1)) = D +:+ name)
      as Hnew.
    { exists (nm k (c - 1)).
      split; [apply folder_name_nonempty | apply join_folder_name]. }
    case_decide as Hdec.
    + rewrite hashes_snoc. apply IH; [lia | lia | | done | lia].
      intros Hk2.
      destruct (w_fs w !! osp_join path_to_parent_folder (nm k (c - 1)))
        eqn:Hlook; [|done].
      pose proof (HL _ (mk_is_Some _ _ Hlook)) as Hlen.
      pose proof (length_join_folder_name k (c - 1)). lia.
    + apply IH; [lia | lia | lia | done | lia].
Qed.

Lemma loop_mono_named fuel fuel' prefix counter folder_path w p w' :
  novel_folder_loop fuel path_to_parent_folder folder_basic_name prefix
    counter folder_path w = (Ok p, w') →
  (fuel ≤ fuel')%nat →
  novel_folder_loop fuel' path_to_parent_folder folder_basic_name prefix
    counter folder_path w = (Ok p, w').
Proof.
  revert fuel' prefix counter folder_path.
  induction fuel as [|fuel IH]; intros fuel' prefix counter folder_path;
    destruct fuel' as [|fuel']; simpl; munfold;
    destruct (fs_exists (w_fs w) folder_path); simpl; try done; try lia.
  intros H Hle. case_decide; (apply IH; [done | lia]).
Qed.

Lemma novel_folder_call w :
  seq_ready path_to_parent_folder (w_fs w) →
  ∃ (fuel0 : nat) p w',
    (∀ fuel, (fuel0 ≤ fuel)%nat →
       novel_folder fuel path_to_parent_folder folder_basic_name w
       = (Ok p, w')) ∧
    w_fs w !! p = None ∧ w_fs w' !! p = Some Dir ∧
    grows (w_fs w) (w_fs w').
Proof.
  intros [Hanc Hunder]. destruct (fs_length_bound (w_fs w)) as [L HL].
  set (fuel0 := Z.to_nat (899 * (Z.of_nat L + 2) + 899)).
  destruct (loop_terminates_named w L HL fuel0 0 999
              (osp_join path_to_parent_folder (nm 0 999)))
    as (p & Hp & Hfree & name & Hname & ->).
  { lia. } { lia. } { lia. }
  { exists (nm 0 999).
    split; [apply folder_name_nonempty | apply join_folder_name]. }
  { unfold fuel0. lia. }
  destruct (os_makedirs_under D name w Hname Hanc Hunder)
    as (w' & Hmk & Hdir & Hg & _).
  exists fuel0, (D +:+ name), w'. split; [|done].
  intros fuel Hfuel. unfold novel_folder.
  apply (loop_mono_named _ fuel) in Hp; [|done].
  unfold folder_name in Hp. simpl in Hp.
  unfold bind at 1. rewrite Hp.
  unfold bind, ret. by rewrite Hmk.
Qed.

End named.

(** X7: [novel_folder] on a parent folder without regular files on the
    way to it or below it, for a relative base name: given enough fuel
    for the loop the call returns; the returned path did not exist
    before, is a directory afterwards, and only directories were
    added. *)
Theorem novel_folder_fresh (path_to_parent_folder folder_basic_name : string)
    (w : world) :
  starts_with_slash folder_basic_name = false →
  seq_ready path_to_parent_folder (w_fs w) →
  ∃ (fuel0 : nat) (p : string) (w' : world),
    (∀ fuel, (fuel0 ≤ fuel)%nat →
       novel_folder fuel path_to_parent_folder folder_basic_name w
       = (Ok p, w')) ∧
    w_fs w !! p = None ∧ w_fs w' !! p = Some Dir ∧
    grows (w_fs w) (w_fs w').
Proof. intros Hrel Hr. by apply novel_folder_call. Qed.

Lemma w_empty_dir_seq_ready : seq_ready "p" (w_fs w_empty_dir).
Proof.
  split; [apply w_empty_dir_ready|].
  intros r [c Hc]. by rewrite (proj2 w_empty_dir_ready) in Hc.
Defined.

Lemma novel_folder_fresh_witness :
  ∃ (fuel0 : nat) (p : string) (w' : world),
    (∀ fuel, (fuel0 ≤ fuel)%nat →
       novel_folder fuel "p" "run" w_empty_dir = (Ok p, w')) ∧
    w_fs w_empty_dir !! p = None ∧ w_fs w' !! p = Some Dir ∧
    grows (w_fs w_empty_dir) (w_fs w').
Proof.
  apply (novel_folder_fresh "p" "run" w_empty_dir);
    [reflexivity | apply w_empty_dir_seq_ready].
Defined.

(** X8: [novel_filename] does not make a file name: whenever it returns,
    the returned path is a directory that the call has created, so
    writing a file at that path fails with [IsADirectoryError]; and the
    [suffix] argument has no influence on the result. *)
Theorem novel_filename_is_directory (fuel : nat)
    (path_to_parent_folder filename suffix : string) (w w' : world)
    (p : string) :
  novel_filename fuel path_to_parent_folder filename suffix w = (Ok p, w') →
  w_fs w !! p = None ∧ w_fs w' !! p = Some Dir ∧
  (∀ c, open_write p c w' = (Raise IsADirectoryError, w')) ∧
  (∀ suffix',
     novel_filename fuel path_to_parent_folder filename suffix' w
     = (Ok p, w')).
Proof.
  intros H. split; [|split; [|split]]; [| | |done].
  - unfold novel_filename in H. apply bind_inv in H as (fp & w1 & Hloop & H).
    apply loop_ok_free_named in Hloop as [-> Hfree].
    apply bind_inv in H as ([] & w2 & Hmk & H). by injection H as <- <-.
  - unfold novel_filename in H. apply bind_inv in H as (fp & w1 & Hloop & H).
    apply bind_inv in H as ([] & w2 & Hmk & H). injection H as <- <-.
    by eapply os_makedirs_dir.
  - assert (w_fs w' !! p = Some Dir) as Hdir.
    { unfold novel_filename in H.
      apply bind_inv in H as (fp & w1 & Hloop & H).
      apply bind_inv in H as ([] & w2 & Hmk & H). injection H as <- <-.
      by eapply os_makedirs_dir. }
    intros c. unfold open_write. munfold. by rewrite Hdir.
Qed.

Lemma novel_filename_is_directory_witness :
  w_fs w_empty_dir !! "p/log_999" = None ∧
  w_fs (novel_filename 0 "p" "log" ".txt" w_empty_dir).2 !! "p/log_999"
    = Some Dir ∧
  (∀ c, open_write "p/log_999" c
          (novel_filename 0 "p" "log" ".txt" w_empty_dir).2
        = (Raise IsADirectoryError,
           (novel_filename 0 "p" "log" ".txt" w_empty_dir).2)) ∧
  (∀ suffix',
     novel_filename 0 "p" "log" suffix' w_empty_dir
     = (Ok "p/log_999", (novel_filename 0 "p" "log" ".txt" w_empty_dir).2)).
Proof.
  apply (novel_filename_is_directory 0 "p" "log" ".txt" w_empty_dir).
  vm_compute. reflexivity.
Defined.

(** ** [novel_filename_anum] *)

Lemma length_dirprefix a : (String.length a ≤ String.length (dirprefix a))%nat.
Proof.
  unfold dirprefix. repeat case_match; rewrite ?StrFacts.length_app; lia.
Qed.

Section file_anum.
Context (ptpf suffix : string) (digit_num : nat) (max_num : Z).
Context (Hptpf : ptpf ≠ "").
Context (Hdigits : (0 < digit_num)%nat) (Hmax : (0 < max_num)%Z).

Local Abbreviation fsl := (file_slot ptpf suffix digit_num).
Local Abbreviation chain := (ancestors ptpf ++ [ptpf])%list.

Lemma file_slot_eq n :
  fsl n = dirprefix ptpf +:+ _to_base62 n digit_num +:+ suffix.
Proof.
  unfold file_slot.
  by apply osp_join_rel, head_ok_not_slash, head_ok_app, _to_base62_head_ok.
Qed.

Lemma file_slot_not_chain n : fsl n ∉ chain.
Proof.
  intros Hin.
  assert (String.length (fsl n) ≤ String.length ptpf)%nat as Hlen.
  { apply elem_of_app in Hin as [Hin| ->%list_elem_of_singleton]; [|lia].
    apply ancestors_from_length in Hin. simpl in Hin. lia. }
  rewrite file_slot_eq, !StrFacts.length_app, length__to_base62 in Hlen.
  pose proof (length_dirprefix ptpf). lia.
Qed.

Lemma path_str_id : path_str ptpf = ptpf.
Proof. unfold path_str. by rewrite decide_False. Qed.

(** Linear probing from [n] stops at the first free name; in any world
    in which the names seen as taken are still taken and the name found
    is still free, it stops at the same name. *)
Lemma file_anum_loop_spec (w : world) :
  (∀ q, q ∈ chain → ¬ is_file (w_fs w) q) →
  ∀ (fuel : nat) (n : Z),
    (0 ≤ n < max_num)%Z →
    (∃ j : nat, (j ≤ fuel)%nat ∧
       w_fs w !! fsl ((n + Z.of_nat j) `mod` max_num) = None) →
    ∃ k w', novel_filename_anum_loop fuel ptpf suffix digit_num max_num n w
              = (Ok (fsl k), w') ∧
            (0 ≤ k < max_num)%Z ∧
            w_fs w !! fsl k = None ∧
            os_makedirs ptpf w = (Ok tt, w') ∧
            ∀ w2, (∀ q, is_Some (w_fs w !! q) → is_Some (w_fs w2 !! q)) →
                  w_fs w2 !! fsl k = None →
                  novel_filename_anum_loop fuel ptpf suffix digit_num
                    max_num n w2
                  = (os_makedirs ptpf ;;; ret (fsl k)) w2.
Proof.
  intros Hchain.
  assert (∃ w', os_makedirs ptpf w = (Ok tt, w')) as [w' Hmk].
  { destruct (os_makedirs_ok ptpf w Hptpf) as (w' & Hmk & _); [| |by eauto].
    - intros q Hq. apply Hchain, elem_of_app. by left.
    - apply Hchain, elem_of_app. right. by left. }
  induction fuel as [|fuel IH]; intros n Hn (j & Hj & Hfree).
  - assert (j = 0%nat) as -> by lia.
    rewrite Z.add_0_r, Z.mod_small in Hfree by done.
    exists n, w'. simpl. rewrite path_str_id. fold (fsl n). munfold.
    apply fs_exists_false in Hfree as E. rewrite E. simpl. rewrite Hmk.
    split; [done|]. split; [done|]. split; [done|]. split; [done|].
    intros w2 _ Hfree2. apply fs_exists_false in Hfree2. by rewrite Hfree2.
  - simpl. rewrite path_str_id. fold (fsl n). munfold.
    destruct (fs_exists (w_fs w) (fsl n)) eqn:E; simpl.
    + destruct j as [|j].
      { rewrite Z.add_0_r, Z.mod_small in Hfree by done.
        apply fs_exists_false in Hfree. congruence. }
      destruct (IH ((n + 1) `mod` max_num)%Z) as (k & w1 & Hrun & Hk & Hkf & Hmk1 & Hsame).
      { by apply Z.mod_pos_bound. }
      { exists j. split; [lia|].
        rewrite Z.add_mod_idemp_l by lia.
        by replace (n + 1 + Z.of_nat j)%Z with (n + Z.of_nat (S j))%Z by lia. }
      exists k, w1. split; [done|]. split; [done|]. split; [done|].
      split; [done|]. intros w2 Hkeep Hfree2.
      assert (fs_exists (w_fs w2) (fsl n) = true) as ->.
      { apply fs_exists_true, Hkeep. by apply fs_exists_true. }
      simpl. by apply Hsame.
    + exists n, w'. rewrite Hmk.
      apply fs_exists_false in E as Hfree'.
      split; [done|]. split; [done|]. split; [done|]. split; [done|].
      intros w2 _ Hfree2. apply fs_exists_false in Hfree2. by rewrite Hfree2.
Qed.

End file_anum.

(** X9: [novel_filename_anum] picks a name without reserving it.  At a
    width [digit_num ≥ 1], for a named parent folder with no regular file
    on the way to it, and when some name of that width is free: with fuel
    for one full round the call returns a path that was free; afterwards
    the parent folder is a directory, the returned path still does not
    exist, and a second call with the same random start returns the same
    path again. *)
Theorem novel_filename_anum_reserves_nothing (fuel : nat) (random_n m : Z)
    (path_to_parent_folder suffix : string) (digit_num : nat) (w : world) :
  path_to_parent_folder ≠ "" →
  (0 < digit_num)%nat →
  (Z.to_nat (62 ^ Z.of_nat digit_num) - 1 ≤ fuel)%nat →
  (0 ≤ random_n < 62 ^ Z.of_nat digit_num)%Z →
  (0 ≤ m < 62 ^ Z.of_nat digit_num)%Z →
  (∀ q, q ∈ (ancestors path_to_parent_folder ++ [path_to_parent_folder])%list →
        ¬ is_file (w_fs w) q) →
  w_fs w !! file_slot path_to_parent_folder suffix digit_num m = None →
  ∃ (k : Z) (w' : world),
    novel_filename_anum fuel random_n path_to_parent_folder suffix digit_num w
      = (Ok (file_slot path_to_parent_folder suffix digit_num k), w') ∧
    (0 ≤ k < 62 ^ Z.of_nat digit_num)%Z ∧
    w_fs w !! file_slot path_to_parent_folder suffix digit_num k = None ∧
    w_fs w' !! file_slot path_to_parent_folder suffix digit_num k = None ∧
    w_fs w' !! path_to_parent_folder = Some Dir ∧
    grows (w_fs w) (w_fs w') ∧
    novel_filename_anum fuel random_n path_to_parent_folder suffix digit_num w'
      = (Ok (file_slot path_to_parent_folder suffix digit_num k), w').
Proof.
  intros Hp Hd Hfuel Hn Hm Hchain Hfree. unfold novel_filename_anum.
  fold (max_num_of digit_num). rewrite max_num_of_eq.
  assert (0 < 62 ^ Z.of_nat digit_num)%Z as Hmax
    by (apply Z.pow_pos_nonneg; lia).
  destruct (file_anum_loop_spec path_to_parent_folder suffix digit_num
              (62 ^ Z.of_nat digit_num) Hp Hd Hmax w Hchain fuel random_n Hn)
    as (k & w' & Hrun & Hk & Hkfree & Hmk & Hsame).
  { exists (Z.to_nat ((m - random_n) `mod` 62 ^ Z.of_nat digit_num)).
    pose proof (Z.mod_pos_bound (m - random_n) _ Hmax).
    split; [lia|]. rewrite Z2Nat.id by lia.
    rewrite Z.add_mod_idemp_r by lia.
    replace (random_n + (m - random_n))%Z with m by lia.
    by rewrite Z.mod_small. }
  pose proof (os_makedirs_inv _ _ _ Hmk) as [Hg _].
  assert (w_fs w' !! file_slot path_to_parent_folder suffix digit_num k = None)
    as Hkfree'.
  { destruct (w_fs w' !! file_slot _ _ _ k) as [v|] eqn:E; [|done].
    destruct (os_makedirs_new _ _ _ _ _ Hmk E) as [Hold|[Hin _]].
    - congruence.
    - by apply file_slot_not_chain in Hin. }
  exists k, w'. split; [done|]. split; [done|]. split; [done|].
  split; [done|]. split; [by eapply os_makedirs_dir|]. split; [done|].
  rewrite Hsame; [|intros q [v Hv]; exists v; by apply Hg|done].
  unfold bind, ret. by rewrite (os_makedirs_again _ _ _ Hmk).
Qed.

Lemma novel_filename_anum_reserves_nothing_witness :
  ∃ (k : Z) (w' : world),
    novel_filename_anum 61 40 "p" ".txt" 1 w_empty_dir
      = (Ok (file_slot "p" ".txt" 1 k), w') ∧
    (0 ≤ k < 62 ^ Z.of_nat 1)%Z ∧
    w_fs w_empty_dir !! file_slot "p" ".txt" 1 k = None ∧
    w_fs w' !! file_slot "p" ".txt" 1 k = None ∧
    w_fs w' !! "p" = Some Dir ∧
    grows (w_fs w_empty_dir) (w_fs w') ∧
    novel_filename_anum 61 40 "p" ".txt" 1 w'
      = (Ok (file_slot "p" ".txt" 1 k), w').
Proof.
  apply (novel_filename_anum_reserves_nothing 61 40 3 "p" ".txt" 1
           w_empty_dir).
  - done.
  - lia.
  - simpl. lia.
  - simpl. lia.
  - simpl. lia.
  - intros q Hq [c Hc]. vm_compute in Hq.
    apply list_elem_of_singleton in Hq as ->. by vm_compute in Hc.
  - vm_compute. reflexivity.
Defined.

(** ** The document writers and readers *)

Lemma writer_loop_eq fuel base suffix : ∀ add_id file_path w,
  writer_no_overwrite_loop fuel base suffix add_id file_path w
  = get_no_overwrite_path_loop fuel base suffix add_id file_path w.
Proof.
  induction fuel as [|fuel IH]; intros add_id file_path w; simpl; munfold;
    destruct (fs_exists (w_fs w) file_path); simpl; auto.
Qed.

Lemma write_document_plain_inv fuel c base suffix w w' :
  write_document fuel c base suffix false w = (Ok tt, w') →
  w_fs w' !! (base +:+ suffix) = Some (File c) ∧
  (∀ k v, k ≠ base +:+ suffix →
          w_fs w !! k = Some v → w_fs w' !! k = Some v) ∧
  w_clock w' = w_clock w.
Proof.
  unfold write_document. simpl.
  intros H. apply bind_inv in H as (ex & w1 & Hex & H).
  unfold osp_exists, gets in Hex. injection Hex as <- <-.
  apply bind_inv in H as (fp & w1 & Hfp & H).
  unfold ret in Hfp. injection Hfp as <- <-.
  apply bind_inv in H as ([] & w2 & Hmk & H).
  pose proof (os_makedirs_clock _ _ _ Hmk) as Hc.
  apply os_makedirs_inv in Hmk as [[Hg _] _].
  apply open_write_inv in H as ->. simpl.
  split; [by rewrite lookup_insert_eq|]. split; [|done].
  intros k v Hk Hv. rewrite lookup_insert_ne by done. by apply Hg.
Qed.

(** X10: the no-overwrite mode of [write_yaml] and [write_json] (their
    common body, for the document [doc]).  Whenever such a call returns,
    the document has been written at the first free candidate path, which
    is the path [get_no_overwrite_path] returns for the same arguments in
    the state before the call; and every entry that existed before the
    call is unchanged. *)
Theorem write_document_no_overwrite (fuel : nat) (doc : content)
    (file_path_no_suffix suffix : string) (w w' : world) :
  write_document fuel doc file_path_no_suffix suffix true w = (Ok tt, w') →
  ∃ k : Z, (0 ≤ k)%Z ∧
    w_fs w !! candidate file_path_no_suffix suffix k = None ∧
    (∀ j, (0 ≤ j < k)%Z →
          is_Some (w_fs w !! candidate file_path_no_suffix suffix j)) ∧
    get_no_overwrite_path fuel file_path_no_suffix suffix true false w
      = (Ok (candidate file_path_no_suffix suffix k,
             file_path_no_suffix +:+ suffix), w) ∧
    w_fs w' !! candidate file_path_no_suffix suffix k = Some (File doc) ∧
    (∀ q v, w_fs w !! q = Some v → w_fs w' !! q = Some v).
Proof.
  unfold write_document. simpl.
  intros H. apply bind_inv in H as (ex & w1 & Hex & H).
  unfold osp_exists, gets in Hex. injection Hex as <- <-.
  apply bind_inv in H as (fp & w1 & Hfp & H).
  assert (w1 = w ∧ ∃ k : Z, (0 ≤ k)%Z ∧
            fp = candidate file_path_no_suffix suffix k ∧
            w_fs w !! fp = None ∧
            (∀ j, (0 ≤ j < k)%Z →
               is_Some (w_fs w !! candidate file_path_no_suffix suffix j)) ∧
            get_no_overwrite_path fuel file_path_no_suffix suffix true false w
            = (Ok (fp, file_path_no_suffix +:+ suffix), w))
    as (-> & k & Hk & -> & Hfree & Hall & Hgnop).
  { unfold get_no_overwrite_path. munfold.
    destruct (fs_exists (w_fs w) (file_path_no_suffix +:+ suffix)) eqn:E;
      simpl in *.
    - rewrite writer_loop_eq in Hfp.
      pose proof (loop_frame file_path_no_suffix suffix fuel 1
                    (probe file_path_no_suffix suffix 1) w) as Hfr.
      unfold probe in Hfr at 1. rewrite Hfp in Hfr. simpl in Hfr. subst w1.
      split; [done|].
      pose proof (loop_ok_free _ _ _ _ _ _ _ _ Hfp) as Hfree.
      rewrite Hfp. simpl.
      apply (loop_first_free file_path_no_suffix suffix fuel w 1%Z) in Hfp
        as (j & Hj & -> & Hall).
      exists j. unfold candidate. rewrite decide_False by lia.
      split; [lia|]. split; [done|]. split; [done|]. split; [|done].
      intros i Hi. case_decide as Hi0; [by apply fs_exists_true|].
      apply Hall. lia.
    - injection Hfp as <- <-. split; [done|]. exists 0%Z.
      unfold candidate. simpl. split; [lia|]. split; [done|].
      split; [by apply fs_exists_false|]. split; [|done].
      intros i Hi. lia. }
  apply bind_inv in H as ([] & w2 & Hmk & H).
  apply os_makedirs_inv in Hmk as [[Hg _] _].
  apply open_write_inv in H as ->. simpl.
  exists k. split; [done|]. split; [done|]. split; [done|].
  split; [done|]. split; [by rewrite lookup_insert_eq|].
  intros q v Hq. rewrite lookup_insert_ne; [by apply Hg | congruence].
Qed.

Lemma write_document_no_overwrite_witness :
  ∃ k : Z, (0 ≤ k)%Z ∧
    w_fs w_one_file !! candidate "p/ab" ".txt" k = None ∧
    (∀ j, (0 ≤ j < k)%Z →
          is_Some (w_fs w_one_file !! candidate "p/ab" ".txt" j)) ∧
    get_no_overwrite_path 1 "p/ab" ".txt" true false w_one_file
      = (Ok (candidate "p/ab" ".txt" k, "p/ab" +:+ ".txt"), w_one_file) ∧
    w_fs (write_yaml 1 [("a", YInt 1)] "p/ab" ".txt" true w_one_file).2
      !! candidate "p/ab" ".txt" k = Some (File (CYaml [("a", YInt 1)])) ∧
    (∀ q v, w_fs w_one_file !! q = Some v →
            w_fs (write_yaml 1 [("a", YInt 1)] "p/ab" ".txt" true
                    w_one_file).2 !! q = Some v).
Proof.
  apply (write_document_no_overwrite 1 (CYaml [("a", YInt 1)]) "p/ab" ".txt"
           w_one_file).
  vm_compute. reflexivity.
Defined.

Section readers_facts.
Context (yaml_safe_load : content → res (list (string * yval))).
Context (orjson_loads : content → option (gmap string checkpoint_info)).

Lemma get_yaml_written path d w :
  w_fs w !! path = Some (File (CYaml d)) →
  get_yaml yaml_safe_load path w = (Ok d, w).
Proof.
  intros H. unfold get_yaml, open_read. munfold.
  unfold fs_exists. by rewrite !H.
Qed.

Lemma get_json_written path db w :
  w_fs w !! path = Some (File (CJson db)) →
  get_json orjson_loads path w = (Ok db, w).
Proof.
  intros H. unfold get_json, open_read. munfold.
  unfold fs_exists. by rewrite !H.
Qed.

End readers_facts.

(** X12: a missing file and an empty file both read as the empty
    dictionary, with [get_yaml] and with [get_json], and the world is
    unchanged. *)
Theorem get_missing_or_empty
    (yaml_safe_load : content → res (list (string * yval)))
    (orjson_loads : content → option (gmap string checkpoint_info))
    (path : string) (w : world) :
  w_fs w !! path = None ∨ w_fs w !! path = Some (File (CBytes "")) →
  get_yaml yaml_safe_load path w = (Ok [], w) ∧
  get_json orjson_loads path w = (Ok ∅, w).
Proof.
  intros [H|H]; unfold get_yaml, get_json, open_read; munfold;
    unfold fs_exists; by rewrite !H.
Qed.

Lemma get_missing_or_empty_witness :
  get_yaml (λ _, Raise ValueError) "p/main.yaml" w_empty_dir
    = (Ok [], w_empty_dir) ∧
  get_json (λ _, None) "p/main.yaml" w_empty_dir = (Ok ∅, w_empty_dir).
Proof.
  apply (get_missing_or_empty (λ _, Raise ValueError) (λ _, None)
           "p/main.yaml" w_empty_dir).
  left. vm_compute. reflexivity.
Defined.

(** ** The monad *)

Lemma bind_assoc {St A B C} (m : M St A) (k : A → M St B) (k' : B → M St C) s :
  bind (bind m k) k' s = bind m (λ x, bind (k x) k') s.
Proof. unfold bind. by destruct (m s) as [[a|e] s1]. Qed.

Lemma bind_ext {St A B} (m : M St A) (f g : A → M St B) s :
  (∀ a s1, f a s1 = g a s1) → bind m f s = bind m g s.
Proof. intros H. unfold bind. by destruct (m s) as [[a|e] s1]. Qed.

(** ** [singleton_storage_fns.setup] *)

Lemma setup_eq p w : singleton_storage_fns.setup p w = setup_steps p w.
Proof.
  unfold singleton_storage_fns.setup, setup_steps, write_if_missing,
    write_yaml, write_json, SetupNames.MAIN_YAML,
    SetupNames.SHARED_STORAGE_YAML, SetupNames.FILE_TREE_YAML,
    SetupNames.TINY_DB_JSON, SetupNames.OLD_YAMLS_FOLDER,
    SetupNames.FILES_FOLDER.
  do 4 (rewrite bind_assoc; apply bind_ext; intros ? ?;
        apply bind_ext; intros ? ?).
  done.
Qed.

Lemma write_if_missing_inv c path w w' :
  write_if_missing c path w = (Ok tt, w') →
  (∀ k v, w_fs w !! k = Some v → w_fs w' !! k = Some v) ∧
  is_Some (w_fs w' !! path) ∧
  (w_fs w !! path = None → w_fs w' !! path = Some (File c)) ∧
  w_clock w' = w_clock w.
Proof.
  unfold write_if_missing. intros H.
  apply bind_inv in H as (ex & w1 & Hex & H).
  unfold osp_exists, gets in Hex. injection Hex as <- <-.
  destruct (fs_exists (w_fs w) path) eqn:E; simpl in H.
  - injection H as <-. split; [done|].
    split; [by apply fs_exists_true|]. split; [|done].
    apply fs_exists_true in E as [v Hv]. congruence.
  - apply fs_exists_false in E.
    apply write_document_plain_inv in H as (Hp & Hkeep & Hc).
    rewrite StrFacts.app_nil_r in Hp, Hkeep.
    split; [|split; [by eexists | done]].
    intros k v Hk. apply Hkeep; [congruence | done].
Qed.

Lemma write_if_missing_present c path w :
  is_Some (w_fs w !! path) → write_if_missing c path w = (Ok tt, w).
Proof.
  intros H%fs_exists_true. unfold write_if_missing. munfold. by rewrite H.
Qed.

Lemma setup_inv (path_to_novel_storage_folder : string)
    (w w' : world) (r : string) :
  singleton_storage_fns.setup path_to_novel_storage_folder w = (Ok r, w') →
  r = path_to_novel_storage_folder ∧
  (∀ k v, w_fs w !! k = Some v → w_fs w' !! k = Some v) ∧
  (∀ name, name ∈ document_names →
     is_Some (w_fs w' !! osp_join path_to_novel_storage_folder name)) ∧
  w_fs w' !! osp_join path_to_novel_storage_folder "old_yamls" = Some Dir ∧
  w_fs w' !! osp_join path_to_novel_storage_folder "files" = Some Dir ∧
  singleton_storage_fns.setup path_to_novel_storage_folder w' = (Ok r, w').
Proof.
  rewrite !setup_eq. unfold setup_steps. intros H.
  apply bind_inv in H as ([] & w1 & H1 & H).
  apply bind_inv in H as ([] & w2 & H2 & H).
  apply bind_inv in H as ([] & w3 & H3 & H).
  apply bind_inv in H as ([] & w4 & H4 & H).
  apply bind_inv in H as ([] & w5 & H5 & H).
  apply bind_inv in H as ([] & w6 & H6 & H).
  injection H as <- <-.
  apply write_if_missing_inv in H1 as (K1 & E1 & _).
  apply write_if_missing_inv in H2 as (K2 & E2 & _).
  apply write_if_missing_inv in H3 as (K3 & E3 & _).
  apply write_if_missing_inv in H4 as (K4 & E4 & _).
  pose proof (os_makedirs_inv _ _ _ H5) as [[K5 _] _].
  pose proof (os_makedirs_inv _ _ _ H6) as [[K6 _] _].
  assert (∀ k, is_Some (w_fs w4 !! k) → is_Some (w_fs w6 !! k)) as K46.
  { intros k [v Hv]. exists v. by apply K6, K5. }
  assert (∀ k, is_Some (w_fs w3 !! k) → is_Some (w_fs w6 !! k)) as K36.
  { intros k [v Hv]. apply K46. exists v. by apply K4. }
  assert (∀ k, is_Some (w_fs w2 !! k) → is_Some (w_fs w6 !! k)) as K26.
  { intros k [v Hv]. apply K36. exists v. by apply K3. }
  assert (∀ k, is_Some (w_fs w1 !! k) → is_Some (w_fs w6 !! k)) as K16.
  { intros k [v Hv]. apply K26. exists v. by apply K2. }
  split; [done|]. split; [by eauto 10|]. split.
  { intros name Hin. unfold document_names in Hin.
    rewrite !elem_of_cons in Hin.
    destruct Hin as [->|[->|[->|[->|Hin]]]]; [by auto..|].
    by apply elem_of_nil in Hin. }
  split; [by apply K6; eapply os_makedirs_dir|].
  split; [by eapply os_makedirs_dir|].
  rewrite setup_eq. unfold setup_steps.
  unfold bind at 1. rewrite write_if_missing_present by auto.
  unfold bind at 1. rewrite write_if_missing_present by auto.
  unfold bind at 1. rewrite write_if_missing_present by auto.
  unfold bind at 1. rewrite write_if_missing_present by auto.
  assert (os_makedirs
            (osp_join path_to_novel_storage_folder "old_yamls") w6
          = (Ok tt, w6)) as Hx.
  { revert H5. unfold os_makedirs. case_decide as Hd; [done|]. intros H5.
    apply mkdir_chain_noop. intros q Hq. apply K6.
    by eapply mkdir_chain_dirs. }
  unfold bind at 1. rewrite Hx.
  unfold bind at 1. rewrite (os_makedirs_again _ _ _ H6). done.
Qed.

(** X13: [setup] only fills in what is missing.  Whenever it returns, it
    returns its argument; every entry that existed before is unchanged;
    the four documents exist and [old_yamls] and [files] are
    directories; and running it again changes nothing. *)
Theorem setup_idempotent (path_to_novel_storage_folder : string)
    (w w' : world) (r : string) :
  singleton_storage_fns.setup path_to_novel_storage_folder w = (Ok r, w') →
  r = path_to_novel_storage_folder ∧
  (∀ k v, w_fs w !! k = Some v → w_fs w' !! k = Some v) ∧
  (∀ name, name ∈ document_names →
     is_Some (w_fs w' !! osp_join path_to_novel_storage_folder name)) ∧
  w_fs w' !! osp_join path_to_novel_storage_folder "old_yamls" = Some Dir ∧
  w_fs w' !! osp_join path_to_novel_storage_folder "files" = Some Dir ∧
  singleton_storage_fns.setup path_to_novel_storage_folder w' = (Ok r, w').
Proof. apply setup_inv. Qed.

Lemma setup_idempotent_witness :
  "p" = "p" ∧
  (∀ k v, w_fs w_empty_dir !! k = Some v →
          w_fs (singleton_storage_fns.setup "p" w_empty_dir).2 !! k = Some v) ∧
  (∀ name, name ∈ document_names →
     is_Some (w_fs (singleton_storage_fns.setup "p" w_empty_dir).2
                !! osp_join "p" name)) ∧
  w_fs (singleton_storage_fns.setup "p" w_empty_dir).2
    !! osp_join "p" "old_yamls" = Some Dir ∧
  w_fs (singleton_storage_fns.setup "p" w_empty_dir).2
    !! osp_join "p" "files" = Some Dir ∧
  singleton_storage_fns.setup "p"
    (singleton_storage_fns.setup "p" w_empty_dir).2
  = (Ok "p", (singleton_storage_fns.setup "p" w_empty_dir).2).
Proof.
  apply (setup_idempotent "p" w_empty_dir).
  vm_compute. reflexivity.
Defined.

(** ** [singleton_storage_fns.main] *)

(** X14: [main] whenever it returns.  No existing entry is changed.  For
    a full path the path itself is returned, and if something exists at
    it (a folder, set up or not, or even a regular file) nothing at all
    is done.  For a container a folder is returned that did not exist
    before and is a directory afterwards.  Whenever a folder was made,
    it holds the four documents and the two sub-folders afterwards. *)
Theorem main_returns (fuel : nat) (path_to_storage : string)
    (path_is_only_to_container : bool) (semantic_id_of_proc : string)
    (w w' : world) (r : string) :
  singleton_storage_fns.main fuel path_to_storage path_is_only_to_container
    semantic_id_of_proc w = (Ok r, w') →
  (∀ k v, w_fs w !! k = Some v → w_fs w' !! k = Some v) ∧
  (path_is_only_to_container = false →
     r = path_to_storage ∧
     (is_Some (w_fs w !! path_str path_to_storage) → w' = w)) ∧
  (path_is_only_to_container = true →
     w_fs w !! r = None ∧ w_fs w' !! r = Some Dir) ∧
  (path_is_only_to_container = true ∨
   w_fs w !! path_str path_to_storage = None →
     (∀ name, name ∈ document_names → is_Some (w_fs w' !! osp_join r name)) ∧
     w_fs w' !! osp_join r "old_yamls" = Some Dir ∧
     w_fs w' !! osp_join r "files" = Some Dir).
Proof.
  unfold singleton_storage_fns.main.
  destruct path_is_only_to_container; simpl; intros H.
  - apply bind_inv in H as (ex & w0 & Hex & H).
    unfold osp_exists, gets in Hex. injection Hex as <- <-.
    apply bind_inv in H as ([] & w1 & Hmk & H).
    assert (∀ k v, w_fs w !! k = Some v → w_fs w1 !! k = Some v) as K1.
    { destruct (fs_exists (w_fs w) (path_str path_to_storage)); simpl in Hmk.
      - by injection Hmk as <-.
      - by apply os_makedirs_inv in Hmk as [[? _] _]. }
    apply bind_inv in H as (r0 & w2 & Hnew & H).
    apply novel_start_of_folder_inv in Hnew as (Hfree & Hdir & [K2 _] & _).
    apply setup_inv in H as (-> & K3 & Hdocs & Hold & Hfiles & _).
    split; [by auto|]. split; [done|]. split; [|by auto].
    intros _. split; [|by apply K3].
    destruct (w_fs w !! r0) as [v|] eqn:E; [|done].
    apply K1 in E. congruence.
  - apply bind_inv in H as (ex & w0 & Hex & H).
    unfold osp_exists, gets in Hex. injection Hex as <- <-.
    destruct (fs_exists (w_fs w) (path_str path_to_storage)) eqn:E;
      simpl in H.
    + injection H as <- <-. split; [done|]. split; [done|].
      split; [done|]. intros [?|Hn]; [done|].
      apply fs_exists_true in E as [v Hv]. congruence.
    + apply bind_inv in H as ([] & w1 & Hmk & H).
      apply os_makedirs_inv in Hmk as [[K1 _] _].
      apply setup_inv in H as (-> & K3 & Hdocs & Hold & Hfiles & _).
      split; [by auto|]. split; [|split; [done | by auto]].
      intros _. split; [done|]. intros [v Hv].
      apply fs_exists_false in E. congruence.
Qed.

Lemma main_returns_witness :
  (∀ k v, w_fs w_empty_dir !! k = Some v →
     w_fs (singleton_storage_fns.main 0 "p" true "run" w_empty_dir).2 !! k
     = Some v) ∧
  (true = false →
     "p/999_run" = "p" ∧
     (is_Some (w_fs w_empty_dir !! path_str "p") →
      (singleton_storage_fns.main 0 "p" true "run" w_empty_dir).2
      = w_empty_dir)) ∧
  (true = true →
     w_fs w_empty_dir !! "p/999_run" = None ∧
     w_fs (singleton_storage_fns.main 0 "p" true "run" w_empty_dir).2
       !! "p/999_run" = Some Dir) ∧
  (true = true ∨ w_fs w_empty_dir !! path_str "p" = None →
     (∀ name, name ∈ document_names →
        is_Some (w_fs (singleton_storage_fns.main 0 "p" true "run"
                         w_empty_dir).2 !! osp_join "p/999_run" name)) ∧
     w_fs (singleton_storage_fns.main 0 "p" true "run" w_empty_dir).2
       !! osp_join "p/999_run" "old_yamls" = Some Dir ∧
     w_fs (singleton_storage_fns.main 0 "p" true "run" w_empty_dir).2
       !! osp_join "p/999_run" "files" = Some Dir).
Proof.
  apply (main_returns 0 "p" true "run" w_empty_dir).
  vm_compute. reflexivity.
Defined.

(** ** [MLStorage]: state on disk and state in memory *)

Lemma document_paths_distinct pp n1 n2 :
  n1 ≠ n2 → dirprefix pp +:+ n1 ≠ dirprefix pp +:+ n2.
Proof. intros Hne H%StrFacts.app_inv_head. done. Qed.

Lemma _save_all_state_persisted fuel pp s s' :
  store_at pp (self s) →
  _save_all_state fuel s = (Ok tt, s') →
  self s' = self s ∧
  persisted pp (self s) (w_fs (env s')) ∧
  (∀ k v, k ∉ document_paths pp →
          w_fs (env s) !! k = Some v → w_fs (env s') !! k = Some v) ∧
  w_clock (env s') = w_clock (env s).
Proof.
  intros (Hne & Hpp & Hmain & Hshared & Htree & Hdb & _ & _).
  destruct s as [o w]. simpl in *. unfold _save_all_state.
  intros H. apply bind_inv in H as (o' & sx & Hg & H).
  unfold gets in Hg. injection Hg as <- <-. simpl in H.
  rewrite Hpp, Hmain, Hshared, Htree, Hdb in H. simpl in H.
  repeat match type of H with
  | bind (ret _) _ _ = _ => unfold bind at 1, ret at 1 in H
  end.
  apply bind_inv in H as ([] & s1 & H1%liftW_inv & H).
  destruct H1 as (w1 & H1 & ->).
  apply (write_document_plain_inv fuel) in H1 as (Hs1 & Hk1 & Hc1).
  unfold bind at 1, ret at 1 in H.
  apply bind_inv in H as ([] & s2 & H2%liftW_inv & H).
  destruct H2 as (w2 & H2 & ->). simpl in H2.
  apply (write_document_plain_inv fuel) in H2 as (Hs2 & Hk2 & Hc2).
  unfold bind at 1, ret at 1 in H.
  apply bind_inv in H as ([] & s3 & H3%liftW_inv & H).
  destruct H3 as (w3 & H3 & ->). simpl in H3.
  apply (write_document_plain_inv fuel) in H3 as (Hs3 & Hk3 & Hc3).
  unfold bind at 1, ret at 1 in H.
  apply liftW_inv in H as (w4 & H4 & ->). simpl in H4.
  apply (write_document_plain_inv fuel) in H4 as (Hs4 & Hk4 & Hc4).
  rewrite StrFacts.app_nil_r in Hs1, Hs2, Hs3, Hs4, Hk1, Hk2, Hk3, Hk4.
  simpl. split; [done|]. split; [|split].
  - unfold persisted. simpl.
    split; [|split; [|split; [|done]]].
    + apply Hk4; [by apply document_paths_distinct|].
      apply Hk3; [by apply document_paths_distinct|].
      apply Hk2; [by apply document_paths_distinct|]. done.
    + apply Hk4; [by apply document_paths_distinct|].
      apply Hk3; [by apply document_paths_distinct|]. done.
    + apply Hk4; [by apply document_paths_distinct|]. done.
  - intros k v Hk Hv. unfold document_paths in Hk.
    rewrite !not_elem_of_cons in Hk. destruct Hk as (? & ? & ? & ? & _).
    apply Hk4; [done|]. apply Hk3; [done|]. apply Hk2; [done|].
    by apply Hk1.
  - simpl in *. by rewrite Hc4, Hc3, Hc2, Hc1.
Qed.

Lemma ProjectPhase_of_value ph : ProjectPhase_of (YStr (phase_value ph)) = Ok ph.
Proof. by destruct ph. Qed.

Lemma store_at_nonempty pp o : store_at pp o → path_str pp = pp.
Proof. intros [Hne _]. unfold path_str. by rewrite decide_False. Qed.

(** Stepping through a computation. *)
Lemma gets_bind {St A B} (f : St → A) (k : A → M St B) s :
  bind (gets f) k s = k (f s) s.
Proof. done. Qed.

Lemma ret_bind {St A B} (a : A) (k : A → M St B) s : bind (ret a) k s = k a s.
Proof. done. Qed.

Lemma set_self_bind {B} (f : MLStorage → MLStorage) (k : unit → M session B) s :
  bind (set_self f) k s = k tt (Session (f (self s)) (env s)).
Proof. done. Qed.

Lemma liftW_bind {A B} (m : M world A) (k : A → M session B) o w a w' :
  m w = (Ok a, w') →
  bind (liftW m) k (Session o w) = k a (Session o w').
Proof. intros H. unfold bind, liftW. simpl. by rewrite H. Qed.

Lemma liftW_ok {A} (m : M world A) o w a w' :
  m w = (Ok a, w') → liftW m (Session o w) = (Ok a, Session o w').
Proof. intros H. unfold liftW. simpl. by rewrite H. Qed.

Lemma path_exists_bind {B} p (k : bool → M session B) s :
  bind (path_exists (Some p)) k s = k (fs_exists (w_fs (env s)) p) s.
Proof. destruct s. done. Qed.

Lemma the_path_bind {St B} (x : string) (k : string → M St B) s :
  bind (the_path (Some x)) k s = k x s.
Proof. done. Qed.

Ltac mred :=
  cbv beta;
  cbn [self env project_path main_yaml_path shared_storage_path
       file_tree_path tiny_db_path old_yamls_dir files_dir main_config
       shared_storage file_tree checkpoint_db current_phase
       set_main_config set_shared_storage set_file_tree set_checkpoint_db
       set_current_phase set_paths].

Ltac mstep :=
  first [rewrite gets_bind | rewrite ret_bind | rewrite set_self_bind
        | rewrite path_exists_bind | rewrite the_path_bind];
  mred.

Section reopen.
Context (yaml_safe_load : content → res (list (string * yval))).
Context (orjson_loads : content → option (gmap string checkpoint_info)).

(** Loading from a folder that holds the documents of [o] gives the four
    dictionaries of [o], and the phase named in its shared storage. *)
Lemma _load_all_state_persisted pp o o0 w :
  store_at pp o0 →
  persisted pp o (w_fs w) →
  _load_all_state yaml_safe_load orjson_loads (Session o0 w)
  = (Ok tt,
     Session
       (mkMLStorage (project_path o0) (main_yaml_path o0)
          (shared_storage_path o0) (file_tree_path o0) (tiny_db_path o0)
          (old_yamls_dir o0) (files_dir o0)
          (main_config o) (shared_storage o) (file_tree o) (checkpoint_db o)
          (match dict_get "current_phase" (shared_storage o) with
           | Some value =>
               match ProjectPhase_of value with
               | Ok ph => ph
               | Raise _ => SETUP
               end
           | None => current_phase o0
           end)) w).
Proof.
  intros (Hne & Hpp & Hmain & Hshared & Htree & Hdb & _ & _)
         (Pm & Ps & Pt & Pd).
  pose proof (proj2 (fs_exists_true _ _) (mk_is_Some _ _ Pm)) as Em.
  pose proof (proj2 (fs_exists_true _ _) (mk_is_Some _ _ Ps)) as Es.
  pose proof (proj2 (fs_exists_true _ _) (mk_is_Some _ _ Pt)) as Et.
  pose proof (proj2 (fs_exists_true _ _) (mk_is_Some _ _ Pd)) as Ed.
  destruct o0 as [a1 a2 a3 a4 a5 a6 a7 mc ss ft db ph]. simpl in *.
  subst a1 a2 a3 a4 a5.
  unfold _load_all_state.
  mstep. mstep. rewrite Em. rewrite bind_assoc. mstep.
  rewrite bind_assoc.
  rewrite (liftW_bind _ _ _ _ _ _ (get_yaml_written _ _ _ _ Pm)).
  mred. mstep.
  mstep. mstep. rewrite Es. rewrite bind_assoc. mstep.
  rewrite bind_assoc.
  rewrite (liftW_bind _ _ _ _ _ _ (get_yaml_written _ _ _ _ Ps)).
  mred. rewrite bind_assoc. mstep.
  assert (∀ (k : unit → M session unit) (s0 : session),
            bind (match dict_get "current_phase" (shared_storage o) with
                  | Some value =>
                      match ProjectPhase_of value with
                      | Ok ph => set_self (set_current_phase ph)
                      | Raise _ => set_self (set_current_phase SETUP)
                      end
                  | None => ret tt
                  end) k s0
            = k tt
               (Session
                 (set_current_phase
                    (match dict_get "current_phase" (shared_storage o) with
                     | Some value =>
                         match ProjectPhase_of value with
                         | Ok ph => ph
                         | Raise _ => SETUP
                         end
                     | None => current_phase (self s0)
                     end) (self s0)) (env s0))) as Hphase.
  { intros k [o1 w1]. destruct (dict_get _ _) as [v|]; simpl.
    - by destruct (ProjectPhase_of v).
    - by destruct o1. }
  rewrite Hphase. mred.
  mstep. mstep. rewrite Et. rewrite bind_assoc. mstep.
  rewrite bind_assoc.
  rewrite (liftW_bind _ _ _ _ _ _ (get_yaml_written _ _ _ _ Pt)).
  mred. mstep.
  mstep. mstep. rewrite Ed. mred. mstep.
  rewrite (liftW_bind _ _ _ _ _ _ (get_json_written _ _ _ _ Pd)).
  done.
Qed.

End reopen.

Lemma bind_ok {St A B} (m : M St A) (k : A → M St B) s a s' :
  m s = (Ok a, s') → bind m k s = k a s'.
Proof. intros H. unfold bind. by rewrite H. Qed.

Lemma main_existing fuel p sid w :
  is_Some (w_fs w !! path_str p) →
  singleton_storage_fns.main fuel p false sid w = (Ok p, w).
Proof.
  intros H%fs_exists_true. unfold singleton_storage_fns.main. munfold.
  by rewrite H.
Qed.

Lemma path_mkdir_exist_ok_dir p w :
  w_fs w !! p = Some Dir → path_mkdir_exist_ok p w = (Ok tt, w).
Proof. intros H. unfold path_mkdir_exist_ok. munfold. by rewrite H. Qed.

Lemma store_at_set_paths pp o : pp ≠ "" → store_at pp (set_paths pp o).
Proof. intros H. by repeat split. Qed.

(** X15: the state of a project survives a restart.  When a project is
    open in the folder [pp] (the object has its paths there, the folder
    and its two sub-folders exist, the four documents hold the state of
    the object, and the phase recorded in the shared storage is the
    current one), [initial_setup] on that folder, run by any other
    [MLStorage] object (a new process), returns [pp] and leaves that
    object in exactly the state of the first one, without touching the
    disk. *)
Theorem initial_setup_reopens
    (yaml_safe_load : content → res (list (string * yval)))
    (orjson_loads : content → option (gmap string checkpoint_info))
    (fuel : nat) (pp project_name : string) (s : session) (o0 : MLStorage) :
  opened pp s →
  initial_setup yaml_safe_load orjson_loads fuel pp project_name
    (Session o0 (env s)) = (Ok pp, s).
Proof.
  intros [Hst Hpp Hold Hfiles Hper Hphase].
  pose proof Hst as [Hne _].
  unfold initial_setup.
  rewrite (liftW_bind _ _ _ _ _ _ (main_existing fuel pp "" (env s)
             ltac:(rewrite (store_at_nonempty _ _ Hst); by eexists))).
  mstep.
  rewrite (liftW_bind _ _ _ _ _ _ (path_mkdir_exist_ok_dir _ _ Hold)).
  rewrite (liftW_bind _ _ _ _ _ _ (path_mkdir_exist_ok_dir _ _ Hfiles)).
  rewrite (bind_ok _ _ _ _ _
             (_load_all_state_persisted yaml_safe_load orjson_loads pp
                (self s) _ (env s) (store_at_set_paths pp o0 Hne) Hper)).
  mstep. rewrite Hphase, ProjectPhase_of_value.
  destruct s as [o w]. simpl in *.
  destruct o as [a1 a2 a3 a4 a5 a6 a7 mc ss ft db ph].
  unfold store_at in Hst. simpl in *.
  destruct Hst as (_ & -> & -> & -> & -> & -> & -> & ->).
  destruct ss as [|kv ss]; [done|]. done.
Qed.

Lemma session_after_c1_opened : opened "proj" session_after_c1.
Proof.
  split.
  - split; [done|]. do 6 (split; [vm_compute; reflexivity|]).
    vm_compute. reflexivity.
  - vm_compute. reflexivity.
  - vm_compute. reflexivity.
  - vm_compute. reflexivity.
  - split; [vm_compute; reflexivity|]. split; [vm_compute; reflexivity|].
    split; vm_compute; reflexivity.
  - vm_compute. reflexivity.
Defined.

Lemma initial_setup_reopens_witness :
  initial_setup (λ _, Raise ValueError) (λ _, None) 5 "proj" "other"
    (Session new_MLStorage (env session_after_c1))
  = (Ok "proj", session_after_c1).
Proof.
  apply (initial_setup_reopens (λ _, Raise ValueError) (λ _, None) 5 "proj"
           "other" session_after_c1 new_MLStorage).
  apply session_after_c1_opened.
Defined.

(** ** [save_checkpoint]: the shared storage *)

(** What [save_checkpoint] hands to its final [_save_all_state]. *)
Lemma save_checkpoint_tail fuel name objs s s' pp :
  store_at pp (self s) →
  save_checkpoint fuel name objs s = (Ok tt, s') →
  ∃ (saved : list saved_object) (saved_at : string) (z : Z) (s6 : session),
    given_objects objs = (λ x, x.1) <$> saved ∧
    dict_get "total_checkpoints" (shared_storage (self s)) = Some (YInt z) ∧
    saved_fresh (osp_join pp "files") name (w_fs (env s)) saved ∧
    w_fs (env s6) = saved_fs (w_fs (env s)) saved ∧
    store_at pp (self s6) ∧
    current_phase (self s6) = current_phase (self s) ∧
    main_config (self s6) = main_config (self s) ∧
    checkpoint_db (self s6)
      = <[name := CheckpointInfo name (phase_value (current_phase (self s)))
                    saved_at (saved_files [] saved)]> (checkpoint_db (self s)) ∧
    shared_storage (self s6)
      = (if dict_has "model" objs then
           match dict_get "model" (saved_files [] saved) with
           | Some f => dict_set "latest_model_file" (YStr f)
           | None => id
           end
         else id)
          (dict_set "total_checkpoints" (YInt (z + 1))
             (dict_set "latest_checkpoint" (YStr name)
                (shared_storage (self s)))) ∧
    (dict_has "model" objs = true →
     is_Some (dict_get "model" (saved_files [] saved))) ∧
    _save_all_state fuel s6 = (Ok tt, s').
Proof.
  intros Hst H. unfold save_checkpoint in H.
  apply bind_inv in H as (phase & sx0 & Hg & H).
  unfold gets in Hg. injection Hg as <- <-.
  apply bind_inv in H as (saved_at & s1 & Hnow%liftW_inv & H).
  destruct Hnow as (w1 & Hnow & ->). unfold datetime_now_isoformat in Hnow.
  injection Hnow as Hsaved_at <-. clear Hsaved_at.
  apply bind_inv in H as (files & s2 & Hloop & H).
  pose proof Hst as (_ & _ & _ & _ & _ & _ & _ & Hdir).
  apply (save_checkpoint_objects_trace _ _ (osp_join pp "files")) in Hloop
    as (saved & Hgiven & -> & Hfs & Hlog & Hfresh & Htree); [|done].
  simpl in Hfs, Hlog, Hfresh, Htree.
  pose proof (store_at_same_but_tree _ _ _ Hst Htree) as Hst2.
  assert (main_config (self s2) = main_config (self s)) as Hmc.
  { rewrite Htree. by destruct (self s). }
  apply same_but_tree_files_dir in Htree as (_ & _ & Hdb & Hss & Hphase).
  apply bind_inv in H as ([] & s3 & ->%set_self_inv & H).
  apply bind_inv in H as ([] & s4 & ->%set_self_inv & H).
  apply bind_inv in H as (total & sx1 & Hg & H).
  unfold gets in Hg. injection Hg as <- <-. simpl in H.
  assert (dict_get "total_checkpoints"
            (dict_set "latest_checkpoint" (YStr name) (shared_storage (self s2)))
          = dict_get "total_checkpoints" (shared_storage (self s))) as Htot.
  { rewrite dict_get_set, Hss. by rewrite decide_False. }
  rewrite Htot in H.
  destruct (dict_get "total_checkpoints" (shared_storage (self s)))
    as [[|z| | |]|] eqn:Hz; try done.
  apply bind_inv in H as ([] & s5 & ->%set_self_inv & H).
  apply bind_inv in H as ([] & s6 & Hmodel & H).
  exists saved, saved_at, z, s6.
  split; [done|]. split; [done|]. split; [done|].
  assert (env s6 = env s2 ∧
          self s6
          = (if dict_has "model" objs then
               match dict_get "model" (saved_files [] saved) with
               | Some f =>
                   λ o, set_shared_storage
                          (dict_set "latest_model_file" (YStr f)
                             (shared_storage o)) o
               | None => id
               end
             else id)
              (set_shared_storage
                 (dict_set "total_checkpoints" (YInt (z + 1))
                    (dict_set "latest_checkpoint" (YStr name)
                       (shared_storage (self s2))))
                 (set_checkpoint_db
                    (<[name:=CheckpointInfo name
                               (phase_value (current_phase (self s)))
                               saved_at (saved_files [] saved)]>
                       (checkpoint_db (self s2))) (self s2))) ∧
          (dict_has "model" objs = true →
           is_Some (dict_get "model" (saved_files [] saved))))
    as (Henv & Hself & Hmod).
  { destruct (dict_has "model" objs).
    - destruct (dict_get "model" (saved_files [] saved)); [|done].
      apply set_self_inv in Hmodel as ->. simpl. split; [done|].
      split; [by destruct (self s2) | by eexists].
    - unfold ret in Hmodel. injection Hmodel as <-. simpl. split; [done|].
      split; [by destruct (self s2) | done]. }
  split; [by rewrite Henv|].
  assert (∀ o : MLStorage,
            (if dict_has "model" objs then
               match dict_get "model" (saved_files [] saved) with
               | Some f =>
                   λ o, set_shared_storage
                          (dict_set "latest_model_file" (YStr f)
                             (shared_storage o)) o
               | None => id
               end
             else id) o
            = set_shared_storage
                ((if dict_has "model" objs then
                    match dict_get "model" (saved_files [] saved) with
                    | Some f => dict_set "latest_model_file" (YStr f)
                    | None => id
                    end
                  else id) (shared_storage o)) o) as Hcase.
  { intros o. destruct (dict_has "model" objs);
      [destruct (dict_get "model" (saved_files [] saved))|];
      by destruct o. }
  rewrite Hcase in Hself.
  split; [rewrite Hself; by repeat first [apply store_at_set_shared_storage
                                         |apply store_at_set_checkpoint_db]|].
  split; [rewrite Hself, <-Hphase; by destruct (self s2)|].
  split; [rewrite Hself, <-Hmc; by destruct (self s2)|].
  split; [rewrite Hself, <-Hdb; by destruct (self s2)|].
  split; [rewrite Hself, <-Hss; by destruct (self s2)|].
  done.
Qed.

Lemma folder_not_document pp : pp ∉ document_paths pp.
Proof.
  unfold document_paths. rewrite !not_elem_of_cons.
  assert (∀ n, n ≠ "" → starts_with_slash n = false → pp ≠ osp_join pp n)
    as Hn.
  { intros n Hne Hrel H. rewrite osp_join_rel in H by done.
    apply (f_equal String.length) in H.
    rewrite StrFacts.length_app in H.
    pose proof (length_dirprefix pp).
    destruct n; [done|]. simpl in H. lia. }
  repeat split; try (by apply Hn). apply not_elem_of_nil.
Qed.

Lemma child_not_document pp n :
  starts_with_slash n = false → n ∉ document_names →
  osp_join pp n ∉ document_paths pp.
Proof.
  intros Hrel Hn. unfold document_paths, document_names in *.
  rewrite !not_elem_of_cons in Hn. destruct Hn as (? & ? & ? & ? & _).
  rewrite !not_elem_of_cons, !osp_join_rel by done.
  repeat split; try (by apply document_paths_distinct).
  apply not_elem_of_nil.
Qed.

Lemma opened_after_save pp s s6 s' saved dir name fuel :
  opened pp s →
  saved_fresh dir name (w_fs (env s)) saved →
  w_fs (env s6) = saved_fs (w_fs (env s)) saved →
  store_at pp (self s6) →
  dict_get "current_phase" (shared_storage (self s6))
    = Some (YStr (phase_value (current_phase (self s6)))) →
  _save_all_state fuel s6 = (Ok tt, s') →
  opened pp s'.
Proof.
  intros [Hst Hpp Hold Hfiles Hper Hphase] Hfresh Hfs Hst6 Hcp H.
  apply (_save_all_state_persisted _ pp) in H
    as (Hself & Hper' & Hkeep & _); [|done].
  assert (∀ k v, k ∉ document_paths pp → w_fs (env s) !! k = Some v →
                 w_fs (env s') !! k = Some v) as Hk.
  { intros k v Hk Hv. apply Hkeep; [done|]. rewrite Hfs.
    by eapply saved_fs_mono. }
  split.
  - by rewrite Hself.
  - by apply Hk; [apply folder_not_document|].
  - apply Hk; [|done]. apply child_not_document; [done|].
    unfold document_names. rewrite !not_elem_of_cons.
    repeat split; try done. apply not_elem_of_nil.
  - apply Hk; [|done]. apply child_not_document; [done|].
    unfold document_names. rewrite !not_elem_of_cons.
    repeat split; try done. apply not_elem_of_nil.
  - by rewrite Hself.
  - by rewrite Hself.
Qed.

(** X16: what a successful [save_checkpoint] does to the shared storage
    of an open project.  The project is still open afterwards (so the
    new state is on disk); [latest_checkpoint] is the name;
    [total_checkpoints] has gone up by one, also when a checkpoint of
    that name existed; with a [model] argument [latest_model_file] is
    the file recorded for it in the index; every other key is
    unchanged. *)
Theorem save_checkpoint_counts (fuel : nat) (name : string)
    (objects_to_save : list (string * option pyobj)) (s s' : session)
    (pp : string) :
  opened pp s →
  save_checkpoint fuel name objects_to_save s = (Ok tt, s') →
  opened pp s' ∧
  dict_get "latest_checkpoint" (shared_storage (self s'))
    = Some (YStr name) ∧
  (∃ z, dict_get "total_checkpoints" (shared_storage (self s))
          = Some (YInt z) ∧
        dict_get "total_checkpoints" (shared_storage (self s'))
          = Some (YInt (z + 1))) ∧
  (dict_has "model" objects_to_save = true →
   ∃ info f, checkpoint_db (self s') !! name = Some info ∧
             dict_get "model" (ci_files info) = Some f ∧
             dict_get "latest_model_file" (shared_storage (self s'))
               = Some (YStr f)) ∧
  (∀ k, k ∉ checkpoint_keys →
        dict_get k (shared_storage (self s'))
        = dict_get k (shared_storage (self s))) ∧
  (dict_has "model" objects_to_save = false →
   dict_get "latest_model_file" (shared_storage (self s'))
   = dict_get "latest_model_file" (shared_storage (self s))).
Proof.
  intros Hop H. pose proof (op_store _ _ Hop) as Hst.
  apply (save_checkpoint_tail _ _ _ _ _ pp) in H
    as (saved & saved_at & z & s6 & Hgiven & Hz & Hfresh & Hfs & Hst6 & Hph
        & Hmc & Hdb & Hss & Hmod & H); [|done].
  assert (∀ k, k ≠ "latest_model_file" ∨ dict_has "model" objects_to_save = false →
               dict_get k (shared_storage (self s6))
               = dict_get k
                   (dict_set "total_checkpoints" (YInt (z + 1))
                      (dict_set "latest_checkpoint" (YStr name)
                         (shared_storage (self s))))) as Hget.
  { intros k Hk. rewrite Hss.
    destruct (dict_has "model" objects_to_save); [|done].
    destruct Hk as [Hk|?]; [|done].
    destruct (dict_get "model" (saved_files [] saved)); [|done].
    rewrite dict_get_set. by rewrite decide_False. }
  pose proof (_save_all_state_persisted _ pp _ _ Hst6 H) as (Hself & _).
  split.
  { eapply opened_after_save; try done.
    rewrite Hget by (by left). rewrite !dict_get_set.
    rewrite !decide_False by done. rewrite Hph. apply Hop. }
  rewrite Hself.
  split.
  { rewrite Hget by (by left). rewrite !dict_get_set.
    rewrite decide_False by done. by rewrite decide_True. }
  split.
  { exists z. split; [done|]. rewrite Hget by (by left).
    rewrite dict_get_set. by rewrite decide_True. }
  split.
  { intros Hm. destruct (Hmod Hm) as [f Hf].
    exists (CheckpointInfo name (phase_value (current_phase (self s)))
              saved_at (saved_files [] saved)), f.
    rewrite Hdb, lookup_insert_eq. split; [done|]. split; [done|].
    rewrite Hss, Hm, Hf, dict_get_set. by rewrite decide_True. }
  split.
  { intros k Hk. unfold checkpoint_keys in Hk. rewrite !not_elem_of_cons in Hk.
    destruct Hk as (? & ? & ? & _).
    rewrite Hget by (by left). rewrite !dict_get_set.
    by rewrite !decide_False. }
  intros Hm. rewrite Hget by (by right). rewrite !dict_get_set.
  by rewrite !decide_False.
Qed.

Lemma save_checkpoint_counts_witness :
  opened "proj" session_after_c1_twice ∧
  dict_get "latest_checkpoint" (shared_storage (self session_after_c1_twice))
    = Some (YStr "c1") ∧
  (∃ z, dict_get "total_checkpoints" (shared_storage (self session_after_c1))
          = Some (YInt z) ∧
        dict_get "total_checkpoints"
          (shared_storage (self session_after_c1_twice))
          = Some (YInt (z + 1))) ∧
  (dict_has "model" [("model", Some a_model); ("logs", Some some_logs)] = true →
   ∃ info f, checkpoint_db (self session_after_c1_twice) !! "c1" = Some info ∧
             dict_get "model" (ci_files info) = Some f ∧
             dict_get "latest_model_file"
               (shared_storage (self session_after_c1_twice))
               = Some (YStr f)) ∧
  (∀ k, k ∉ checkpoint_keys →
        dict_get k (shared_storage (self session_after_c1_twice))
        = dict_get k (shared_storage (self session_after_c1))) ∧
  (dict_has "model" [("model", Some a_model); ("logs", Some some_logs)] = false →
   dict_get "latest_model_file" (shared_storage (self session_after_c1_twice))
   = dict_get "latest_model_file" (shared_storage (self session_after_c1))).
Proof.
  apply (save_checkpoint_counts 5 "c1"
           [("model", Some a_model); ("logs", Some some_logs)]
           session_after_c1 session_after_c1_twice "proj").
  - apply session_after_c1_opened.
  - vm_compute. reflexivity.
Defined.

(** ** [change_phase] *)

(** X17: a successful [change_phase] on an open project.  The project is
    still open afterwards (the new state is on disk); the current phase
    is the new one; [phase_changes] is the former list, or the empty
    list if there was none, with one record [{from, to, at}] appended;
    no other key of the shared storage and no checkpoint is changed, and
    on disk only the four documents are rewritten. *)
Theorem change_phase_effect (fuel : nat) (new_phase : ProjectPhase)
    (s s' : session) (pp : string) :
  opened pp s →
  change_phase fuel new_phase s = (Ok tt, s') →
  opened pp s' ∧
  current_phase (self s') = new_phase ∧
  (∃ l now,
     (dict_get "phase_changes" (shared_storage (self s)) = Some (YList l) ∨
      dict_get "phase_changes" (shared_storage (self s)) = None ∧ l = []) ∧
     dict_get "phase_changes" (shared_storage (self s'))
     = Some (YList (l ++ [phase_change (current_phase (self s)) new_phase
                            now]))) ∧
  (∀ k, k ≠ "current_phase" → k ≠ "phase_changes" →
        dict_get k (shared_storage (self s'))
        = dict_get k (shared_storage (self s))) ∧
  checkpoint_db (self s') = checkpoint_db (self s) ∧
  (∀ k v, k ∉ document_paths pp →
          w_fs (env s) !! k = Some v → w_fs (env s') !! k = Some v).
Proof.
  intros Hop H. pose proof (op_store _ _ Hop) as Hst.
  unfold change_phase in H.
  apply bind_inv in H as (old_phase & sx0 & Hg & H).
  unfold gets in Hg. injection Hg as <- <-.
  apply bind_inv in H as ([] & s1 & ->%set_self_inv & H).
  apply bind_inv in H as ([] & s2 & ->%set_self_inv & H).
  apply bind_inv in H as (changes & sx1 & Hg & H).
  unfold gets in Hg. injection Hg as <- <-.
  apply bind_inv in H as ([] & s3 & ->%set_self_inv & H).
  destruct s as [o w]. simpl in *.
  rewrite dict_get_set in H. rewrite decide_False in H by done.
  set (changes := match dict_get "phase_changes" (shared_storage o) with
                  | Some v => v
                  | None => YList []
                  end) in *.
  destruct changes as [| | |l|] eqn:Hch; try done.
  apply bind_inv in H as (now & s4 & Hnow%liftW_inv & H).
  destruct Hnow as (w1 & Hnow & ->). unfold datetime_now_isoformat in Hnow.
  injection Hnow as Hnow' <-. clear Hnow'. simpl in H.
  apply bind_inv in H as ([] & s5 & ->%set_self_inv & H). simpl in H.
  match type of H with
  | _save_all_state _ {| self := ?o6; env := ?w6 |} = _ =>
      set (o6' := o6) in *; set (w6' := w6) in *
  end.
  assert (store_at pp o6') as Hst6 by (by destruct o).
  assert (current_phase o6' = new_phase) as Hph6 by (by destruct o).
  assert (checkpoint_db o6' = checkpoint_db o) as Hdb6 by (by destruct o).
  assert (shared_storage o6'
          = dict_set "phase_changes"
              (YList (l ++ [phase_change (current_phase o) new_phase now]))
              (dict_set "phase_changes" (YList l)
                 (dict_set "current_phase" (YStr (phase_value new_phase))
                    (shared_storage o)))) as Hss6 by (by destruct o).
  assert (w_fs w6' = w_fs w) as Hw6 by done.
  clearbody o6' w6'.
  pose proof (_save_all_state_persisted fuel pp (Session o6' w6') s' Hst6 H)
    as (Hself & _ & Hkeep & _).
  cbn [self env] in Hself, Hkeep. rewrite Hw6 in Hkeep.
  split.
  { apply (opened_after_save pp (Session o w) (Session o6' w6') s' []
             "" "" fuel); try done.
    cbn [self]. rewrite Hss6, Hph6, !dict_get_set.
    rewrite !decide_False by done. by rewrite decide_True. }
  rewrite Hself. split; [done|]. split.
  { exists l, now. split.
    - unfold changes in Hch.
      destruct (dict_get "phase_changes" (shared_storage o)) as [v|];
        [left; by subst | right; by injection Hch as <-].
    - rewrite Hss6, dict_get_set. by rewrite decide_True. }
  split.
  { intros k Hk1 Hk2. rewrite Hss6, !dict_get_set.
    by rewrite !decide_False. }
  split; [done|]. done.
Qed.

Lemma change_phase_effect_witness :
  opened "proj" (change_phase 0 TRAINING session_after_c1).2 ∧
  current_phase (self (change_phase 0 TRAINING session_after_c1).2)
    = TRAINING ∧
  (∃ l now,
     (dict_get "phase_changes" (shared_storage (self session_after_c1))
        = Some (YList l) ∨
      dict_get "phase_changes" (shared_storage (self session_after_c1))
        = None ∧ l = []) ∧
     dict_get "phase_changes"
       (shared_storage (self (change_phase 0 TRAINING session_after_c1).2))
     = Some (YList (l ++ [phase_change
                            (current_phase (self session_after_c1))
                            TRAINING now]))) ∧
  (∀ k, k ≠ "current_phase" → k ≠ "phase_changes" →
        dict_get k
          (shared_storage (self (change_phase 0 TRAINING session_after_c1).2))
        = dict_get k (shared_storage (self session_after_c1))) ∧
  checkpoint_db (self (change_phase 0 TRAINING session_after_c1).2)
    = checkpoint_db (self session_after_c1) ∧
  (∀ k v, k ∉ document_paths "proj" →
          w_fs (env session_after_c1) !! k = Some v →
          w_fs (env (change_phase 0 TRAINING session_after_c1).2) !! k
          = Some v).
Proof.
  apply (change_phase_effect 0 TRAINING session_after_c1
           (change_phase 0 TRAINING session_after_c1).2 "proj").
  - apply session_after_c1_opened.
  - vm_compute. reflexivity.
Defined.

(** X18: when the [phase_changes] entry of the shared storage is not a
    list, [change_phase] fails with [AttributeError] after it has set the
    new phase in memory and before it reads the clock or writes
    anything: the object then says the new phase while the disk is
    unchanged. *)
Theorem change_phase_not_a_list (fuel : nat) (new_phase : ProjectPhase)
    (s : session) (v : yval) :
  dict_get "phase_changes" (shared_storage (self s)) = Some v →
  (∀ l, v ≠ YList l) →
  ∃ o', change_phase fuel new_phase s
        = (Raise AttributeError, Session o' (env s)) ∧
        current_phase o' = new_phase ∧
        dict_get "current_phase" (shared_storage o')
          = Some (YStr (phase_value new_phase)) ∧
        dict_get "phase_changes" (shared_storage o') = Some v.
Proof.
  intros Hv Hnl. destruct s as [o w]. simpl in *.
  unfold change_phase. mstep. mstep. mstep. mstep.
  rewrite dict_get_set, decide_False, Hv by done.
  mstep.
  eexists. split.
  - destruct v as [| | |l|]; try done. by destruct (Hnl l).
  - simpl. split; [done|]. rewrite !dict_get_set.
    rewrite decide_False by done. rewrite decide_True by done.
    split; [done|]. by rewrite decide_True.
Qed.

Lemma change_phase_not_a_list_witness :
  ∃ o', change_phase 0 TRAINING session_bad_changes
        = (Raise AttributeError, Session o' (env session_bad_changes)) ∧
        current_phase o' = TRAINING ∧
        dict_get "current_phase" (shared_storage o')
          = Some (YStr (phase_value TRAINING)) ∧
        dict_get "phase_changes" (shared_storage o') = Some YNone.
Proof.
  apply (change_phase_not_a_list 0 TRAINING session_bad_changes YNone).
  - vm_compute. reflexivity.
  - intros l. discriminate.
Defined.

(** ** Saving and loading in one session *)

(** X19: what [save_checkpoint] saves, [load_checkpoint] loads,
    whatever [pickle.load] makes of foreign files.  After a
    successful save in an initialised store, under a checkpoint name and
    pairwise distinct role names without [/], loading that name succeeds
    and changes nothing; every role that was given an object comes back
    as that object in the state in which it was pickled (after its
    [prepare_for_save] hook); any other key is absent, except
    [checkpoint_info], which holds the index record unless a role of
    that name was saved, which then takes its place. *)
Theorem save_then_load (pickle_load_other : content → res pyobj)
    (fuel : nat) (name : string)
    (objects_to_save : list (string * option pyobj)) (s s1 : session)
    (pp : string) :
  store_at pp (self s) →
  Str.has "/" name = false →
  (∀ r o, (r, Some o) ∈ objects_to_save → Str.has "/" r = false) →
  NoDup objects_to_save.*1 →
  save_checkpoint fuel name objects_to_save s = (Ok tt, s1) →
  ∃ info loaded,
    checkpoint_db (self s1) !! name = Some info ∧
    ci_name info = name ∧
    ci_phase info = phase_value (current_phase (self s)) ∧
    load_checkpoint pickle_load_other name s1 = (Ok loaded, s1) ∧
    (∀ r o, (r, Some o) ∈ objects_to_save →
            dict_get r loaded = Some (LObj (pickled o))) ∧
    (∀ r, (∀ o, (r, Some o) ∉ objects_to_save) →
          dict_get r loaded
          = if decide (r = "checkpoint_info") then Some (LInfo info)
            else None).
Proof.
  intros Hst Hname Hroles Hnd Hsave.
  apply (save_checkpoint_inv _ _ _ _ _ pp) in Hsave
    as (saved & saved_at & evs & Hg & Hfresh & Hdb & Hst1 & _ & _ & Hkeep & _);
    [|done].
  set (dir := osp_join pp "files") in *.
  assert (dir ≠ "") as Hdir.
  { unfold dir, osp_join. simpl. apply app_nonempty. done. }
  assert (NoDup ((λ x : saved_object, x.1.1) <$> saved)) as Hndr.
  { apply given_objects_keys_NoDup in Hnd. rewrite Hg in Hnd.
    by rewrite <-list_fmap_compose in Hnd. }
  assert (∀ r o, (r, Some o) ∈ objects_to_save →
            ∃ x, x ∈ saved ∧ x.1 = (r, o) ∧ last_for r saved = Some x)
    as Hlast.
  { intros r o Hin. apply given_objects_elem in Hin. rewrite Hg in Hin.
    apply list_elem_of_fmap in Hin as (x & Hx & Hxin).
    exists x. split; [done|]. split; [done|].
    destruct (last_for_exists r saved x Hxin) as [y Hy]; [by rewrite <-Hx|].
    destruct (last_for_elem _ _ _ Hy) as [Hyin Hyr].
    rewrite Hy. f_equal.
    apply (NoDup_fmap_eq (λ x : saved_object, x.1.1) saved); try done.
    by rewrite Hyr, <-Hx. }
  assert (∀ x, x ∈ saved → Str.has "/" x.1.1 = false) as Hslash.
  { intros x Hx. apply (Hroles x.1.1 x.1.2). apply given_objects_elem.
    rewrite Hg. apply list_elem_of_fmap. exists x.
    split; [by destruct x as [[] ?] | done]. }
  assert (∀ x, x ∈ saved →
            w_fs (env s1) !! x.2 = Some (File (CPickle (pickled x.1.2))))
    as Hon.
  { intros x Hx. destruct (saved_chosen _ _ _ _ Hfresh x Hx) as ([b Hb] & _).
    apply Hkeep; [rewrite Hb; apply pkl_not_document|].
    by apply (saved_fs_elem _ _ _ _ Hfresh). }
  set (info := CheckpointInfo name (phase_value (current_phase (self s)))
                 saved_at (saved_files [] saved)) in *.
  pose proof Hst1 as (_ & _ & _ & _ & _ & _ & _ & Hfd).
  assert (NoDup (saved_files [] saved).*1) as Hkeys
    by (apply saved_files_NoDup, NoDup_nil_2).
  exists info,
    (load_result (w_fs (env s1)) dir (saved_files [] saved)
       [("checkpoint_info", LInfo info)]).
  split; [by rewrite Hdb, lookup_insert_eq|].
  split; [done|]. split; [done|]. split.
  { unfold load_checkpoint, bind, gets. simpl.
    rewrite Hdb, lookup_insert_eq. simpl.
    apply load_checkpoint_objects_ok; [done|].
    intros r f Hin. apply (dict_get_elem _ _ _ Hkeys) in Hin.
    rewrite saved_files_get in Hin.
    destruct (last_for r saved) as [y|] eqn:Hy; [|done].
    injection Hin as <-. destruct (last_for_elem _ _ _ Hy) as [Hyin Hyr].
    rewrite (saved_path_in_folder dir Hdir name _ saved y Hname
               (Hslash y Hyin) Hfresh Hyin).
    right. eexists. by apply Hon. }
  split.
  - intros r o Hin. destruct (Hlast r o Hin) as (x & Hx & Hr & Hl).
    rewrite load_result_get by done. rewrite saved_files_get, Hl.
    rewrite (saved_path_in_folder dir Hdir name _ saved x Hname
               (Hslash x Hx) Hfresh Hx).
    rewrite (Hon x Hx). by rewrite Hr.
  - intros r Hnone. rewrite load_result_get by done.
    rewrite saved_files_get.
    destruct (last_for r saved) as [y|] eqn:Hy.
    + destruct (last_for_elem _ _ _ Hy) as [Hyin Hyr].
      destruct (proj2 (saved_role_elem _ _ r Hg)) as [o Ho]; [by eauto|].
      by destruct (Hnone o).
    + simpl. repeat case_decide; congruence.
Qed.

Lemma save_then_load_witness :
  ∃ info loaded,
    checkpoint_db (self session_after_c1) !! "c1" = Some info ∧
    ci_name info = "c1" ∧
    ci_phase info = phase_value (current_phase (self fresh_session)) ∧
    load_checkpoint pickle_load_value_error "c1" session_after_c1
    = (Ok loaded, session_after_c1) ∧
    (∀ r o, (r, Some o) ∈ [("model", Some a_model); ("logs", Some some_logs)] →
            dict_get r loaded = Some (LObj (pickled o))) ∧
    (∀ r, (∀ o, (r, Some o) ∉ [("model", Some a_model);
                               ("logs", Some some_logs)]) →
          dict_get r loaded
          = if decide (r = "checkpoint_info") then Some (LInfo info)
            else None).
Proof.
  apply (save_then_load pickle_load_value_error 5 "c1"
           [("model", Some a_model); ("logs", Some some_logs)]
           fresh_session session_after_c1 "proj").
  - apply fresh_session_store_at.
  - reflexivity.
  - intros r o Hin. rewrite !elem_of_cons in Hin.
    destruct Hin as [[= -> _]|[[= -> _]|Hin]]; [done..|].
    by apply elem_of_nil in Hin.
  - simpl. apply NoDup_cons. split; [|apply NoDup_singleton].
    by intros ?%list_elem_of_singleton.
  - vm_compute. reflexivity.
Defined.

(** ** Backups never overwrite *)

Lemma open_write_keeps p c w k v :
  w_fs w !! p = None → w_fs w !! k = Some v →
  w_fs (open_write p c w).2 !! k = Some v.
Proof.
  intros Hp Hk. unfold open_write. munfold. rewrite Hp.
  case_decide; [|destruct (w_fs w !! osp_dirname p) as [[c1|]|]]; simpl;
    try done; (rewrite lookup_insert_ne; [done | congruence]).
Qed.

Lemma os_makedirs_keeps p w :
  grows (w_fs w) (w_fs (os_makedirs p w).2).
Proof.
  unfold os_makedirs. case_decide; [apply grows_refl|].
  apply mkdir_chain_grows.
Qed.

Lemma os_makedirs_new_any p w k v :
  w_fs (os_makedirs p w).2 !! k = Some v →
  w_fs w !! k = Some v ∨ (k ∈ (ancestors p ++ [p])%list ∧ v = Dir).
Proof.
  unfold os_makedirs. case_decide; [by left|]. apply mkdir_chain_new.
Qed.

Lemma backup_step_keeps B p w k v :
  B ≠ "" → osp_basename p ≠ "" →
  w_fs w !! backup_target B p = None →
  w_fs w !! k = Some v →
  w_fs ((os_makedirs (osp_dirname (backup_target B p)) ;;;
         sh_copy2 p (backup_target B p)) w).2 !! k = Some v.
Proof.
  intros HB Hp Hfree Hk. unfold bind.
  pose proof (os_makedirs_keeps (osp_dirname (backup_target B p)) w)
    as [Hg _].
  pose proof (os_makedirs_new_any (osp_dirname (backup_target B p)) w
                (backup_target B p)) as Hnew.
  destruct (os_makedirs _ w) as [[[]|e] w1]; simpl in *; [|by apply Hg].
  assert (w_fs w1 !! backup_target B p = None) as Hfree1.
  { destruct (w_fs w1 !! backup_target B p) as [v1|] eqn:E; [|done].
    destruct (Hnew v1 eq_refl) as [Hold|[Hin _]]; [congruence|].
    rewrite dirname_tgt in Hin by done.
    by apply tgt_not_chain in Hin. }
  unfold sh_copy2, open_read. munfold.
  destruct (w_fs w1 !! p) as [[c|]|]; simpl; [|by apply Hg..].
  rewrite Hfree1. apply open_write_keeps; [done | by apply Hg].
Qed.

(** X20: [make_non_duplicate_backups] copies, it never moves or
    overwrites.  For a named backup folder and sources whose base names
    are not empty, every entry that existed before the call (the sources
    included) is still there with the same content in the state the call
    leaves, whether it returns or fails on the way. *)
Theorem make_non_duplicate_backups_keeps
    (paths_of_files_to_back_up : list string)
    (path_to_backup_folder : string) (w : world) (k : string) (v : node) :
  path_to_backup_folder ≠ "" →
  (∀ p, p ∈ paths_of_files_to_back_up → osp_basename p ≠ "") →
  w_fs w !! k = Some v →
  w_fs (make_non_duplicate_backups paths_of_files_to_back_up
          path_to_backup_folder w).2 !! k = Some v.
Proof.
  intros HB. revert w.
  induction paths_of_files_to_back_up as [|p rest IH]; intros w Hnames Hk;
    [done|].
  assert (∀ q, q ∈ rest → osp_basename q ≠ "") as Hrest
    by (intros q Hq; apply Hnames; by right).
  assert (∀ (o : backup_outcome) w0,
            w_fs w0 !! k = Some v →
            w_fs ((did_backup <- make_non_duplicate_backups rest
                                   path_to_backup_folder ;;
                   ret (o :: did_backup)) w0).2 !! k = Some v) as Hcont.
  { intros o w0 Hk0. specialize (IH w0 Hrest Hk0). unfold bind, ret.
    by destruct (make_non_duplicate_backups rest _ w0) as [[r|e] w2]. }
  simpl. munfold.
  destruct (fs_exists (w_fs w) p); simpl; [|by apply (Hcont MISSING)].
  fold (backup_target path_to_backup_folder p).
  destruct (fs_exists (w_fs w) (backup_target path_to_backup_folder p))
    eqn:E; simpl; [by apply (Hcont ALREADY_PRESENT)|].
  apply fs_exists_false in E.
  pose proof (backup_step_keeps path_to_backup_folder p w k v HB
                (Hnames p ltac:(left)) E Hk) as Hstep.
  unfold bind in Hstep.
  destruct (os_makedirs _ w) as [[[]|e] w1]; simpl in *; [|done].
  destruct (sh_copy2 p _ w1) as [[[]|e] w2]; simpl in *; [|done].
  by apply (Hcont COPIED).
Qed.

Lemma make_non_duplicate_backups_keeps_witness :
  w_fs (make_non_duplicate_backups ["a/x"; "nope"; "b/y"] "bk"
          w_two_sources).2 !! "a/x" = Some (File (CBytes "1")).
Proof.
  apply (make_non_duplicate_backups_keeps ["a/x"; "nope"; "b/y"] "bk"
           w_two_sources "a/x" (File (CBytes "1"))).
  - done.
  - intros p Hp. rewrite !elem_of_cons in Hp.
    destruct Hp as [->|[->|[->|Hp]]]; [done..|].
    by apply elem_of_nil in Hp.
  - vm_compute. reflexivity.
Defined.

(** X21: the test for an existing backup is by name only.  When every
    source that exists already has an entry of its base name in the
    backup folder, whatever that entry holds, nothing is copied and
    nothing changes: the result is [False] for every existing source and
    [None] for every missing one. *)
Theorem make_non_duplicate_backups_by_name
    (paths_of_files_to_back_up : list string)
    (path_to_backup_folder : string) (w : world) :
  (∀ p, p ∈ paths_of_files_to_back_up → is_Some (w_fs w !! p) →
        is_Some (w_fs w !! backup_target path_to_backup_folder p)) →
  make_non_duplicate_backups paths_of_files_to_back_up
    path_to_backup_folder w
  = (Ok (outcome2 (w_fs w) <$> paths_of_files_to_back_up), w).
Proof. apply second_call. Qed.

Lemma make_non_duplicate_backups_by_name_witness :
  make_non_duplicate_backups ["a/x"; "b/x"; "nope"] "a" w_same_name
  = (Ok (outcome2 (w_fs w_same_name) <$> ["a/x"; "b/x"; "nope"]),
     w_same_name).
Proof.
  apply (make_non_duplicate_backups_by_name ["a/x"; "b/x"; "nope"] "a"
           w_same_name).
  intros p Hp Hex. rewrite !elem_of_cons in Hp.
  destruct Hp as [->|[->|[->|Hp]]].
  - vm_compute. by eexists.
  - vm_compute. by eexists.
  - destruct Hex as [x Hx]. by vm_compute in Hx.
  - by apply elem_of_nil in Hp.
Defined.

(** ** The file tree *)

Lemma tree_insert_cons2 part part2 rest leaf d :
  tree_insert (part :: part2 :: rest) leaf (YDict d)
  = match tree_insert (part2 :: rest) leaf
            (match dict_get (part +:+ "/") d with
             | Some c => c
             | None => YDict []
             end) with
    | Ok c' => Ok (YDict (dict_set (part +:+ "/") c' d))
    | Raise e => Raise e
    end.
Proof. done. Qed.

Lemma tree_insert_not_dict part part2 rest leaf current :
  (∀ d, current ≠ YDict d) →
  tree_insert (part :: part2 :: rest) leaf current = Raise AttributeError.
Proof. intros H. destruct current; try done. by destruct (H d). Qed.

Lemma tree_lookup_cons2 part part2 rest d :
  tree_lookup (part :: part2 :: rest) (YDict d)
  = match dict_get (part +:+ "/") d with
    | Some c => tree_lookup (part2 :: rest) c
    | None => None
    end.
Proof. done. Qed.

Lemma tree_insert_lookup parts : ∀ leaf current root',
  tree_insert parts leaf current = Ok root' →
  tree_lookup parts root' = Some leaf.
Proof.
  induction parts as [|part rest IH]; intros leaf current root' H; [done|].
  destruct rest as [|part2 rest].
  - simpl in *. destruct current as [| | | |d]; try done.
    injection H as <-. rewrite dict_get_set. by rewrite decide_True.
  - destruct current as [| | | |d]; try done.
    rewrite tree_insert_cons2 in H.
    destruct (tree_insert (part2 :: rest) leaf _) as [c'|e] eqn:E; [|done].
    injection H as <-. rewrite tree_lookup_cons2.
    rewrite dict_get_set, decide_True by done. by eapply IH.
Qed.

Lemma tree_lookup_empty parts : tree_lookup parts (YDict []) = None.
Proof. destruct parts as [|p [|p2 rest]]; done. Qed.

Lemma is_part_not_folder_key part part' : is_part part → part ≠ part' +:+ "/".
Proof.
  unfold is_part. intros H ->. rewrite StrFacts.has_app in H.
  by rewrite orb_true_r in H.
Qed.

Lemma tree_insert_frame parts : ∀ leaf current root' parts',
  tree_insert parts leaf current = Ok root' →
  Forall is_part parts → Forall is_part parts' → parts' ≠ parts →
  tree_lookup parts' root' = tree_lookup parts' current.
Proof.
  induction parts as [|part rest IH];
    intros leaf current root' parts' H Hp Hp' Hne; [done|].
  apply Forall_cons in Hp as [Hpart Hrest].
  destruct parts' as [|part' rest']; [done|].
  apply Forall_cons in Hp' as [Hpart' Hrest'].
  destruct rest as [|part2 rest].
  - simpl in H. destruct current as [| | | |d]; try done.
    injection H as <-. destruct rest' as [|p2' rest'].
    + simpl. rewrite dict_get_set. rewrite decide_False; [done|congruence].
    + rewrite !tree_lookup_cons2. rewrite dict_get_set.
      rewrite decide_False; [done|]. by apply is_part_not_folder_key.
  - destruct current as [| | | |d]; try done.
    rewrite tree_insert_cons2 in H.
    destruct (tree_insert (part2 :: rest) leaf _) as [c'|e] eqn:E; [|done].
    injection H as <-. destruct rest' as [|p2' rest'].
    + simpl. rewrite dict_get_set. rewrite decide_False; [done|].
      intros Heq. by apply (is_part_not_folder_key part' part).
    + rewrite !tree_lookup_cons2. rewrite dict_get_set.
      destruct (decide (part +:+ "/" = part' +:+ "/")) as [Heq|Hd]; [|done].
      apply StrFacts.app_inv_tail in Heq. subst part'.
      rewrite (IH _ _ _ (p2' :: rest') E Hrest Hrest') by congruence.
      destruct (dict_get (part +:+ "/") d); [done|].
      apply tree_lookup_empty.
Qed.

(** X22: the walk of [_update_file_tree] through the tree.  When the
    insertion of a leaf at a path succeeds, looking that path up in the
    new tree gives the leaf; and when the components of the paths hold
    no [/] (as those of [Path.parts] do), every other path looks up as
    before. *)
Theorem tree_insert_round_trip (parts : list string) (leaf current root' : yval) :
  tree_insert parts leaf current = Ok root' →
  tree_lookup parts root' = Some leaf ∧
  (Forall is_part parts →
   ∀ parts', Forall is_part parts' → parts' ≠ parts →
             tree_lookup parts' root' = tree_lookup parts' current).
Proof.
  intros H. split; [by eapply tree_insert_lookup|].
  intros Hp parts' Hp' Hne. by eapply tree_insert_frame.
Qed.

Lemma tree_insert_round_trip_witness :
  tree_lookup ["files"; "c1_model.pkl"]
    (YDict [("files/", YDict [("c1_model.pkl", YInt 7)])]) = Some (YInt 7) ∧
  (Forall is_part ["files"; "c1_model.pkl"] →
   ∀ parts', Forall is_part parts' → parts' ≠ ["files"; "c1_model.pkl"] →
             tree_lookup parts'
               (YDict [("files/", YDict [("c1_model.pkl", YInt 7)])])
             = tree_lookup parts' (YDict [])).
Proof.
  apply (tree_insert_round_trip ["files"; "c1_model.pkl"] (YInt 7) (YDict [])).
  reflexivity.
Defined.

(** ** Paths in normal form *)

Lemma rstrip_slash_normal s : ends_with_slash s = false → Str.rstrip_slash s = s.
Proof.
  induction s as [|a s IH]; [done|]. intros H.
  destruct s as [|b s].
  - simpl in *. case_bool_decide as Ha; [done|].
    rewrite decide_False; [done|]. by intros [? _].
  - change (ends_with_slash (String a (String b s)))
      with (ends_with_slash (String b s)) in H.
    specialize (IH H). cbn [Str.rstrip_slash]. cbn [Str.rstrip_slash] in IH.
    rewrite IH. rewrite decide_False; [done|]. by intros [_ ?].
Qed.

Lemma dirprefix_normal pp :
  pp ≠ "" → ends_with_slash pp = false → dirprefix pp = pp +:+ "/".
Proof.
  intros Hne Hn. unfold dirprefix. rewrite decide_False by done.
  by rewrite Hn.
Qed.

Lemma child_eq pp name :
  pp ≠ "" → ends_with_slash pp = false → starts_with_slash name = false →
  osp_join pp name = pp +:+ "/" +:+ name.
Proof.
  intros Hne Hn Hrel. rewrite osp_join_rel by done.
  rewrite dirprefix_normal by done. by rewrite StrFacts.app_assoc.
Qed.

Lemma dirname_child pp name :
  pp ≠ "" → ends_with_slash pp = false → is_part name →
  osp_dirname (pp +:+ "/" +:+ name) = pp.
Proof.
  intros Hne Hn Hpart. unfold osp_dirname.
  change ("/" +:+ name) with (String "/" name).
  rewrite StrFacts.rsplit_app by done.
  rewrite StrFacts.rstrip_slash_snoc_slash, rstrip_slash_normal by done.
  by rewrite decide_False.
Qed.

Lemma path_parent_child pp name :
  pp ≠ "" → ends_with_slash pp = false → is_part name →
  path_parent (pp +:+ "/" +:+ name) = pp.
Proof.
  intros Hne Hn Hpart. unfold path_parent.
  rewrite dirname_child by done. by rewrite decide_False.
Qed.

Lemma ancestors_child pp name :
  pp ≠ "" → ends_with_slash pp = false → is_part name →
  ancestors (pp +:+ "/" +:+ name) = (ancestors pp ++ [pp])%list.
Proof.
  intros Hne Hn Hpart. unfold ancestors.
  rewrite ancestors_from_app. f_equal.
  rewrite StrFacts.app_nil_l.
  change ("/" +:+ name) with (String "/" name). cbn [ancestors_from].
  rewrite decide_True by done.
  by rewrite ancestors_from_no_slash.
Qed.

Lemma child_not_chain pp r :
  pp +:+ "/" +:+ r ∉ (ancestors pp ++ [pp])%list.
Proof.
  intros Hin.
  assert (String.length (pp +:+ "/" +:+ r) ≤ String.length pp)%nat as Hlen.
  { apply elem_of_app in Hin as [Hin|Hin%list_elem_of_singleton].
    - apply ancestors_from_length in Hin. simpl in Hin. lia.
    - rewrite Hin. lia. }
  rewrite !StrFacts.length_app in Hlen. simpl in Hlen. lia.
Qed.

Lemma child_nonempty pp r : pp +:+ "/" +:+ r ≠ "".
Proof.
  intros H. apply (f_equal String.length) in H.
  rewrite !StrFacts.length_app in H. simpl in H. lia.
Qed.

(** ** Running forwards in a folder that is ready *)

Lemma mkdir_chain_app_ready qs rest w :
  (∀ q, q ∈ qs → w_fs w !! q = Some Dir) →
  mkdir_chain (qs ++ rest) w = mkdir_chain rest w.
Proof.
  induction qs as [|q0 qs IH]; intros Hall; [done|].
  simpl. munfold. rewrite (Hall q0) by left. apply IH.
  intros q Hq. apply Hall. by right.
Qed.

Lemma os_makedirs_ready pp w :
  pp ≠ "" → dir_ready pp (w_fs w) → os_makedirs pp w = (Ok tt, w).
Proof.
  intros Hne Hr. unfold os_makedirs. rewrite decide_False by done.
  by apply mkdir_chain_noop.
Qed.

Lemma os_makedirs_child pp name w :
  pp ≠ "" → ends_with_slash pp = false → is_part name →
  dir_ready pp (w_fs w) →
  w_fs w !! (pp +:+ "/" +:+ name) = None →
  os_makedirs (pp +:+ "/" +:+ name) w
  = (Ok tt, made (pp +:+ "/" +:+ name) w).
Proof.
  intros Hne Hn Hpart Hr Hfree. unfold os_makedirs.
  rewrite decide_False by apply child_nonempty.
  rewrite ancestors_child by done.
  rewrite mkdir_chain_app_ready by done.
  simpl. munfold. by rewrite Hfree.
Qed.

Lemma open_write_ok p c w :
  w_fs w !! p ≠ Some Dir →
  osp_dirname p ≠ "" → w_fs w !! osp_dirname p = Some Dir →
  open_write p c w = (Ok tt, written p c w).
Proof.
  intros Hp Hd Hdir. unfold open_write. munfold.
  destruct (w_fs w !! p) as [[c0|]|]; try done;
    rewrite decide_False by done; by rewrite Hdir.
Qed.

Lemma write_document_child fuel c pp name w :
  pp ≠ "" → ends_with_slash pp = false → is_part name →
  dir_ready pp (w_fs w) →
  w_fs w !! (pp +:+ "/" +:+ name) ≠ Some Dir →
  write_document fuel c (pp +:+ "/" +:+ name) "" false w
  = (Ok tt, written (pp +:+ "/" +:+ name) c w).
Proof.
  intros Hne Hn Hpart Hr Hnd. unfold write_document.
  rewrite StrFacts.app_nil_r. unfold osp_exists. rewrite gets_bind.
  cbv beta. cbn [andb]. rewrite ret_bind.
  rewrite path_parent_child by done.
  rewrite (bind_ok _ _ _ _ _ (os_makedirs_ready pp w Hne Hr)).
  apply open_write_ok; [done| |]; rewrite dirname_child by done; [done|].
  apply Hr, elem_of_app. right. by left.
Qed.

Lemma dir_ready_written pp r c w :
  dir_ready pp (w_fs w) →
  dir_ready pp (w_fs (written (pp +:+ "/" +:+ r) c w)).
Proof.
  intros Hr q Hq. simpl. rewrite lookup_insert_ne; [by apply Hr|].
  intros <-. by apply child_not_chain in Hq.
Qed.

Lemma dir_ready_made pp r w :
  dir_ready pp (w_fs w) → dir_ready pp (w_fs (made (pp +:+ "/" +:+ r) w)).
Proof.
  intros Hr q Hq. simpl. rewrite lookup_insert_ne; [by apply Hr|].
  intros <-. by apply child_not_chain in Hq.
Qed.

Lemma docs_ok_written pp r c w :
  docs_ok pp (w_fs w) → docs_ok pp (w_fs (written (pp +:+ "/" +:+ r) c w)).
Proof.
  intros Hd n Hn. simpl. rewrite lookup_insert. case_decide; [done|].
  by apply Hd.
Qed.

Lemma write_if_missing_child c pp name w :
  pp ≠ "" → ends_with_slash pp = false → is_part name →
  dir_ready pp (w_fs w) →
  w_fs w !! (pp +:+ "/" +:+ name) = None →
  write_if_missing c (pp +:+ "/" +:+ name) w
  = (Ok tt, written (pp +:+ "/" +:+ name) c w).
Proof.
  intros Hne Hn Hpart Hr Hfree. unfold write_if_missing, osp_exists.
  rewrite gets_bind. cbv beta.
  rewrite (proj2 (fs_exists_false _ _) Hfree). cbn [negb].
  apply write_document_child; try done. by rewrite Hfree.
Qed.

Lemma child_inj pp a b : pp +:+ "/" +:+ a = pp +:+ "/" +:+ b → a = b.
Proof. by intros H%StrFacts.app_inv_head%StrFacts.app_inv_head. Qed.

Lemma lookup_written_ne p c w q :
  p ≠ q → w_fs (written p c w) !! q = w_fs w !! q.
Proof. intros H. simpl. by rewrite lookup_insert_ne. Qed.

Lemma lookup_written p c w : w_fs (written p c w) !! p = Some (File c).
Proof. simpl. by rewrite lookup_insert_eq. Qed.

Lemma lookup_made_ne p w q : p ≠ q → w_fs (made p w) !! q = w_fs w !! q.
Proof. intros H. simpl. by rewrite lookup_insert_ne. Qed.

Lemma lookup_made p w : w_fs (made p w) !! p = Some Dir.
Proof. simpl. by rewrite lookup_insert_eq. Qed.

Lemma os_makedirs_dir_ready p w w' :
  os_makedirs p w = (Ok tt, w') → dir_ready p (w_fs w').
Proof.
  unfold os_makedirs. case_decide as Hd; [done|]. intros H q Hq.
  by eapply mkdir_chain_dirs.
Qed.

Ltac child_ne := let H := fresh in intros H%child_inj; discriminate H.

Ltac lookup_child :=
  repeat first
    [ rewrite lookup_written | rewrite lookup_made
    | rewrite lookup_written_ne by child_ne
    | rewrite lookup_made_ne by child_ne ].

Ltac ready :=
  repeat first [apply dir_ready_written | apply dir_ready_made]; done.

(** The world that [setup] makes of a folder that was just created. *)
Lemma setup_fresh pp w :
  pp ≠ "" → ends_with_slash pp = false →
  dir_ready pp (w_fs w) →
  (∀ r, w_fs w !! (pp +:+ "/" +:+ r) = None) →
  singleton_storage_fns.setup pp w
  = (Ok pp,
     made (pp +:+ "/" +:+ "files")
       (made (pp +:+ "/" +:+ "old_yamls")
          (written (pp +:+ "/" +:+ "tiny_db.json") (CJson ∅)
             (written (pp +:+ "/" +:+ "file_tree.yaml") (CYaml [])
                (written (pp +:+ "/" +:+ "shared_storage.yaml") (CYaml [])
                   (written (pp +:+ "/" +:+ "main.yaml") (CYaml []) w)))))).
Proof.
  intros Hne Hn Hr Hbelow. rewrite setup_eq. unfold setup_steps.
  rewrite !(child_eq pp) by done.
  do 4 (erewrite bind_ok
          by (apply write_if_missing_child;
              [done | done | done | ready | lookup_child; apply Hbelow])).
  do 2 (erewrite bind_ok
          by (apply os_makedirs_child;
              [done | done | done | ready | lookup_child; apply Hbelow])).
  done.
Qed.


(** X23: [setup] on a folder that was just created.  For a named folder
    in normal form that is a directory (with its ancestors) and has
    nothing below it, [setup] returns the folder and leaves exactly this
    behind: the four documents, each holding the empty dictionary, and
    the two sub-folders [old_yamls] and [files]; nothing else is
    touched. *)
Theorem setup_fresh_folder (path_to_novel_storage_folder : string)
    (w : world) :
  path_to_novel_storage_folder ≠ "" →
  ends_with_slash path_to_novel_storage_folder = false →
  dir_ready path_to_novel_storage_folder (w_fs w) →
  (∀ r, w_fs w !! (path_to_novel_storage_folder +:+ "/" +:+ r) = None) →
  ∃ w',
    singleton_storage_fns.setup path_to_novel_storage_folder w
    = (Ok path_to_novel_storage_folder, w') ∧
    w_fs w'
    = <[osp_join path_to_novel_storage_folder "files" := Dir]>
        (<[osp_join path_to_novel_storage_folder "old_yamls" := Dir]>
           (<[osp_join path_to_novel_storage_folder "tiny_db.json"
              := File (CJson ∅)]>
              (<[osp_join path_to_novel_storage_folder "file_tree.yaml"
                 := File (CYaml [])]>
                 (<[osp_join path_to_novel_storage_folder
                      "shared_storage.yaml" := File (CYaml [])]>
                    (<[osp_join path_to_novel_storage_folder "main.yaml"
                       := File (CYaml [])]> (w_fs w)))))) ∧
    write_paths (w_log w')
    = (write_paths (w_log w) ++
       [osp_join path_to_novel_storage_folder "main.yaml";
        osp_join path_to_novel_storage_folder "shared_storage.yaml";
        osp_join path_to_novel_storage_folder "file_tree.yaml";
        osp_join path_to_novel_storage_folder "tiny_db.json"])%list.
Proof.
  intros Hne Hn Hr Hbelow. eexists. split; [by apply setup_fresh|].
  rewrite !(child_eq path_to_novel_storage_folder) by done.
  split; [done|]. simpl. by rewrite !write_paths_app, <-!(assoc_L (++)).
Qed.

Lemma setup_fresh_folder_witness :
  ∃ w',
    singleton_storage_fns.setup "p" w_empty_dir = (Ok "p", w') ∧
    w_fs w'
    = <[osp_join "p" "files" := Dir]>
        (<[osp_join "p" "old_yamls" := Dir]>
           (<[osp_join "p" "tiny_db.json" := File (CJson ∅)]>
              (<[osp_join "p" "file_tree.yaml" := File (CYaml [])]>
                 (<[osp_join "p" "shared_storage.yaml" := File (CYaml [])]>
                    (<[osp_join "p" "main.yaml" := File (CYaml [])]>
                       (w_fs w_empty_dir)))))) ∧
    write_paths (w_log w')
    = (write_paths (w_log w_empty_dir) ++
       [osp_join "p" "main.yaml"; osp_join "p" "shared_storage.yaml";
        osp_join "p" "file_tree.yaml"; osp_join "p" "tiny_db.json"])%list.
Proof.
  apply (setup_fresh_folder "p" w_empty_dir).
  - done.
  - reflexivity.
  - intros q Hq. vm_compute in Hq. apply list_elem_of_singleton in Hq as ->.
    reflexivity.
  - intros r. simpl. rewrite lookup_insert_ne by done. apply lookup_empty.
Defined.
